(** * ffmpeg-normalize: the per-stream normalization logic of [_streams.py]

    A shallow embedding of [ffmpeg_normalize/_streams.py] and the proofs of
    the properties its specification states about it.

    - Python numbers are [int] (here [Z]) and [float] (here the IEEE 754
      binary64 numbers of the Standard Library's [SpecFloat], precision 53,
      [emax] 1024), compared exactly as Python compares them.
    - Python objects live in a heap of attribute dictionaries, so that a
      write through [self.media_file.ffmpeg_normalize] is seen by every
      holder of that object. An attribute that is not there is an
      [AttributeError]; nothing is assumed about the classes [MediaFile]
      and [FFmpegNormalize], which are defined in other modules.
    - Dictionaries are values: an item assignment is written back to the
      attribute that holds the dictionary.
    - Methods run in a small monad threading the heap and the log and
      carrying Python exceptions.
    - Library functions the module calls but does not define ([float] on a
      [str], [str], [json.loads], [json.dumps], [dict_to_filter_opts]) are
      the fields of the class [Runtime]; every theorem holds for all of
      its instances.
    - Text is the UTF-8 encoding of a Python [str], in a string of bytes;
      the class [\d] of the regular expressions and the white space of
      [str.strip] are those of Python 3 on [str]: the decimal digits and
      the white space of Unicode.
    - [parse_astats] and [parse_loudnorm_stats] are generators around one
      run of ffmpeg: what they do before the run (setting up the command)
      and after it (reading the output) is embedded in two parts; running
      the command is not part of the model.
    - [os.path.basename] and the [NUL] of [_cmd_utils] are the fields of
      the class [OsRuntime]. A [bytes] or an [os.PathLike] is an object,
      and what [os.path.basename] makes of an object is a field too.
    - The specification's [MeasurementParseError] and [PlannerError] are
      both the module's one error class, [FFmpegNormalizeError]. *)

From Stdlib Require Import ZArith Bool List String Ascii SpecFloat Lia.
From stdpp Require Import base option list strings gmap pretty.

Set Warnings "-register-all".
Local Open Scope string_scope.
Local Open Scope Z_scope.

(** ** Python numbers *)

Module PyNum.

Definition prec : Z := 53.
Definition emax : Z := 1024.

(** A Python [int] or [float]. *)
Inductive num :=
| NInt (z : Z)
| NFloat (f : spec_float).

Definition inf : spec_float := S754_infinity false.
Definition neg_inf : spec_float := S754_infinity true.

(** [z ?= m * 2^e], without rounding. *)
Definition Zcompare_dyadic (z m e : Z) : comparison :=
  match e with
  | Zneg p => (z * 2 ^ Zpos p ?= m)
  | _ => (z ?= m * 2 ^ e)
  end.

(** Python compares an [int] with a [float] by value, not by converting
    the [int]. *)
Definition int_float_compare (z : Z) (f : spec_float) : option comparison :=
  match f with
  | S754_nan => None
  | S754_infinity s => Some (if s then Gt else Lt)
  | S754_zero _ => Some (z ?= 0)
  | S754_finite s m e => Some (Zcompare_dyadic z (cond_Zopp s (Zpos m)) e)
  end.

(** [None] when one side is NaN: every ordered comparison is then false. *)
Definition num_compare (a b : num) : option comparison :=
  match a, b with
  | NInt x, NInt y => Some (x ?= y)
  | NFloat x, NFloat y => SFcompare x y
  | NInt x, NFloat y => int_float_compare x y
  | NFloat x, NInt y => CompOpp <$> int_float_compare y x
  end.

Definition num_lt (a b : num) : bool :=
  match num_compare a b with Some Lt => true | _ => false end.
Definition num_gt (a b : num) : bool :=
  match num_compare a b with Some Gt => true | _ => false end.
Definition num_le (a b : num) : bool :=
  match num_compare a b with Some (Lt | Eq) => true | _ => false end.
Definition num_eq (a b : num) : bool :=
  match num_compare a b with Some Eq => true | _ => false end.
(** [a != b] *)
Definition num_ne (a b : num) : bool := negb (num_eq a b).

Definition is_nan (a : num) : bool :=
  match a with NFloat S754_nan => true | _ => false end.

(** The builtin [min(a, b)]: the first argument unless the second is
    smaller. *)
Definition py_min (a b : num) : num := if num_lt b a then b else a.
(** The builtin [max(a, b)]: the first argument unless the second is
    greater. *)
Definition py_max (a b : num) : num := if num_gt b a then b else a.

(** [float(z)] for an [int]: rounded to nearest even; [None] is
    [OverflowError]. *)
Definition float_of_Z (z : Z) : option spec_float :=
  match binary_normalize prec emax z 0 false with
  | S754_infinity _ => None
  | f => Some f
  end.

Definition to_float (a : num) : option spec_float :=
  match a with
  | NInt z => float_of_Z z
  | NFloat f => Some f
  end.

(** [a + b] and [a - b]: exact on two [int]s, otherwise in binary64;
    [None] is [OverflowError]. *)
Definition num_add (a b : num) : option num :=
  match a, b with
  | NInt x, NInt y => Some (NInt (x + y))
  | _, _ =>
      x ← to_float a; y ← to_float b; Some (NFloat (SFadd prec emax x y))
  end.

Definition num_sub (a b : num) : option num :=
  match a, b with
  | NInt x, NInt y => Some (NInt (x - y))
  | _, _ =>
      x ← to_float a; y ← to_float b; Some (NFloat (SFsub prec emax x y))
  end.

(** The same number: equal as Python's [==] has it, or both NaN. *)
Definition num_same (a b : num) : Prop :=
  num_eq a b = true \/ (is_nan a = true /\ is_nan b = true).

End PyNum.
Export PyNum.

(** ** Python values *)

Definition loc := positive.

Inductive pyval :=
| VNone
| VBool (b : bool)
| VNum (n : num)
| VStr (s : string)
| VList (l : list pyval)
| VDict (d : gmap string pyval)
| VRef (l : loc).

Definition VInt (z : Z) : pyval := VNum (NInt z).
Definition VFloat (f : spec_float) : pyval := VNum (NFloat f).

(** The exceptions the module raises or lets through. *)
Inductive exn :=
| FFmpegNormalizeError (msg : string)
| ValueError (msg : string)
| KeyError (key : string)
| TypeError
| AttributeError (name : string)
| OverflowError
| JSONDecodeError (msg : string).

Inductive outcome (A : Type) :=
| Ok (a : A)
| Raise (e : exn).
Arguments Ok {A} a.
Arguments Raise {A} e.

Inductive level := DEBUG | INFO | WARNING.

Record world := World {
  heap : gmap loc (gmap string pyval);
  log : list (level * string)
}.

(** Library functions used by the module and defined outside it. *)
Class Runtime := {
  (** [float(s)] for a [str]; [None] is [ValueError] *)
  float_of_str : string -> option spec_float;
  (** [str(v)], as an f-string or [format] renders a value *)
  py_str : pyval -> string;
  (** [str(e)] for a caught exception *)
  exn_str : exn -> string;
  json_loads : string -> outcome pyval;
  json_dumps : pyval -> string;
  (** [_cmd_utils.dict_to_filter_opts], on the items of the dict in
      insertion order *)
  dict_to_filter_opts : list (string * pyval) -> string
}.

(** ** The monad of methods *)

Definition M (A : Type) : Type := world -> outcome A * world.

Definition ret {A} (a : A) : M A := fun w => (Ok a, w).
Definition raise {A} (e : exn) : M A := fun w => (Raise e, w).
Definition bind {A B} (m : M A) (k : A -> M B) : M B :=
  fun w => match m w with
           | (Ok a, w') => k a w'
           | (Raise e, w') => (Raise e, w')
           end.
Definition lift {A} (o : outcome A) : M A := fun w => (o, w).

Declare Scope py_scope.
Delimit Scope py_scope with py.
Notation "x <- c1 ;; c2" := (bind c1 (fun x => c2))
  (at level 100, c1 at next level, right associativity) : py_scope.
Notation "c1 ;; c2" := (bind c1 (fun _ => c2))
  (at level 100, right associativity) : py_scope.
Local Open Scope py_scope.

Definition add_log (lv : level) (msg : string) (w : world) : world :=
  World (heap w) (log w ++ [(lv, msg)])%list.

Definition logger (lv : level) (msg : string) : M unit :=
  fun w => (Ok tt, add_log lv msg w).

(** The same monad without a world, for the pure parts. *)
Definition obind {A B} (o : outcome A) (k : A -> outcome B) : outcome B :=
  match o with
  | Ok a => k a
  | Raise e => Raise e
  end.

Notation "x <~ c1 ;; c2" := (obind c1 (fun x => c2))
  (at level 100, c1 at next level, right associativity) : py_scope.

(** ** Operations on values *)

(** The truth value of an object, as [if], [and] and [not] take it. *)
Definition truthy (v : pyval) : bool :=
  match v with
  | VNone => false
  | VBool b => b
  | VNum (NInt z) => negb (z =? 0)
  | VNum (NFloat f) => negb (SFeqb f (S754_zero false))
  | VStr s => negb (String.eqb s "")
  | VList l => match l with [] => false | _ :: _ => true end
  | VDict d => match map_to_list d with [] => false | _ :: _ => true end
  | VRef _ => true
  end.

(** The numeric view of a value: a [bool] is an [int]. *)
Definition as_num (v : pyval) : option num :=
  match v with
  | VBool b => Some (NInt (if b then 1 else 0))
  | VNum n => Some n
  | _ => None
  end.

(** [v == s] for a string literal [s]. *)
Definition val_eq_str (v : pyval) (s : string) : bool :=
  match v with
  | VStr t => String.eqb t s
  | _ => false
  end.

(** [a < b] and [a <= b]. Numbers compare by value and strings by their
    characters; the ordering of two lists is not modelled (no list reaches
    a comparison in this module) and, like every other pair, is a
    [TypeError] here. *)
Definition py_lt (a b : pyval) : outcome bool :=
  match as_num a, as_num b with
  | Some x, Some y => Ok (num_lt x y)
  | _, _ =>
      match a, b with
      | VStr s, VStr t => Ok (String.ltb s t)
      | _, _ => Raise TypeError
      end
  end.

Definition py_le (a b : pyval) : outcome bool :=
  match as_num a, as_num b with
  | Some x, Some y => Ok (num_le x y)
  | _, _ =>
      match a, b with
      | VStr s, VStr t => Ok (String.leb s t)
      | _, _ => Raise TypeError
      end
  end.

(** [a > b], used on numbers only. *)
Definition py_gt (a b : pyval) : outcome bool :=
  match as_num a, as_num b with
  | Some x, Some y => Ok (num_gt x y)
  | _, _ =>
      match a, b with
      | VStr s, VStr t => Ok (String.ltb t s)
      | _, _ => Raise TypeError
      end
  end.

Definition of_num (o : option num) : outcome pyval :=
  match o with
  | Some n => Ok (VNum n)
  | None => Raise OverflowError
  end.

(** [a + b] *)
Definition py_add (a b : pyval) : outcome pyval :=
  match as_num a, as_num b with
  | Some x, Some y => of_num (num_add x y)
  | _, _ =>
      match a, b with
      | VStr s, VStr t => Ok (VStr (s +:+ t))
      | VList l, VList k => Ok (VList (l ++ k)%list)
      | _, _ => Raise TypeError
      end
  end.

(** [a - b] *)
Definition py_sub (a b : pyval) : outcome pyval :=
  match as_num a, as_num b with
  | Some x, Some y => of_num (num_sub x y)
  | _, _ => Raise TypeError
  end.

(** [d[key]] for a string key. *)
Definition py_getitem (d : pyval) (key : string) : outcome pyval :=
  match d with
  | VDict m =>
      match m !! key with
      | Some v => Ok v
      | None => Raise (KeyError key)
      end
  | _ => Raise TypeError
  end.

(** [d[key] = v], returning the updated dictionary. *)
Definition py_setitem (d : pyval) (key : string) (v : pyval) : outcome pyval :=
  match d with
  | VDict m => Ok (VDict (<[key := v]> m))
  | _ => Raise TypeError
  end.

(** ** The heap of objects *)

(** [v.name] *)
Definition getattr (v : pyval) (name : string) : M pyval :=
  fun w =>
    match v with
    | VRef l =>
        match heap w !! l with
        | Some o =>
            match o !! name with
            | Some x => (Ok x, w)
            | None => (Raise (AttributeError name), w)
            end
        | None => (Raise (AttributeError name), w)
        end
    | _ => (Raise (AttributeError name), w)
    end.

(** [v.name = x] *)
Definition setattr (v : pyval) (name : string) (x : pyval) : M unit :=
  fun w =>
    match v with
    | VRef l =>
        match heap w !! l with
        | Some o => (Ok tt, World (<[l := <[name := x]> o]> (heap w)) (log w))
        | None => (Raise (AttributeError name), w)
        end
    | _ => (Raise (AttributeError name), w)
    end.

(** A new object without attributes, as a class call makes it before it
    runs [__init__]. *)
Definition new_object : M pyval :=
  fun w =>
    let l := fresh (dom (heap w)) in
    (Ok (VRef l), World (<[l := ∅]> (heap w)) (log w)).

(** ** The stream classes *)

Section Streams.
Context `{Runtime}.

(** [float(v)] *)
Definition py_float (v : pyval) : outcome spec_float :=
  match as_num v with
  | Some n =>
      match to_float n with
      | Some f => Ok f
      | None => Raise OverflowError
      end
  | None =>
      match v with
      | VStr s =>
          match float_of_str s with
          | Some f => Ok f
          | None => Raise (ValueError ("could not convert string to float: '" +:+ s +:+ "'"))
          end
      | _ => Raise TypeError
      end
  end.

(** [MediaStream.__init__] *)
Definition MediaStream_init (self ffmpeg_normalize media_file stream_type stream_id : pyval)
  : M unit :=
  setattr self "ffmpeg_normalize" ffmpeg_normalize ;;
  setattr self "media_file" media_file ;;
  setattr self "stream_type" stream_type ;;
  setattr self "stream_id" stream_id.

(** [VideoStream.__init__] *)
Definition VideoStream_init (self ffmpeg_normalize media_file stream_id : pyval) : M unit :=
  MediaStream_init self media_file ffmpeg_normalize (VStr "video") stream_id.

(** [SubtitleStream.__init__] *)
Definition SubtitleStream_init (self ffmpeg_normalize media_file stream_id : pyval) : M unit :=
  MediaStream_init self media_file ffmpeg_normalize (VStr "subtitle") stream_id.

Definition short_duration_msg : string :=
  "Audio stream has a duration of less than 3 seconds. "
  +:+ "Normalization may not work. "
  +:+ "See https://github.com/slhck/ffmpeg-normalize/issues/87 for more info.".

(** [AudioStream.__init__] *)
Definition AudioStream_init
  (self ffmpeg_normalize media_file stream_id sample_rate bit_depth duration : pyval)
  : M unit :=
  MediaStream_init self media_file ffmpeg_normalize (VStr "audio") stream_id ;;
  setattr self "loudness_statistics"
    (VDict (<["ebu" := VNone]> (<["mean" := VNone]> (<["max" := VNone]> ∅)))) ;;
  setattr self "sample_rate" sample_rate ;;
  setattr self "bit_depth" bit_depth ;;
  setattr self "duration" duration ;;
  n <- getattr self "ffmpeg_normalize" ;;
  nt <- getattr n "normalization_type" ;;
  short <- (if val_eq_str nt "ebu" then
              d <- getattr self "duration" ;;
              if truthy d then
                d' <- getattr self "duration" ;;
                lift (py_le d' (VInt 3))
              else ret false
            else ret false) ;;
  if (short : bool) then logger WARNING short_duration_msg else ret tt.

(** The class calls [VideoStream(...)], [SubtitleStream(...)] and
    [AudioStream(...)]: a new object, initialised. *)
Definition VideoStream (ffmpeg_normalize media_file stream_id : pyval) : M pyval :=
  self <- new_object ;;
  VideoStream_init self ffmpeg_normalize media_file stream_id ;;
  ret self.

Definition SubtitleStream (ffmpeg_normalize media_file stream_id : pyval) : M pyval :=
  self <- new_object ;;
  SubtitleStream_init self ffmpeg_normalize media_file stream_id ;;
  ret self.

Definition AudioStream
  (ffmpeg_normalize media_file stream_id sample_rate bit_depth duration : pyval) : M pyval :=
  self <- new_object ;;
  AudioStream_init self ffmpeg_normalize media_file stream_id sample_rate bit_depth duration ;;
  ret self.

(** ** [AudioStream._constrain] *)

Definition constrain_msg (name : string) (min_range max_range number result : num) : string :=
  "Constraining " +:+ name +:+ " to range of [" +:+ py_str (VNum min_range) +:+ ", "
  +:+ py_str (VNum max_range) +:+ "]: " +:+ py_str (VNum number) +:+ " -> "
  +:+ py_str (VNum result).

Definition _constrain (number min_range max_range : num) (name : option string) : M num :=
  if num_gt min_range max_range then
    raise (ValueError "min must be smaller than max")
  else
    let result := py_max (py_min number max_range) min_range in
    (if num_ne result number then
       match name with
       | Some n => logger WARNING (constrain_msg n min_range max_range number result)
       | None => ret tt
       end
     else ret tt) ;;
    ret result.

(** ** [AudioStream.parse_astats]: reading the captured output *)

(** The payload of a continuation byte [10xxxxxx] of UTF-8. *)
Definition continuation (c : ascii) : option N :=
  let n := N_of_ascii c in
  if ((128 <=? n) && (n <? 192))%N then Some (n - 128)%N else None.

(** The first character of a text: its code point and the number of bytes
    of its encoding. [None] on the empty text and where the bytes are not
    the encoding of a character. *)
Definition utf8_head (s : string) : option (N * nat) :=
  match s with
  | "" => None
  | String a s1 =>
      let n := N_of_ascii a in
      if (n <? 128)%N then Some (n, 1%nat)
      else if (n <? 192)%N then None
      else if (n <? 224)%N then
        match s1 with
        | String b _ =>
            match continuation b with
            | Some x => Some (((n - 192) * 64 + x)%N, 2%nat)
            | None => None
            end
        | "" => None
        end
      else if (n <? 240)%N then
        match s1 with
        | String b (String c _) =>
            match continuation b, continuation c with
            | Some x, Some y => Some ((((n - 224) * 64 + x) * 64 + y)%N, 3%nat)
            | _, _ => None
            end
        | _ => None
        end
      else if (n <? 248)%N then
        match s1 with
        | String b (String c (String d _)) =>
            match continuation b, continuation c, continuation d with
            | Some x, Some y, Some z =>
                Some (((((n - 240) * 64 + x) * 64 + y) * 64 + z)%N, 4%nat)
            | _, _, _ => None
            end
        | _ => None
        end
      else None
  end.

(** The decimal digits of Unicode (general category [Nd], as of Unicode
    14, the data of Python 3.11) come in runs of ten, from zero to nine:
    the code point of each zero. The first run is the ASCII digits. *)
Definition decimal_zeros : list N :=
  [
    48; 1632; 1776; 1984; 2406; 2534; 2662; 2790; 2918; 3046; 3174; 3302;
    3430; 3558; 3664; 3792; 3872; 4160; 4240; 6112; 6160; 6470; 6608; 6784;
    6800; 6992; 7088; 7232; 7248; 42528; 43216; 43264; 43472; 43504; 43600;
    44016; 65296; 66720; 68912; 69734; 69872; 69942; 70096; 70384; 70736;
    70864; 71248; 71360; 71472; 71904; 72016; 72784; 73040; 73120; 92768;
    92864; 93008; 120782; 120792; 120802; 120812; 120822; 123200; 123632;
    125264; 130032
  ]%N.

(** The class [\d] of [re] on a [str]: the decimal digits. *)
Definition is_digit (cp : N) : bool :=
  existsb (fun zero => (zero <=? cp) && (cp <? zero + 10))%N decimal_zeros.

(** The character class [[\-\d\.]]. *)
Definition is_level_char (cp : N) : bool :=
  (cp =? 45)%N || is_digit cp || (cp =? 46)%N.

(** The number of bytes of the character at the head of [s] when it is of
    the class, [0] when it is not. *)
Definition level_char_len (s : string) : nat :=
  match utf8_head s with
  | Some (cp, len) => if is_level_char cp then len else 0%nat
  | None => 0%nat
  end.

(** The longest prefix of [s] made of characters of the class; [copy]
    counts the bytes still to take of a character that is being taken. *)
Fixpoint level_run_from (copy : nat) (s : string) : string :=
  match s with
  | "" => ""
  | String c s' =>
      match copy with
      | S k => String c (level_run_from k s')
      | O =>
          match level_char_len s with
          | S k => String c (level_run_from k s')
          | O => ""
          end
      end
  end.

Definition level_run (s : string) : string := level_run_from 0 s.

(** [Some rest] when [s] is [p] followed by [rest]. *)
Fixpoint strip_prefix (p s : string) : option string :=
  match p with
  | "" => Some s
  | String a p' =>
      match s with
      | String b s' => if Ascii.eqb a b then strip_prefix p' s' else None
      | "" => None
      end
  end.

(** The matches of [label] followed by a non-empty run of the class, from
    left to right and without overlap; [skip] counts the bytes of the last
    match still to pass. *)
Fixpoint findall_from (label : string) (skip : nat) (s : string) : list string :=
  match s with
  | "" => []
  | String _ s' =>
      match skip with
      | S k => findall_from label k s'
      | O =>
          match strip_prefix label s with
          | Some rest =>
              let m := level_run rest in
              if (0 <? String.length m)%nat then
                m :: findall_from label (String.length label + String.length m - 1) s'
              else findall_from label 0 s'
          | None => findall_from label 0 s'
          end
      end
  end.

(** [re.findall(label + r"([\-\d\.]+)", output)] for a literal, non-empty
    [label]: the list of the groups. *)
Definition re_findall_level (label output : string) : list string :=
  findall_from label 0 output.

(** [self.loudness_statistics[key] = v] *)
Definition set_statistic (self : pyval) (key : string) (v : pyval) : M unit :=
  ls <- getattr self "loudness_statistics" ;;
  ls' <- lift (py_setitem ls key v) ;;
  setattr self "loudness_statistics" ls'.

(** [self.loudness_statistics[key]] *)
Definition statistic (self : pyval) (key : string) : M pyval :=
  ls <- getattr self "loudness_statistics" ;;
  lift (py_getitem ls key).

(** [self.media_file.input_file] *)
Definition input_file (self : pyval) : M pyval :=
  mf <- getattr self "media_file" ;;
  getattr mf "input_file".

(** One of the two blocks of [parse_astats] that read a level: lines
    177-186 for [("RMS level dB: ", "mean", "mean")] and lines 188-197 for
    [("Peak level dB: ", "max", "max")]. *)
Definition parse_level (self : pyval) (label key what output : string) : M unit :=
  match re_findall_level label output with
  | m :: _ =>
      if String.eqb m "-" then set_statistic self key (VFloat neg_inf)
      else
        f <- lift (py_float (VStr m)) ;;
        set_statistic self key (VFloat f)
  | [] =>
      file <- input_file self ;;
      raise (FFmpegNormalizeError ("Could not get " +:+ what +:+ " volume for " +:+ py_str file))
  end.

(** [parse_astats] from the point where the command has run: [output] is
    [cmd_runner.get_output()] (lines 177-197). *)
Definition parse_astats (self : pyval) (output : string) : M unit :=
  parse_level self "RMS level dB: " "mean" "mean" output ;;
  parse_level self "Peak level dB: " "max" "max" output.

(** ** [AudioStream._parse_loudnorm_output] *)

Definition nl : string := String "010"%char "".

(** The loop of lines 254-260 from position [index] on, [loudnorm_start]
    being what the earlier lines left; [False] is [0], as in Python.
    Returns [(loudnorm_start, loudnorm_end)]. *)
Fixpoint loudnorm_scan (output_lines : list string) (index loudnorm_start : nat) : nat * nat :=
  match output_lines with
  | [] => (loudnorm_start, 0%nat)
  | line :: rest =>
      if String.prefix "[Parsed_loudnorm" line then
        loudnorm_scan rest (S index) (index + 1)%nat
      else if negb (loudnorm_start =? 0)%nat && String.prefix "}" line then
        (loudnorm_start, (index + 1)%nat)
      else loudnorm_scan rest (S index) loudnorm_start
  end.

(** [output_lines[loudnorm_start:loudnorm_end]] *)
Definition slice {A} (l : list A) (i j : nat) : list A := take (j - i) (drop i l).

Definition ebu_keys : list string :=
  ["input_i"; "input_tp"; "input_lra"; "input_thresh";
   "output_i"; "output_tp"; "output_lra"; "output_thresh"; "target_offset"].

(** The body of the loop of lines 274-292 for one key. *)
Definition validate_key (loudnorm_stats : pyval) (key : string) : outcome pyval :=
  v1 <~ py_getitem loudnorm_stats key ;;
  f1 <~ py_float v1 ;;
  if SFeqb f1 (SFopp inf) then py_setitem loudnorm_stats key (VInt (-99))
  else
    v2 <~ py_getitem loudnorm_stats key ;;
    f2 <~ py_float v2 ;;
    if SFeqb f2 inf then py_setitem loudnorm_stats key (VInt 0)
    else
      v3 <~ py_getitem loudnorm_stats key ;;
      f3 <~ py_float v3 ;;
      py_setitem loudnorm_stats key (VFloat f3).

Fixpoint validate_keys (keys : list string) (loudnorm_stats : pyval) : outcome pyval :=
  match keys with
  | [] => Ok loudnorm_stats
  | key :: rest =>
      stats' <~ validate_key loudnorm_stats key ;;
      validate_keys rest stats'
  end.

Definition wrong_json_msg (e : exn) : string :=
  "Could not parse loudnorm stats; wrong JSON format in string: " +:+ exn_str e.

(** The [try] block of lines 267-298 on the joined text. *)
Definition decode_loudnorm_stats (text : string) : M pyval :=
  match json_loads text with
  | Raise e => raise (FFmpegNormalizeError (wrong_json_msg e))
  | Ok loudnorm_stats =>
      logger DEBUG ("Loudnorm stats parsed: " +:+ json_dumps loudnorm_stats) ;;
      match validate_keys ebu_keys loudnorm_stats with
      | Ok validated => ret validated
      | Raise e => raise (FFmpegNormalizeError (wrong_json_msg e))
      end
  end.

Definition _parse_loudnorm_output (output_lines : list string) : M pyval :=
  let '(loudnorm_start, loudnorm_end) := loudnorm_scan output_lines 0 0 in
  if negb (negb (loudnorm_start =? 0)%nat && negb (loudnorm_end =? 0)%nat) then
    raise (FFmpegNormalizeError
             "Could not parse loudnorm stats; no loudnorm-related output found")
  else
    decode_loudnorm_stats (String.concat nl (slice output_lines loudnorm_start loudnorm_end)).

(** The last statement of [parse_loudnorm_stats] (lines 246-248), on the
    stripped lines of the output. *)
Definition parse_loudnorm_stats (self : pyval) (output_lines : list string) : M unit :=
  ebu <- _parse_loudnorm_output output_lines ;;
  set_statistic self "ebu" ebu.

(** ** [AudioStream.get_second_pass_opts_ebu] *)

(** [self.loudness_statistics["ebu"][key]] *)
Definition ebu_item (self : pyval) (key : string) : M pyval :=
  ebu <- statistic self "ebu" ;;
  lift (py_getitem ebu key).

(** [self.media_file.ffmpeg_normalize] *)
Definition targets (self : pyval) : M pyval :=
  mf <- getattr self "media_file" ;;
  getattr mf "ffmpeg_normalize".

(** [self.media_file.ffmpeg_normalize.name] *)
Definition target (self : pyval) (name : string) : M pyval :=
  n <- targets self ;;
  getattr n name.

Definition first_pass_msg : string :=
  "First pass not run, you must call parse_loudnorm_stats first".

(** Lines 305-308. *)
Definition ebu_first_pass_check (self : pyval) : M unit :=
  ebu <- statistic self "ebu" ;;
  if negb (truthy ebu) then raise (FFmpegNormalizeError first_pass_msg) else ret tt.

(** Lines 310-314. *)
Definition ebu_cap_input_i (self : pyval) : M unit :=
  input_i <- ebu_item self "input_i" ;;
  f <- lift (py_float input_i) ;;
  if num_gt (NFloat f) (NInt 0) then
    shown <- ebu_item self "input_i" ;;
    logger WARNING ("Input file had measured input loudness greater than zero ("
                    +:+ py_str shown +:+ "), capping at 0") ;;
    ls <- getattr self "loudness_statistics" ;;
    ebu <- lift (py_getitem ls "ebu") ;;
    ebu' <- lift (py_setitem ebu "input_i" (VInt 0)) ;;
    ls' <- lift (py_setitem ls "ebu" ebu') ;;
    setattr self "loudness_statistics" ls'
  else ret tt.

Definition dynamic_fallback_msg (input_lra loudness_range_target : pyval) : string :=
  "Input file had loudness range of " +:+ py_str input_lra
  +:+ ", which is larger than the loudness range target ("
  +:+ py_str loudness_range_target +:+ "). "
  +:+ "Normalization will revert to dynamic mode. Choose a higher target loudness range if you want linear normalization. "
  +:+ "Alternatively, use the --keep-loudness-range-target option to keep the target loudness range from the input.".

(** Lines 316-334; returns [will_use_dynamic_mode]. *)
Definition ebu_dynamic_mode (self : pyval) : M pyval :=
  will_use_dynamic_mode <- target self "dynamic" ;;
  keep <- target self "keep_loudness_range_target" ;;
  (if truthy keep then
     logger DEBUG "Keeping target loudness range in second pass loudnorm filter" ;;
     input_lra <- ebu_item self "input_lra" ;;
     n <- targets self ;;
     setattr n "loudness_range_target" input_lra
   else ret tt) ;;
  loudness_range_target <- target self "loudness_range_target" ;;
  input_lra <- ebu_item self "input_lra" ;;
  less <- lift (py_lt loudness_range_target input_lra) ;;
  if (less : bool) && negb (truthy will_use_dynamic_mode) then
    shown_lra <- ebu_item self "input_lra" ;;
    shown_target <- target self "loudness_range_target" ;;
    logger WARNING (dynamic_fallback_msg shown_lra shown_target) ;;
    ret (VBool true)
  else ret will_use_dynamic_mode.

Definition sample_rate_msg : string :=
  "In dynamic mode, the sample rate will automatically be set to 192 kHz by the loudnorm filter. "
  +:+ "Specify -ar/--sample-rate to override it.".

(** Lines 336-340. *)
Definition ebu_sample_rate_warning (self will_use_dynamic_mode : pyval) : M unit :=
  if truthy will_use_dynamic_mode then
    n <- getattr self "ffmpeg_normalize" ;;
    sample_rate <- getattr n "sample_rate" ;;
    if negb (truthy sample_rate) then logger WARNING sample_rate_msg else ret tt
  else ret tt.

(** [self._constrain(float(stats[key]), lo, hi, name=key)] *)
Definition constrained (stats : pyval) (key : string) (lo hi : Z) : M pyval :=
  v <- lift (py_getitem stats key) ;;
  f <- lift (py_float v) ;;
  r <- _constrain (NFloat f) (NInt lo) (NInt hi) (Some key) ;;
  ret (VNum r).

(** Lines 342-358: the dictionary [opts], as its items in insertion
    order. *)
Definition ebu_opts (self : pyval) : M (list (string * pyval)) :=
  stats <- statistic self "ebu" ;;
  target_level <- target self "target_level" ;;
  loudness_range_target <- target self "loudness_range_target" ;;
  true_peak <- target self "true_peak" ;;
  offset <- constrained stats "target_offset" (-99) 99 ;;
  measured_i <- constrained stats "input_i" (-99) 0 ;;
  measured_lra <- constrained stats "input_lra" 0 99 ;;
  measured_tp <- constrained stats "input_tp" (-99) 99 ;;
  measured_thresh <- constrained stats "input_thresh" (-99) 0 ;;
  dynamic <- target self "dynamic" ;;
  let opts :=
    [("i", target_level); ("lra", loudness_range_target); ("tp", true_peak);
     ("offset", offset); ("measured_i", measured_i); ("measured_lra", measured_lra);
     ("measured_tp", measured_tp); ("measured_thresh", measured_thresh);
     ("linear", VStr (if truthy dynamic then "false" else "true"));
     ("print_format", VStr "json")] in
  dual_mono <- target self "dual_mono" ;;
  ret (if truthy dual_mono then (opts ++ [("dual_mono", VStr "true")])%list else opts).

(** The planner up to the dictionary: [will_use_dynamic_mode] at line 342
    and [opts] at line 360. *)
Definition second_pass_plan_ebu (self : pyval) : M (pyval * list (string * pyval)) :=
  ebu_first_pass_check self ;;
  ebu_cap_input_i self ;;
  will_use_dynamic_mode <- ebu_dynamic_mode self ;;
  ebu_sample_rate_warning self will_use_dynamic_mode ;;
  opts <- ebu_opts self ;;
  ret (will_use_dynamic_mode, opts).

Definition get_second_pass_opts_ebu (self : pyval) : M string :=
  plan <- second_pass_plan_ebu self ;;
  ret ("loudnorm=" +:+ dict_to_filter_opts (snd plan)).

(** ** [AudioStream.get_second_pass_opts_peakrms] *)

Definition adjustment_msg : string :=
  "Can only set adjustment for peak and RMS normalization".

(** Lines 367-377: [adjustment]. *)
Definition peakrms_adjustment (self normalization_type target_level : pyval) : M pyval :=
  if val_eq_str normalization_type "peak" then
    shifted <- lift (py_add (VInt 0) target_level) ;;
    max_db <- statistic self "max" ;;
    lift (py_sub shifted max_db)
  else if val_eq_str normalization_type "rms" then
    mean_db <- statistic self "mean" ;;
    lift (py_sub target_level mean_db)
  else raise (FFmpegNormalizeError adjustment_msg).

Definition get_second_pass_opts_peakrms (self : pyval) : M string :=
  normalization_type <- target self "normalization_type" ;;
  target_level <- target self "target_level" ;;
  adjustment <- peakrms_adjustment self normalization_type target_level ;;
  stream_id <- getattr self "stream_id" ;;
  logger INFO ("Adjusting stream " +:+ py_str stream_id +:+ " by " +:+ py_str adjustment
               +:+ " dB to reach " +:+ py_str target_level) ;;
  max_db <- statistic self "max" ;;
  level <- lift (py_add max_db adjustment) ;;
  clips <- lift (py_gt level (VInt 0)) ;;
  (if (clips : bool) then
     max_db' <- statistic self "max" ;;
     level' <- lift (py_add max_db' adjustment) ;;
     logger WARNING ("Adjusting will lead to clipping of " +:+ py_str level' +:+ " dB")
   else ret tt) ;;
  ret ("volume=" +:+ py_str adjustment +:+ "dB").

End Streams.

(** ** A sample runtime

    One instance of [Runtime], for running the definitions on concrete
    inputs. Every theorem below holds for all instances; this one only
    fixes the inputs of the examples. Each row of [sample_float_of_str] is
    what Python's [float] returns on that string, and the strings outside
    the table that the examples use (["-."]) are rejected by Python too.
    [float] reads every decimal digit of Unicode: [arabic_three] is the
    digit three of the Arabic script, U+0663, whose encoding is the bytes
    217 and 163. *)

Definition arabic_three : string := String "217" (String "163" "").

Definition float_of_int (z : Z) : spec_float := binary_normalize prec emax z 0 false.

Definition sample_float_of_str (s : string) : option spec_float :=
  if String.eqb s "inf" then Some inf
  else if String.eqb s "-inf" then Some neg_inf
  else if String.eqb s "nan" then Some S754_nan
  else if String.eqb s "-23.0" then Some (float_of_int (-23))
  else if String.eqb s "-1.2" then
    Some (SFdiv prec emax (float_of_int (-12)) (float_of_int 10))
  else if String.eqb s "-70.0" then Some (float_of_int (-70))
  else if String.eqb s "9.0" then Some (float_of_int 9)
  else if String.eqb s arabic_three then Some (float_of_int 3)
  else if String.eqb s "0.5" then
    Some (SFdiv prec emax (float_of_int 1) (float_of_int 2))
  else None.

Definition sample_py_str (v : pyval) : string :=
  match v with
  | VNone => "None"
  | VBool true => "True"
  | VBool false => "False"
  | VStr s => s
  | VNum (NInt z) => pretty z
  | VNum (NFloat _) => "<float>"
  | VList _ => "<list>"
  | VDict _ => "<dict>"
  | VRef _ => "<object>"
  end.

Definition sample_exn_str (e : exn) : string :=
  match e with
  | FFmpegNormalizeError msg | ValueError msg | JSONDecodeError msg => msg
  | KeyError key => "'" +:+ key +:+ "'"
  | AttributeError name => "object has no attribute '" +:+ name +:+ "'"
  | TypeError => "unsupported operand"
  | OverflowError => "int too large to convert to float"
  end.

(** A report as the loudnorm filter prints it, with a silent input. *)
Definition sample_report : gmap string pyval :=
  <["input_i" := VStr "-inf"]> (<["input_tp" := VStr "-1.2"]>
  (<["input_lra" := VStr "9.0"]> (<["input_thresh" := VStr "-70.0"]>
  (<["output_i" := VStr "-23.0"]> (<["output_tp" := VStr "-1.2"]>
  (<["output_lra" := VStr "inf"]> (<["output_thresh" := VStr "-70.0"]>
  (<["normalization_type" := VStr "dynamic"]>
  (<["target_offset" := VStr "0.5"]> ∅))))))))).

(** The decoder on three documents: the text ["{" ; "report" ; "}"] stands
    for [sample_report], ["{" ; "no_lra" ; "}"] for the same object without
    ["input_lra"], and ["{" ; "}"] for the empty object. *)
Definition sample_json_loads (text : string) : outcome pyval :=
  if String.eqb text ("{" +:+ nl +:+ "report" +:+ nl +:+ "}") then
    Ok (VDict sample_report)
  else if String.eqb text ("{" +:+ nl +:+ "no_lra" +:+ nl +:+ "}") then
    Ok (VDict (delete "input_lra" sample_report))
  else if String.eqb text ("{" +:+ nl +:+ "}") then Ok (VDict ∅)
  else Raise (JSONDecodeError "Expecting value").

(** [":".join(f"{k}={v}" for k, v in opts.items())] *)
Definition sample_dict_to_filter_opts (opts : list (string * pyval)) : string :=
  String.concat ":" (map (fun kv => fst kv +:+ "=" +:+ sample_py_str (snd kv)) opts).

Definition sample_runtime : Runtime := {|
  float_of_str := sample_float_of_str;
  py_str := sample_py_str;
  exn_str := sample_exn_str;
  json_loads := sample_json_loads;
  json_dumps := fun _ => "<json>";
  dict_to_filter_opts := sample_dict_to_filter_opts
|}.

(** ** Reading a world

    The attribute and item reads of the methods as functions of the world,
    for stating what a world holds. *)

(** [v.name] in [w]. *)
Definition attr (w : world) (v : pyval) (name : string) : option pyval :=
  match v with
  | VRef l => o ← heap w !! l; o !! name
  | _ => None
  end.

(** [w] after [VRef l.name = x]. *)
Definition wset (w : world) (l : loc) (name : string) (x : pyval) : world :=
  match heap w !! l with
  | Some o => World (<[l := <[name := x]> o]> (heap w)) (log w)
  | None => w
  end.

Definition item (d : pyval) (key : string) : option pyval :=
  match d with
  | VDict m => m !! key
  | _ => None
  end.

(** [self.media_file.ffmpeg_normalize.name] in [w]. *)
Definition read_target (w : world) (self : pyval) (name : string) : option pyval :=
  mf ← attr w self "media_file"; n ← attr w mf "ffmpeg_normalize"; attr w n name.

(** [self.loudness_statistics[key]] in [w]. *)
Definition read_statistic (w : world) (self : pyval) (key : string) : option pyval :=
  ls ← attr w self "loudness_statistics"; item ls key.

(** [self.loudness_statistics["ebu"][key]] in [w]. *)
Definition read_ebu_item (w : world) (self : pyval) (key : string) : option pyval :=
  ebu ← read_statistic w self "ebu"; item ebu key.

(** The value of an item of [opts]. *)
Fixpoint opt_value (opts : list (string * pyval)) (key : string) : option pyval :=
  match opts with
  | [] => None
  | (k, v) :: rest => if String.eqb k key then Some v else opt_value rest key
  end.

(** The objects of the examples: the normalization targets at location 1
    and a media file at location 2 that refers to them. *)
Definition sample_targets (normalization_type : string) (loudness_range_target : Z)
    (keep dynamic : bool) : gmap string pyval :=
  <["normalization_type" := VStr normalization_type]>
  (<["target_level" := VFloat (float_of_int (-23))]>
  (<["loudness_range_target" := VFloat (float_of_int loudness_range_target)]>
  (<["true_peak" := VFloat (float_of_int (-2))]>
  (<["offset" := VFloat (float_of_int 0)]>
  (<["dual_mono" := VBool false]>
  (<["keep_loudness_range_target" := VBool keep]>
  (<["dynamic" := VBool dynamic]>
  (<["sample_rate" := VNone]> ∅)))))))).

Definition sample_media_file : gmap string pyval :=
  <["ffmpeg_normalize" := VRef 1%positive]> (<["input_file" := VStr "in.wav"]> ∅).

Definition sample_world (normalization_type : string) (loudness_range_target : Z)
    (keep dynamic : bool) : world :=
  World (<[1%positive := sample_targets normalization_type loudness_range_target keep dynamic]>
           (<[2%positive := sample_media_file]> ∅)) [].

(** [AudioStream(media_file, ffmpeg_normalize, 0)] as the media file calls
    it: the stream is the object at location 3. *)
Definition sample_stream : M pyval :=
  AudioStream (VRef 2%positive) (VRef 1%positive) (VInt 0) VNone VNone VNone.

Definition sample_self : pyval := VRef 3%positive.

(** ** The rule of the validator

    What the specification says is stored for a field that parses to
    [f]. *)
Definition stored (f : spec_float) : pyval :=
  match f with
  | S754_infinity true => VInt (-99)
  | S754_infinity false => VInt 0
  | _ => VFloat f
  end.

(** A field of a decoded object that [float] accepts. *)
Definition parses `{Runtime} (m : gmap string pyval) (key : string) (f : spec_float) : Prop :=
  exists v, m !! key = Some v /\ py_float v = Ok f.

(** The lines of the examples: a header, then the document. *)
Definition sample_lines (body : string) : list string :=
  ["[Parsed_loudnorm_0 @ 0x55d0]"; "{"; body; "}"].

(** The text that [_parse_loudnorm_output] hands to the decoder; [None]
    when it raises before ([not (loudnorm_start and loudnorm_end)]). *)
Definition loudnorm_json (output_lines : list string) : option string :=
  let '(loudnorm_start, loudnorm_end) := loudnorm_scan output_lines 0 0 in
  if negb (loudnorm_start =? 0)%nat && negb (loudnorm_end =? 0)%nat then
    Some (String.concat nl (slice output_lines loudnorm_start loudnorm_end))
  else None.

Definition no_output_msg : string :=
  "Could not parse loudnorm stats; no loudnorm-related output found".

Definition parsed_msg `{Runtime} (loudnorm_stats : pyval) : string :=
  "Loudnorm stats parsed: " +:+ json_dumps loudnorm_stats.

(** ** Where the JSON body lies *)

Definition is_header (line : string) : bool := String.prefix "[Parsed_loudnorm" line.
Definition is_closing (line : string) : bool := String.prefix "}" line.

(** The index of the first, and of the last, element that satisfies [P]. *)
Fixpoint first_index {A} (P : A -> bool) (l : list A) : option nat :=
  match l with
  | [] => None
  | x :: rest => if P x then Some 0%nat else S <$> first_index P rest
  end.

Fixpoint last_index {A} (P : A -> bool) (l : list A) : option nat :=
  match l with
  | [] => None
  | x :: rest =>
      match last_index P rest with
      | Some i => Some (S i)
      | None => if P x then Some 0%nat else None
      end
  end.

(** The bounds as the specification words them: the body starts after the
    first header line and ends with the first later line that is exactly
    a closing brace. *)
Definition spec_json_bounds (output_lines : list string) : option (nat * nat) :=
  h ← first_index is_header output_lines;
  c ← first_index (String.eqb "}") (drop (S h) output_lines);
  Some (S h, S (S h + c)).

Definition spec_loudnorm_json (output_lines : list string) : option string :=
  (fun b => String.concat nl (slice output_lines b.1 b.2)) <$> spec_json_bounds output_lines.

(** The specification's sentence about the bounds, as a statement about
    the code. *)
Definition json_body_as_specified : Prop :=
  forall output_lines, loudnorm_json output_lines = spec_loudnorm_json output_lines.

(** The bounds the loop computes: the body ends with the first line after
    the first header that begins with a closing brace, and starts after
    the last header line before that one. *)
Definition scan_bounds (output_lines : list string) : option (nat * nat) :=
  h0 ← first_index is_header output_lines;
  c ← first_index is_closing (drop (S h0) output_lines);
  h ← last_index is_header (take (S h0 + c) output_lines);
  Some (S h, S (S h0 + c)).

Arguments is_header : simpl never.
Arguments is_closing : simpl never.

(** Lines with two headers before the body, and lines where a line that
    only begins with a closing brace comes before the closing line. *)
Definition two_header_lines : list string :=
  ["[Parsed_loudnorm_0 @ 0x55d0]"; "noise"; "[Parsed_loudnorm_1 @ 0x55e0]"; "{"; "}"].

Definition early_brace_lines : list string :=
  ["[Parsed_loudnorm_0 @ 0x55d0]"; "{"; "} trailing"; "}"].

(** ** The labels of the peak/RMS output *)

(** [label] occurs in [text]. *)
Definition occurs (label text : string) : Prop :=
  exists pre post, text = pre +:+ label +:+ post.

(** The same as a test. *)
Fixpoint contains (label text : string) : bool :=
  match strip_prefix label text with
  | Some _ => true
  | None =>
      match text with
      | "" => false
      | String _ rest => contains label rest
      end
  end.





(** The stream of the sample world, built. *)
Definition sample_stream_world (normalization_type : string) : world :=
  snd (sample_stream (sample_world normalization_type 7 false false)).

(** ** The messages of the peak/RMS planner *)

Definition adjusting_msg `{Runtime} (stream_id adjustment target_level : pyval) : string :=
  "Adjusting stream " +:+ py_str stream_id +:+ " by " +:+ py_str adjustment
  +:+ " dB to reach " +:+ py_str target_level.

Definition clipping_msg `{Runtime} (level : pyval) : string :=
  "Adjusting will lead to clipping of " +:+ py_str level +:+ " dB".

Definition volume_filter `{Runtime} (adjustment : pyval) : string :=
  "volume=" +:+ py_str adjustment +:+ "dB".

(** The log after the planner has returned the gain [adjustment] for a
    stream whose peak is [max_db]: the adjustment is reported, and the
    clipping is too when [max_db + adjustment > 0]. *)
Definition gain_log `{Runtime} (stream_id target_level : pyval) (max_db adjustment : spec_float)
  : list (level * string) :=
  let clipped := SFadd prec emax max_db adjustment in
  (INFO, adjusting_msg stream_id (VFloat adjustment) target_level)
  :: (if num_gt (NFloat clipped) (NInt 0) then [(WARNING, clipping_msg (VFloat clipped))]
      else []).

(** A stream after a peak/RMS measurement, and the targets it is
    normalized to. *)
Definition peakrms_ready (w : world) (self normalization_type : pyval) (target_level : num)
    (mean_db max_db : spec_float) (stream_id : pyval) : Prop :=
  read_target w self "normalization_type" = Some normalization_type
  /\ read_target w self "target_level" = Some (VNum target_level)
  /\ read_statistic w self "mean" = Some (VFloat mean_db)
  /\ read_statistic w self "max" = Some (VFloat max_db)
  /\ attr w self "stream_id" = Some stream_id.

(** A measured stream (location 3) with integral levels, for the examples
    of the specification. *)
Definition gain_world (normalization_type : string) (target_level mean_db max_db : Z)
  : world :=
  World
    (<[1%positive := <["normalization_type" := VStr normalization_type]>
                       (<["target_level" := VFloat (float_of_int target_level)]> ∅)]>
     (<[2%positive := sample_media_file]>
      (<[3%positive :=
           <["media_file" := VRef 2%positive]>
           (<["stream_id" := VInt 0]>
            (<["loudness_statistics" :=
                 VDict (<["mean" := VFloat (float_of_int mean_db)]>
                        (<["max" := VFloat (float_of_int max_db)]>
                         (<["ebu" := VNone]> ∅)))]> ∅))]> ∅)))
    [].

(** ** What the EBU planner reads *)

(** The fields of the report that the planner reads. *)
Definition planner_keys : list string :=
  ["target_offset"; "input_i"; "input_lra"; "input_tp"; "input_thresh"].

(** A stream after an EBU measurement, with its targets: the report is a
    dictionary whose five fields read by the planner are accepted by
    [float] (a validated report is one), the targets and the sample rate
    can be read, and the target range can be compared with the measured
    one. [loudness_range_target], [keep] and [dynamic] are the caller's
    settings and [input_lra] is the measured range. *)
Definition ebu_plannable `{Runtime} (w : world) (self : pyval) (report : gmap string pyval)
    (loudness_range_target keep dynamic input_lra : pyval) : Prop :=
  (exists ls, attr w self "loudness_statistics" = Some (VDict ls)
              /\ ls !! "ebu" = Some (VDict report))
  /\ (forall key, key ∈ planner_keys -> exists f, parses report key f)
  /\ report !! "input_lra" = Some input_lra
  /\ read_target w self "loudness_range_target" = Some loudness_range_target
  /\ read_target w self "keep_loudness_range_target" = Some keep
  /\ read_target w self "dynamic" = Some dynamic
  /\ is_Some (read_target w self "target_level")
  /\ is_Some (read_target w self "true_peak")
  /\ is_Some (read_target w self "dual_mono")
  /\ (exists n, attr w self "ffmpeg_normalize" = Some n /\ is_Some (attr w n "sample_rate")).

(** The target range the planner works with: the measured one when the
    input's range is kept. *)
Definition effective_range (keep loudness_range_target input_lra : pyval) : pyval :=
  if truthy keep then input_lra else loudness_range_target.

(** [self._constrain(f, lo, hi)], the value. *)
Definition clamped (f : spec_float) (lo hi : Z) : pyval :=
  VNum (py_max (py_min (NFloat f) (NInt hi)) (NInt lo)).

(** Two worlds that agree on every attribute but those called [name]. *)
Definition agree_except (name : string) (w w' : world) : Prop :=
  forall v n, n <> name -> attr w' v n = attr w v n.

(** The log of [w'] continues that of [w]. *)
Definition log_extends (w w' : world) : Prop :=
  exists extra, log w' = (log w ++ extra)%list.

(** A measured stream (location 3) for the examples of the planner: the
    targets ask for the range [loudness_range_target] and the input has
    the range [input_lra]. *)
Definition sample_ebu_report (input_lra : Z) : gmap string pyval :=
  <["input_i" := VFloat (float_of_int (-20))]>
  (<["input_tp" := VFloat (float_of_int (-1))]>
  (<["input_lra" := VFloat (float_of_int input_lra)]>
  (<["input_thresh" := VFloat (float_of_int (-30))]>
  (<["output_i" := VFloat (float_of_int (-23))]>
  (<["output_tp" := VFloat (float_of_int (-2))]>
  (<["output_lra" := VFloat (float_of_int input_lra)]>
  (<["output_thresh" := VFloat (float_of_int (-33))]>
  (<["normalization_type" := VStr "dynamic"]>
  (<["target_offset" := VFloat (float_of_int 0)]> ∅))))))))).

Definition ebu_world (loudness_range_target input_lra : Z) (keep dynamic : bool) : world :=
  World
    (<[1%positive := sample_targets "ebu" loudness_range_target keep dynamic]>
     (<[2%positive := sample_media_file]>
      (<[3%positive :=
           <["media_file" := VRef 2%positive]>
           (<["ffmpeg_normalize" := VRef 1%positive]>
            (<["stream_id" := VInt 0]>
             (<["loudness_statistics" :=
                  VDict (<["ebu" := VDict (sample_ebu_report input_lra)]>
                         (<["mean" := VNone]> (<["max" := VNone]> ∅)))]> ∅)))]> ∅)))
    [].

(** The specification's sentence about the fallback, as a statement about
    the code: whenever a planning call returns, the target range it ends
    with is below the measured range and dynamic mode was not asked for,
    the options have [linear=false]. *)
Definition fallback_sets_linear_false : Prop :=
  forall (R : Runtime) (w w' : world) (self will_use_dynamic_mode : pyval)
         (opts : list (string * pyval)) (loudness_range_target input_lra dynamic : pyval),
    second_pass_plan_ebu self w = (Ok (will_use_dynamic_mode, opts), w') ->
    read_target w' self "loudness_range_target" = Some loudness_range_target ->
    read_ebu_item w' self "input_lra" = Some input_lra ->
    py_lt loudness_range_target input_lra = Ok true ->
    read_target w self "dynamic" = Some dynamic ->
    truthy dynamic = false ->
    opt_value opts "linear" = Some (VStr "false").

(** The specification's sentence about the log of the clamp, as a
    statement about the code: whenever the clamp changes the value, one
    warning is added to the log. *)
Definition changed_value_is_logged : Prop :=
  forall (R : Runtime) (number min_range max_range : num) (name : option string) (w : world),
    num_le min_range max_range = true ->
    num_ne (py_max (py_min number max_range) min_range) number = true ->
    exists msg,
      log (snd (_constrain number min_range max_range name w))
      = (log w ++ [(WARNING, msg)])%list.

(** ** The platform

    What the module takes from [os.path] and from [_cmd_utils] besides
    [dict_to_filter_opts]. *)
Class OsRuntime := {
  (** [os.path.basename] on a [str] *)
  basename : string -> string;
  (** [os.path.basename] on an object, as an f-string shows it: the base
      name of what [os.fspath] gives for a [bytes] or an [os.PathLike],
      the exception for an object that is neither *)
  object_basename : gmap loc (gmap string pyval) -> loc -> outcome string;
  (** [_cmd_utils.NUL], the name of the null device *)
  NUL : string
}.

(** ** Reports, codec and first-pass commands *)

Section Reporting.
Context `{Runtime} `{OsRuntime}.

(** [os.path.basename(v)]: the base name of a [str]; what the platform
    makes of an object; [TypeError] from [os.fspath] for [None], a [bool],
    a number, a list and a dictionary. *)
Definition py_basename (v : pyval) : M string :=
  fun w =>
    match v with
    | VStr s => (Ok (basename s), w)
    | VRef l => (object_basename (heap w) l, w)
    | VNone | VBool _ | VNum _ | VList _ | VDict _ => (Raise TypeError, w)
    end.

(** [MediaStream.__repr__] (lines 26-31). *)
Definition MediaStream_repr (self : pyval) : M string :=
  file <- input_file self ;;
  base <- py_basename file ;;
  stream_type <- getattr self "stream_type" ;;
  stream_id <- getattr self "stream_id" ;;
  ret ("<" +:+ base +:+ ", " +:+ py_str stream_type +:+ " stream " +:+ py_str stream_id
       +:+ ">").

(** [AudioStream.__repr__] (lines 86-89). *)
Definition AudioStream_repr (self : pyval) : M string :=
  file <- input_file self ;;
  base <- py_basename file ;;
  stream_id <- getattr self "stream_id" ;;
  ret ("<" +:+ base +:+ ", audio stream " +:+ py_str stream_id +:+ ">").

(** [d.update(other)] for two dictionaries: the items of [other] win.
    [loudness_statistics] is a dictionary in every state the module
    produces; an update from [None], a number or an object without keys is
    a [TypeError] in Python, and an update from a sequence of pairs, which
    is not modelled, is one here too. *)
Definition py_update (d other : pyval) : outcome pyval :=
  match d, other with
  | VDict m, VDict o => Ok (VDict (o ∪ m))
  | _, _ => Raise TypeError
  end.

(** [AudioStream.get_stats] (lines 105-115). *)
Definition get_stats (self : pyval) : M pyval :=
  file <- input_file self ;;
  mf <- getattr self "media_file" ;;
  output_file <- getattr mf "output_file" ;;
  stream_id <- getattr self "stream_id" ;;
  let stats :=
    VDict (<["input_file" := file]> (<["output_file" := output_file]>
          (<["stream_id" := stream_id]> ∅))) in
  ls <- getattr self "loudness_statistics" ;;
  lift (py_update stats ls).

(** [v in [z1, z2, ...]] for a list of [int]s: some element equals [v]. *)
Definition py_in (v : pyval) (l : list Z) : bool :=
  match as_num v with
  | Some n => existsb (fun z => num_eq n (NInt z)) l
  | None => false
  end.

Definition unsupported_depth_msg (bit_depth : pyval) : string :=
  "Unsupported bit depth " +:+ py_str bit_depth +:+ ", falling back to pcm_s16le".

(** [AudioStream.get_pcm_codec] (lines 117-128). *)
Definition get_pcm_codec (self : pyval) : M string :=
  bit_depth <- getattr self "bit_depth" ;;
  if negb (truthy bit_depth) then ret "pcm_s16le"
  else
    bit_depth <- getattr self "bit_depth" ;;
    small <- lift (py_le bit_depth (VInt 8)) ;;
    if (small : bool) then ret "pcm_s8"
    else
      bit_depth <- getattr self "bit_depth" ;;
      if py_in bit_depth [16; 24; 32; 64] then
        bit_depth <- getattr self "bit_depth" ;;
        ret ("pcm_s" +:+ py_str bit_depth +:+ "le")
      else
        bit_depth <- getattr self "bit_depth" ;;
        logger WARNING (unsupported_depth_msg bit_depth) ;;
        ret "pcm_s16le".

(** The items of a list as strings; [str.join] raises [TypeError] on an
    item that is not a [str]. *)
Fixpoint strs_of (l : list pyval) : outcome (list string) :=
  match l with
  | [] => Ok []
  | VStr s :: rest => r <~ strs_of rest ;; Ok (s :: r)
  | _ :: _ => Raise TypeError
  end.

(** [sep.join(l)] *)
Definition py_join (sep : string) (l : list pyval) : outcome string :=
  strs <~ strs_of l ;; Ok (String.concat sep strs).

(** [AudioStream._get_filter_str_with_pre_filter] (lines 130-141). *)
Definition _get_filter_str_with_pre_filter (self current_filter : pyval) : M string :=
  stream_id <- getattr self "stream_id" ;;
  let input_label := "[0:" +:+ py_str stream_id +:+ "]" in
  pre_filter <- target self "pre_filter" ;;
  filter_chain <- (if truthy pre_filter then
                     pre_filter <- target self "pre_filter" ;;
                     ret [pre_filter]
                   else ret []) ;;
  let filter_chain := (filter_chain ++ [current_filter])%list in
  joined <- lift (py_join "," filter_chain) ;;
  ret (input_label +:+ joined).

(** The list [cmd] of the two first passes (lines 153-166 and 220-233). *)
Definition first_pass_cmd (self : pyval) (filter_str : string) : M (list pyval) :=
  ffmpeg_exe <- target self "ffmpeg_exe" ;;
  file <- input_file self ;;
  ret [ffmpeg_exe; VStr "-nostdin"; VStr "-y"; VStr "-i"; file;
       VStr "-filter_complex"; VStr filter_str; VStr "-vn"; VStr "-sn";
       VStr "-f"; VStr "null"; VStr NUL].

Definition astats_filter : string :=
  "astats=measure_overall=Peak_level+RMS_level:measure_perchannel=0".

(** [parse_astats] up to the command it runs (lines 147-166). *)
Definition parse_astats_cmd (self : pyval) : M (list pyval) :=
  stream_id <- getattr self "stream_id" ;;
  logger INFO ("Running first pass astats filter for stream " +:+ py_str stream_id) ;;
  filter_str <- _get_filter_str_with_pre_filter self (VStr astats_filter) ;;
  first_pass_cmd self filter_str.

(** Lines 205-214: the dictionary [opts] of the first pass, as its items
    in insertion order. *)
Definition first_pass_opts (self : pyval) : M (list (string * pyval)) :=
  target_level <- target self "target_level" ;;
  loudness_range_target <- target self "loudness_range_target" ;;
  true_peak <- target self "true_peak" ;;
  offset <- target self "offset" ;;
  let opts :=
    [("i", target_level); ("lra", loudness_range_target); ("tp", true_peak);
     ("offset", offset); ("print_format", VStr "json")] in
  dual_mono <- target self "dual_mono" ;;
  ret (if truthy dual_mono then (opts ++ [("dual_mono", VStr "true")])%list else opts).

(** [parse_loudnorm_stats] up to the command it runs (lines 203-233). *)
Definition parse_loudnorm_stats_cmd (self : pyval) : M (list pyval) :=
  stream_id <- getattr self "stream_id" ;;
  logger INFO ("Running first pass loudnorm filter for stream " +:+ py_str stream_id) ;;
  opts <- first_pass_opts self ;;
  filter_str <- _get_filter_str_with_pre_filter self
                  (VStr ("loudnorm=" +:+ dict_to_filter_opts opts)) ;;
  first_pass_cmd self filter_str.

End Reporting.

(** A computation that changes no object and only adds to the log,
    whatever it returns or raises. *)
Definition reads_only {A} (m : M A) : Prop :=
  forall w, heap (snd (m w)) = heap w /\ log_extends w (snd (m w)).

(** The attributes of a stream after [MediaStream.__init__(self, x, y,
    stream_type, stream_id)]. *)
Definition media_object (x y stream_type stream_id : pyval) : gmap string pyval :=
  <["stream_id" := stream_id]> (<["stream_type" := stream_type]>
  (<["media_file" := y]> (<["ffmpeg_normalize" := x]> ∅))).

(** The attributes of a stream after the assignments of
    [AudioStream.__init__(self, ffmpeg_normalize, media_file, ...)]. *)
Definition audio_object (ffmpeg_normalize media_file stream_id sample_rate bit_depth duration
    : pyval) : gmap string pyval :=
  <["duration" := duration]> (<["bit_depth" := bit_depth]> (<["sample_rate" := sample_rate]>
  (<["loudness_statistics" :=
       VDict (<["ebu" := VNone]> (<["mean" := VNone]> (<["max" := VNone]> ∅)))]>
  (media_object media_file ffmpeg_normalize (VStr "audio") stream_id)))).

(** A path is cut after its last slash, as [posixpath.basename] does. *)
Fixpoint after_last_slash (acc s : string) : string :=
  match s with
  | "" => acc
  | String c rest =>
      if Ascii.eqb c "/" then after_last_slash "" rest
      else after_last_slash (acc +:+ String c "") rest
  end.

(** No object of the examples is a path. *)
Definition sample_os : OsRuntime := {|
  basename := after_last_slash "";
  object_basename := fun _ _ => Raise TypeError;
  NUL := "/dev/null"
|}.

(** The dictionary [get_stats] starts from. *)
Definition stats_base (input_file output_file stream_id : pyval) : gmap string pyval :=
  <["input_file" := input_file]> (<["output_file" := output_file]>
  (<["stream_id" := stream_id]> ∅)).

(** The arguments of a first pass around its filter. *)
Definition first_pass_args `{OsRuntime} (ffmpeg_exe input_file : pyval) (filter_str : string)
  : list pyval :=
  [ffmpeg_exe; VStr "-nostdin"; VStr "-y"; VStr "-i"; input_file;
   VStr "-filter_complex"; VStr filter_str; VStr "-vn"; VStr "-sn";
   VStr "-f"; VStr "null"; VStr NUL].

(** What a pre-filter that is unset or a string puts before the filter. *)
Definition pre_filter_prefix (pre_filter : pyval) : string :=
  match pre_filter with
  | VStr p => if String.eqb p "" then "" else p +:+ ","
  | _ => ""
  end.

(** The items of the first pass's [opts]. *)
Definition first_pass_items (target_level loudness_range_target true_peak offset dual_mono
    : pyval) : list (string * pyval) :=
  ([("i", target_level); ("lra", loudness_range_target); ("tp", true_peak);
    ("offset", offset); ("print_format", VStr "json")]
   ++ if truthy dual_mono then [("dual_mono", VStr "true")] else [])%list.

(** The file of the examples with an output name, and a stream on it. *)
Definition report_world : world :=
  World (<[2%positive := <["output_file" := VStr "out/normalized.mkv"]>
                           (<["input_file" := VStr "/media/in.wav"]>
                            (<["ffmpeg_normalize" := VRef 1%positive]> ∅))]>
           (<[1%positive := <["pre_filter" := VStr "highpass=f=100"]>
                              (<["ffmpeg_exe" := VStr "ffmpeg"]>
                               (<["offset" := VFloat (float_of_int 0)]>
                                (sample_targets "ebu" 7 false false)))]> ∅)) [].

(** ** The lines of the output *)

(** [str.isspace] on one character: the white space of Unicode. *)
Definition is_space (cp : N) : bool :=
  ((9 <=? cp) && (cp <=? 13) || (28 <=? cp) && (cp <=? 32) || (cp =? 133) || (cp =? 160)
   || (cp =? 5760) || (8192 <=? cp) && (cp <=? 8202) || (cp =? 8232) || (cp =? 8233)
   || (cp =? 8239) || (cp =? 8287) || (cp =? 12288))%N.

(** The number of bytes of the character at the head of [s] when it is
    white space, [0] when it is not. *)
Definition space_len (s : string) : nat :=
  match utf8_head s with
  | Some (cp, len) => if is_space cp then len else 0%nat
  | None => 0%nat
  end.

(** [s.lstrip()]; [skip] counts the bytes still to pass of a character
    that is being removed. *)
Fixpoint lstrip_from (skip : nat) (s : string) : string :=
  match s with
  | "" => ""
  | String _ rest =>
      match skip with
      | S k => lstrip_from k rest
      | O =>
          match space_len s with
          | S k => lstrip_from k rest
          | O => s
          end
      end
  end.

Definition lstrip (s : string) : string := lstrip_from 0 s.

(** [s.isspace()] or [s] empty, after the first [skip] bytes. *)
Fixpoint all_space_from (skip : nat) (s : string) : bool :=
  match s with
  | "" => true
  | String _ rest =>
      match skip with
      | S k => all_space_from k rest
      | O =>
          match space_len s with
          | S k => all_space_from k rest
          | O => false
          end
      end
  end.

(** [s.rstrip()]: the text up to where only white space follows. *)
Fixpoint rstrip (s : string) : string :=
  match s with
  | String c rest => if all_space_from 0 s then "" else String c (rstrip rest)
  | "" => ""
  end.

(** [s.strip()] *)
Definition strip (s : string) : string := rstrip (lstrip s).

(** [s.split("\n")] *)
Fixpoint split_lines (s : string) : list string :=
  match s with
  | "" => [""]
  | String c rest =>
      if Ascii.eqb c "010" then "" :: split_lines rest
      else
        match split_lines rest with
        | line :: lines => String c line :: lines
        | [] => [String c ""]
        end
  end.

(** Line 244: [[line.strip() for line in output.split("\n")]]. *)
Definition output_lines_of (output : string) : list string :=
  strip <$> split_lines output.

(** [parse_loudnorm_stats] from the point where the command has run:
    [output] is [cmd_runner.get_output()] (lines 244-248). *)
Definition parse_loudnorm_stats_output `{Runtime} (self : pyval) (output : string) : M unit :=
  parse_loudnorm_stats self (output_lines_of output).

(** A computation that changes at most the attribute [name] of [v] and
    only adds to the log, whatever it returns or raises. *)
Definition writes_only {A} (v : pyval) (name : string) (m : M A) : Prop :=
  forall w,
    (forall v' n, v' <> v \/ n <> name -> attr (snd (m w)) v' n = attr w v' n)
    /\ log_extends w (snd (m w)).

(** A computation that leaves the statistics of [self] a dictionary and
    changes in it at most the entries of [keys]. *)
Definition keeps_statistics {A} (self : pyval) (keys : list string) (m : M A) : Prop :=
  forall w stats,
    attr w self "loudness_statistics" = Some (VDict stats) ->
    exists stats',
      attr (snd (m w)) self "loudness_statistics" = Some (VDict stats')
      /\ forall key, key ∉ keys -> stats' !! key = stats !! key.

(** What a method may raise: one exception class only. *)
Definition only_parse_errors {A} (r : outcome A) : Prop :=
  match r with
  | Ok _ | Raise (FFmpegNormalizeError _) => True
  | Raise _ => False
  end.

(** A number that is not an infinity. *)
Definition not_infinite (v : pyval) : Prop :=
  exists n, v = VNum n /\ n <> NFloat inf /\ n <> NFloat neg_inf.

(** ** What the EBU planner returns and leaves *)

(** [self.media_file.ffmpeg_normalize] in [w]: the targets object. *)
Definition read_targets (w : world) (self : pyval) : option pyval :=
  mf ← attr w self "media_file"; attr w mf "ffmpeg_normalize".

Definition cap_msg `{Runtime} (shown : pyval) : string :=
  "Input file had measured input loudness greater than zero (" +:+ py_str shown
  +:+ "), capping at 0".

(** The report after lines 310-314: a measured [input_i] above zero is
    replaced by [0]. *)
Definition capped_report `{Runtime} (report : gmap string pyval) : gmap string pyval :=
  match report !! "input_i" with
  | Some v =>
      match py_float v with
      | Ok f => if num_gt (NFloat f) (NInt 0) then <["input_i" := VInt 0]> report else report
      | Raise _ => report
      end
  | None => report
  end.

(** The items of the second pass's [opts], in insertion order. *)
Definition ebu_items (target_level loudness_range_target true_peak : pyval)
    (target_offset input_i input_lra input_tp input_thresh : spec_float)
    (dynamic dual_mono : pyval) : list (string * pyval) :=
  ([("i", target_level); ("lra", loudness_range_target); ("tp", true_peak);
    ("offset", clamped target_offset (-99) 99);
    ("measured_i", clamped input_i (-99) 0);
    ("measured_lra", clamped input_lra 0 99);
    ("measured_tp", clamped input_tp (-99) 99);
    ("measured_thresh", clamped input_thresh (-99) 0);
    ("linear", VStr (if truthy dynamic then "false" else "true"));
    ("print_format", VStr "json")]
   ++ if truthy dual_mono then [("dual_mono", VStr "true")] else [])%list.

(** The options of the second pass that hold a measured value: the
    option, the field of the report it is taken from and the range it is
    clamped to (lines 348-352). *)
Definition option_ranges : list (string * string * Z * Z) :=
  [("offset", "target_offset", -99, 99); ("measured_i", "input_i", -99, 0);
   ("measured_lra", "input_lra", 0, 99); ("measured_tp", "input_tp", -99, 99);
   ("measured_thresh", "input_thresh", -99, 0)].

(** A report with an input louder than zero, and the stream of the
    examples with it. *)
Definition loud_report : gmap string pyval :=
  <["input_i" := VFloat (float_of_int 3)]> (sample_ebu_report 5).

Definition loud_world : world :=
  World
    (<[1%positive := sample_targets "ebu" 7 false false]>
     (<[2%positive := sample_media_file]>
      (<[3%positive :=
           <["media_file" := VRef 2%positive]>
           (<["ffmpeg_normalize" := VRef 1%positive]>
            (<["stream_id" := VInt 0]>
             (<["loudness_statistics" :=
                  VDict (<["ebu" := VDict loud_report]>
                         (<["mean" := VNone]> (<["max" := VNone]> ∅)))]> ∅)))]> ∅)))
    [].

(** Two streams of one file: the second one, at location 4, has not been
    measured yet. *)
Definition two_stream_world : world :=
  World (<[4%positive :=
             <["media_file" := VRef 2%positive]>
             (<["ffmpeg_normalize" := VRef 1%positive]>
              (<["stream_id" := VInt 1]>
               (<["loudness_statistics" :=
                    VDict (<["ebu" := VNone]> (<["mean" := VNone]> (<["max" := VNone]> ∅)))]>
                  ∅)))]> (heap (ebu_world 7 9 true false))) [].

Definition empty_world : world := World ∅ [].

(** * Properties *)

(** ** Numbers *)

Lemma SFcompare_antisym x y : SFcompare y x = CompOpp <$> SFcompare x y.
Proof.
  destruct x as [sx|sx| |sx mx ex], y as [sy|sy| |sy my ey]; simpl;
    try reflexivity; try (destruct sx; reflexivity); try (destruct sy; reflexivity);
    try (destruct sx, sy; reflexivity).
  assert (Hm : Pos.compare_cont Eq my mx = CompOpp (Pos.compare_cont Eq mx my))
    by (rewrite Pos.compare_cont_antisym; reflexivity).
  destruct sx, sy; simpl; try reflexivity;
    rewrite (Z.compare_antisym ex ey), Hm;
    destruct (ex ?= ey); simpl; try reflexivity;
    destruct (Pos.compare_cont Eq mx my); reflexivity.
Qed.

Lemma num_compare_antisym a b : num_compare b a = CompOpp <$> num_compare a b.
Proof.
  destruct a as [x|x], b as [y|y]; simpl.
  - f_equal. apply Z.compare_antisym.
  - reflexivity.
  - destruct (int_float_compare y x) as [[]|]; reflexivity.
  - apply SFcompare_antisym.
Qed.

Lemma SFcompare_refl x : x <> S754_nan -> SFcompare x x = Some Eq.
Proof.
  destruct x as [s|s| |s m e]; simpl; intros Hn; try congruence.
  - destruct s; reflexivity.
  - destruct s; rewrite Z.compare_refl, Pos.compare_cont_refl; reflexivity.
Qed.

Lemma num_compare_refl a : is_nan a = false -> num_compare a a = Some Eq.
Proof.
  destruct a as [z|f]; simpl.
  - intros _. by rewrite Z.compare_refl.
  - intros Hn. apply SFcompare_refl. intros ->. discriminate.
Qed.

Lemma num_compare_nan_l a b : is_nan a = true -> num_compare a b = None.
Proof.
  destruct a as [z|[]]; try discriminate. intros _. by destruct b.
Qed.

Lemma num_compare_nan_r a b : is_nan b = true -> num_compare a b = None.
Proof.
  intros Hb. rewrite num_compare_antisym, (num_compare_nan_l b a Hb). reflexivity.
Qed.

Lemma num_compare_total a b :
  is_nan a = false -> is_nan b = false -> is_Some (num_compare a b).
Proof.
  destruct a as [x|x], b as [y|y]; simpl; intros Ha Hb; try by eexists.
  - destruct y; simpl; try discriminate; by eexists.
  - destruct x; simpl; try discriminate; by eexists.
  - destruct x as [| | |[]], y as [| | |[]]; simpl; try discriminate; by eexists.
Qed.

(** What an ordered comparison says about the comparison of the values. *)
Lemma num_le_compare a b :
  num_le a b = true <-> num_compare a b = Some Lt \/ num_compare a b = Some Eq.
Proof.
  unfold num_le. destruct (num_compare a b) as [[]|]; split; intros Hc;
    try discriminate; try tauto; destruct Hc; congruence.
Qed.

Lemma num_le_not_nan a b : num_le a b = true -> is_nan a = false /\ is_nan b = false.
Proof.
  intros Hle. apply num_le_compare in Hle. split.
  - destruct (is_nan a) eqn:Ha; [|done].
    rewrite (num_compare_nan_l a b Ha) in Hle. destruct Hle; discriminate.
  - destruct (is_nan b) eqn:Hb; [|done].
    rewrite (num_compare_nan_r a b Hb) in Hle. destruct Hle; discriminate.
Qed.

Lemma num_le_not_gt a b : num_le a b = true -> num_gt a b = false.
Proof.
  unfold num_le, num_gt. by destruct (num_compare a b) as [[]|].
Qed.

Lemma num_le_not_lt_flip a b : num_le a b = true -> num_lt b a = false.
Proof.
  unfold num_le, num_lt. rewrite (num_compare_antisym a b).
  by destruct (num_compare a b) as [[]|].
Qed.

Lemma num_le_not_gt_flip a b : num_le a b = true -> num_gt a b = false.
Proof. apply num_le_not_gt. Qed.

Lemma num_not_gt_le a b :
  is_nan a = false -> is_nan b = false -> num_gt a b = false -> num_le a b = true.
Proof.
  intros Ha Hb. destruct (num_compare_total a b Ha Hb) as [c Hc].
  unfold num_gt, num_le. rewrite Hc. by destruct c.
Qed.

Lemma num_not_lt_le_flip a b :
  is_nan a = false -> is_nan b = false -> num_lt b a = false -> num_le a b = true.
Proof.
  intros Ha Hb. destruct (num_compare_total a b Ha Hb) as [c Hc].
  unfold num_lt, num_le. rewrite (num_compare_antisym a b), Hc. by destruct c.
Qed.

Lemma num_le_refl a : is_nan a = false -> num_le a a = true.
Proof. intros Ha. unfold num_le. by rewrite num_compare_refl. Qed.

Lemma num_ne_refl a : is_nan a = false -> num_ne a a = false.
Proof. intros Ha. unfold num_ne, num_eq. by rewrite num_compare_refl. Qed.

Lemma num_lt_irrefl a : num_lt a a = false.
Proof.
  unfold num_lt. destruct (is_nan a) eqn:Ha.
  - by rewrite num_compare_nan_l.
  - by rewrite num_compare_refl.
Qed.

(** ** The clamp *)

(** A value inside the range is its own clamp. *)
Lemma clamp_in_range number min_range max_range :
  num_le min_range number = true -> num_le number max_range = true ->
  py_max (py_min number max_range) min_range = number.
Proof.
  intros Hlo Hhi. unfold py_min, py_max.
  rewrite (num_le_not_lt_flip _ _ Hhi).
  by rewrite (num_le_not_gt _ _ Hlo).
Qed.

(** The clamp of a number (not NaN) lies in the range. *)
Lemma clamp_bounds number min_range max_range :
  num_le min_range max_range = true -> is_nan number = false ->
  let result := py_max (py_min number max_range) min_range in
  num_le min_range result = true /\ num_le result max_range = true.
Proof.
  intros Hr Hn. destruct (num_le_not_nan _ _ Hr) as [Hlo Hhi]. simpl.
  unfold py_min, py_max. destruct (num_lt max_range number) eqn:Hlt.
  - rewrite (num_le_not_gt _ _ Hr). split; [done|]. by apply num_le_refl.
  - destruct (num_gt min_range number) eqn:Hgt.
    + split; [by apply num_le_refl|done].
    + split; [by apply num_not_gt_le|by apply num_not_lt_le_flip].
Qed.

Section ConstrainProperties.
Context `{Runtime}.

Lemma constrain_run number min_range max_range name w :
  num_gt min_range max_range = false ->
  _constrain number min_range max_range name w =
    let result := py_max (py_min number max_range) min_range in
    (Ok result,
     if num_ne result number then
       match name with
       | Some n => add_log WARNING (constrain_msg n min_range max_range number result) w
       | None => w
       end
     else w).
Proof.
  intros Hgt. unfold _constrain. rewrite Hgt. unfold bind. simpl.
  destruct (num_ne _ number); [destruct name|]; reflexivity.
Qed.

(** C7, as the code has it. For a range with [min_range <= max_range],
    [_constrain] returns [max(min(number, max_range), min_range)]; a value
    already in the range is returned unchanged and nothing is logged;
    whenever the result differs from the value ([result != number]) and a
    field name is given, exactly one warning naming the field, the range,
    the value and the result is logged; without a name ([name=None], the
    default), or without a change, the log is left as it was; the clamp of
    a number lies in the range. With [min_range > max_range] it raises
    [ValueError]. *)
Theorem constrain_clamps (number min_range max_range : num) (name : option string)
    (w : world) :
  (num_le min_range max_range = true ->
   let result := py_max (py_min number max_range) min_range in
   fst (_constrain number min_range max_range name w) = Ok result
   /\ (num_le min_range number = true -> num_le number max_range = true ->
       _constrain number min_range max_range name w = (Ok number, w))
   /\ (num_ne result number = true -> forall n, name = Some n ->
       snd (_constrain number min_range max_range name w)
       = add_log WARNING (constrain_msg n min_range max_range number result) w)
   /\ (num_ne result number = false \/ name = None ->
       snd (_constrain number min_range max_range name w) = w)
   /\ (is_nan number = false ->
       num_le min_range result = true /\ num_le result max_range = true))
  /\ (num_gt min_range max_range = true ->
      _constrain number min_range max_range name w
      = (Raise (ValueError "min must be smaller than max"), w)).
Proof.
  split.
  - intros Hr. pose proof (num_le_not_gt _ _ Hr) as Hgt. simpl.
    rewrite (constrain_run _ _ _ _ _ Hgt). simpl. repeat split.
    + intros Hlo Hhi. rewrite (clamp_in_range _ _ _ Hlo Hhi).
      destruct (num_le_not_nan _ _ Hhi) as [Hn _]. by rewrite (num_ne_refl _ Hn).
    + intros Hne n ->. by rewrite Hne.
    + intros [Hne| ->]; [by rewrite Hne|]. by destruct (num_ne _ _).
    + by apply clamp_bounds.
    + by apply clamp_bounds.
  - intros Hgt. unfold _constrain. by rewrite Hgt.
Qed.

End ConstrainProperties.

(** The example of the specification: [target_offset = 150] clamped into
    [[-99, 99]] gives [99] and logs the change. *)
Lemma constrain_clamps_witness :
  num_le (NInt (-99)) (NInt 99) = true
  /\ num_ne (NInt 99) (NFloat (float_of_int 150)) = true
  /\ _constrain (H := sample_runtime) (NFloat (float_of_int 150)) (NInt (-99)) (NInt 99)
       (Some "target_offset") empty_world
     = (Ok (NInt 99),
        add_log WARNING
          (constrain_msg (H := sample_runtime) "target_offset" (NInt (-99)) (NInt 99)
             (NFloat (float_of_int 150)) (NInt 99))
          empty_world).
Proof.
  split; [reflexivity|]. split; [reflexivity|].
  destruct (constrain_clamps (H := sample_runtime) (NFloat (float_of_int 150))
              (NInt (-99)) (NInt 99) (Some "target_offset") empty_world) as [Hle _].
  destruct (Hle eq_refl) as (Hres & _ & Hlog & _).
  specialize (Hlog eq_refl "target_offset" eq_refl).
  destruct (_constrain _ _ _ _ _) as [r w']. simpl in Hres, Hlog.
  rewrite Hres, Hlog. reflexivity.
Defined.

(** C7, as the specification has it, fails: [_constrain(150.0, -99, 99)],
    called without a field name, changes the value and logs nothing. *)
Lemma unnamed_change_is_not_logged : ~ changed_value_is_logged.
Proof.
  intros Hspec.
  destruct (Hspec sample_runtime (NFloat (float_of_int 150)) (NInt (-99)) (NInt 99) None
              empty_world eq_refl eq_refl) as [msg Hlog].
  vm_compute in Hlog. discriminate Hlog.
Qed.


(** ** The monad and the heap *)

Lemma bind_ok {A B} (m : M A) (k : A -> M B) w a w' :
  m w = (Ok a, w') -> bind m k w = k a w'.
Proof. intros Hm. unfold bind. by rewrite Hm. Qed.

Lemma bind_raise {A B} (m : M A) (k : A -> M B) w e w' :
  m w = (Raise e, w') -> bind m k w = (Raise e, w').
Proof. intros Hm. unfold bind. by rewrite Hm. Qed.

Lemma getattr_run v name w :
  getattr v name w =
    (match attr w v name with Some x => Ok x | None => Raise (AttributeError name) end, w).
Proof.
  unfold getattr, attr. destruct v; try reflexivity.
  destruct (heap w !! l) as [o|]; simpl; [|reflexivity].
  by destruct (o !! name).
Qed.

Lemma getattr_ok v name w x : attr w v name = Some x -> getattr v name w = (Ok x, w).
Proof. intros Ha. by rewrite getattr_run, Ha. Qed.

Lemma setattr_run l name x w :
  is_Some (heap w !! l) -> setattr (VRef l) name x w = (Ok tt, wset w l name x).
Proof. intros [o Ho]. unfold setattr, wset. by rewrite Ho. Qed.

Lemma wset_allocated w l name x l' :
  is_Some (heap (wset w l name x) !! l') <-> is_Some (heap w !! l').
Proof.
  unfold wset. destruct (heap w !! l) as [o|] eqn:Ho; [|done]. simpl.
  destruct (decide (l = l')) as [->|Hne].
  - rewrite lookup_insert_eq, Ho. split; intros _; by eexists.
  - by rewrite lookup_insert_ne.
Qed.

Lemma wset_log w l name x : log (wset w l name x) = log w.
Proof. unfold wset. by destruct (heap w !! l). Qed.

Lemma attr_wset_same w l name x :
  is_Some (heap w !! l) -> attr (wset w l name x) (VRef l) name = Some x.
Proof.
  intros [o Ho]. unfold wset, attr. rewrite Ho. simpl.
  rewrite lookup_insert_eq. simpl. by rewrite lookup_insert_eq.
Qed.

Lemma attr_wset_other_name w l name x v name' :
  name <> name' -> attr (wset w l name x) v name' = attr w v name'.
Proof.
  intros Hne. unfold wset, attr. destruct v as [| | | | | |l']; try reflexivity.
  destruct (heap w !! l) as [o|] eqn:Ho; [|done]. simpl.
  destruct (decide (l = l')) as [->|Hl].
  - rewrite lookup_insert_eq, Ho. simpl. by rewrite lookup_insert_ne.
  - by rewrite lookup_insert_ne.
Qed.

Lemma attr_wset_other_loc w l name x l' name' :
  l <> l' -> attr (wset w l name x) (VRef l') name' = attr w (VRef l') name'.
Proof.
  intros Hne. unfold wset, attr.
  destruct (heap w !! l) as [o|] eqn:Ho; [|done]. simpl.
  by rewrite lookup_insert_ne.
Qed.

Lemma attr_add_log w lv msg v name : attr (add_log lv msg w) v name = attr w v name.
Proof. reflexivity. Qed.

Lemma attr_allocated w v name x : attr w v name = Some x ->
  exists l, v = VRef l /\ is_Some (heap w !! l).
Proof.
  unfold attr. destruct v as [| | | | | |l]; try discriminate.
  destruct (heap w !! l) as [o|] eqn:Ho; [|discriminate].
  intros _. exists l. split; [reflexivity|]. rewrite Ho. by exists o.
Qed.

Lemma new_object_run w :
  let l := fresh (dom (heap w)) in
  new_object w = (Ok (VRef l), World (<[l := ∅]> (heap w)) (log w))
  /\ heap w !! l = None.
Proof.
  simpl. split; [reflexivity|]. apply not_elem_of_dom, is_fresh.
Qed.

Ltac by_compute :=
  match goal with |- ?P => apply (bool_decide_unpack P); by vm_compute end.

Ltac allocated :=
  repeat (apply wset_allocated); simpl;
  first [ eassumption | rewrite lookup_insert_eq; by eexists | by eexists ].

Ltac step_setattr :=
  erewrite bind_ok by (apply setattr_run; allocated).

(** ** The constructors *)

Section ConstructorProperties.

Lemma MediaStream_init_run l a b stream_type stream_id w :
  is_Some (heap w !! l) ->
  MediaStream_init (VRef l) a b stream_type stream_id w
  = (Ok tt,
     wset (wset (wset (wset w l "ffmpeg_normalize" a) l "media_file" b)
             l "stream_type" stream_type) l "stream_id" stream_id).
Proof.
  intros Hl. unfold MediaStream_init.
  do 3 step_setattr. apply setattr_run. allocated.
Qed.

Lemma MediaStream_init_attrs l a b stream_type stream_id w w' :
  is_Some (heap w !! l) ->
  MediaStream_init (VRef l) a b stream_type stream_id w = (Ok tt, w') ->
  attr w' (VRef l) "ffmpeg_normalize" = Some a
  /\ attr w' (VRef l) "media_file" = Some b
  /\ attr w' (VRef l) "stream_type" = Some stream_type
  /\ is_Some (heap w' !! l).
Proof.
  intros Hl. rewrite (MediaStream_init_run _ _ _ _ _ _ Hl). intros [= <-].
  repeat split.
  - do 3 (rewrite attr_wset_other_name by done). by apply attr_wset_same.
  - do 2 (rewrite attr_wset_other_name by done). apply attr_wset_same. allocated.
  - rewrite attr_wset_other_name by done. apply attr_wset_same. allocated.
  - allocated.
Qed.

(** [VideoStream(...)] and [SubtitleStream(...)] always return, with the
    two arguments stored under each other's name. *)
Lemma plain_stream_swapped kind a b stream_id w :
  exists l w',
    (self <- new_object ;;
     MediaStream_init self b a (VStr kind) stream_id ;;
     ret self) w = (Ok (VRef l), w')
    /\ attr w' (VRef l) "media_file" = Some a
    /\ attr w' (VRef l) "ffmpeg_normalize" = Some b
    /\ attr w' (VRef l) "stream_type" = Some (VStr kind).
Proof.
  destruct (new_object_run w) as [Hnew _]. simpl in Hnew.
  set (l := fresh (dom (heap w))) in *.
  set (w1 := World (<[l := ∅]> (heap w)) (log w)) in *.
  assert (Hl : is_Some (heap w1 !! l)) by (simpl; rewrite lookup_insert_eq; by eexists).
  eexists l, _. split.
  - rewrite (bind_ok _ _ _ _ _ Hnew).
    rewrite (bind_ok _ _ _ _ _ (MediaStream_init_run l b a (VStr kind) stream_id w1 Hl)).
    reflexivity.
  - destruct (MediaStream_init_attrs l b a (VStr kind) stream_id w1 _ Hl
                (MediaStream_init_run l b a (VStr kind) stream_id w1 Hl))
      as (Hf & Hm & Ht & _).
    done.
Qed.

(** After the assignments of [AudioStream.__init__] nothing changes the
    heap: what is left reads attributes and may log. *)
Lemma AudioStream_init_attrs l a b stream_id sample_rate bit_depth duration w w' :
  is_Some (heap w !! l) ->
  AudioStream_init (VRef l) a b stream_id sample_rate bit_depth duration w = (Ok tt, w') ->
  attr w' (VRef l) "media_file" = Some a
  /\ attr w' (VRef l) "ffmpeg_normalize" = Some b
  /\ attr w' (VRef l) "stream_type" = Some (VStr "audio")
  /\ attr w' (VRef l) "loudness_statistics"
     = Some (VDict (<["ebu" := VNone]> (<["mean" := VNone]> (<["max" := VNone]> ∅)))).
Proof.
  intros Hl. unfold AudioStream_init.
  rewrite (bind_ok _ _ _ _ _ (MediaStream_init_run l b a (VStr "audio") stream_id w Hl)).
  do 4 step_setattr.
  match goal with |- bind _ _ ?w0 = _ -> _ => set (w5 := w0) end.
  assert (Hattrs : attr w5 (VRef l) "media_file" = Some a
                   /\ attr w5 (VRef l) "ffmpeg_normalize" = Some b
                   /\ attr w5 (VRef l) "stream_type" = Some (VStr "audio")
                   /\ attr w5 (VRef l) "loudness_statistics"
                      = Some (VDict (<["ebu" := VNone]> (<["mean" := VNone]>
                                                           (<["max" := VNone]> ∅))))
                   /\ attr w5 (VRef l) "duration" = Some duration).
  { subst w5. repeat split.
    - do 6 (rewrite attr_wset_other_name by done). apply attr_wset_same. allocated.
    - do 7 (rewrite attr_wset_other_name by done). by apply attr_wset_same.
    - do 5 (rewrite attr_wset_other_name by done). apply attr_wset_same. allocated.
    - do 3 (rewrite attr_wset_other_name by done). apply attr_wset_same. allocated.
    - apply attr_wset_same. allocated. }
  destruct Hattrs as (Hm & Hf & Ht & Hs & Hd). clearbody w5.
  rewrite (bind_ok _ _ _ _ _ (getattr_ok _ _ _ _ Hf)).
  unfold bind at 1. rewrite getattr_run.
  destruct (attr w5 b "normalization_type") as [nt|]; [|discriminate].
  assert (Hkeep : forall (short : outcome bool) w6,
             w6 = w5 ->
             (match short with
              | Ok true => logger WARNING short_duration_msg w6
              | Ok false => (Ok tt, w6)
              | Raise e => (Raise e, w6)
              end) = (Ok tt, w') ->
             attr w' (VRef l) "media_file" = Some a
             /\ attr w' (VRef l) "ffmpeg_normalize" = Some b
             /\ attr w' (VRef l) "stream_type" = Some (VStr "audio")
             /\ attr w' (VRef l) "loudness_statistics"
                = Some (VDict (<["ebu" := VNone]> (<["mean" := VNone]>
                                                     (<["max" := VNone]> ∅))))).
  { intros short w6 ->. destruct short as [[]|e]; [| |discriminate].
    - unfold logger. intros [= <-]. by rewrite !attr_add_log.
    - by intros [= <-]. }
  destruct (val_eq_str nt "ebu").
  - unfold bind at 1. unfold bind at 1. rewrite (getattr_ok _ _ _ _ Hd).
    destruct (truthy duration).
    + rewrite (bind_ok _ _ _ _ _ (getattr_ok _ _ _ _ Hd)). unfold lift.
      destruct (py_le duration (VInt 3)) as [short|e] eqn:Hle.
      * intros Hrun. by apply (Hkeep (Ok short) w5 eq_refl); destruct short.
      * discriminate.
    + unfold ret. intros Hrun. by apply (Hkeep (Ok false) w5 eq_refl).
  - unfold bind, ret. intros Hrun. by apply (Hkeep (Ok false) w5 eq_refl).
Qed.

(** C10. Every stream made by [VideoStream(...)], [SubtitleStream(...)] or
    [AudioStream(...)] holds under [media_file] the value passed as
    [ffmpeg_normalize] and under [ffmpeg_normalize] the value passed as
    [media_file]: each subclass hands the two arguments to
    [MediaStream.__init__] in the other order. The first two constructors
    always return such a stream; [AudioStream(...)] does whenever it
    returns at all (it reads [normalization_type] from the object it was
    given as [media_file]). *)
Theorem constructors_swap_arguments
    (ffmpeg_normalize media_file stream_id sample_rate bit_depth duration : pyval)
    (w : world) :
  (exists self w',
      VideoStream ffmpeg_normalize media_file stream_id w = (Ok self, w')
      /\ attr w' self "media_file" = Some ffmpeg_normalize
      /\ attr w' self "ffmpeg_normalize" = Some media_file)
  /\ (exists self w',
         SubtitleStream ffmpeg_normalize media_file stream_id w = (Ok self, w')
         /\ attr w' self "media_file" = Some ffmpeg_normalize
         /\ attr w' self "ffmpeg_normalize" = Some media_file)
  /\ (forall self w',
         AudioStream ffmpeg_normalize media_file stream_id sample_rate bit_depth duration w
         = (Ok self, w') ->
         attr w' self "media_file" = Some ffmpeg_normalize
         /\ attr w' self "ffmpeg_normalize" = Some media_file).
Proof.
  split; [|split].
  - destruct (plain_stream_swapped "video" ffmpeg_normalize media_file stream_id w)
      as (l & w' & Hrun & Hm & Hf & _).
    by exists (VRef l), w'.
  - destruct (plain_stream_swapped "subtitle" ffmpeg_normalize media_file stream_id w)
      as (l & w' & Hrun & Hm & Hf & _).
    by exists (VRef l), w'.
  - intros self w'. unfold AudioStream.
    destruct (new_object_run w) as [Hnew _]. simpl in Hnew.
    rewrite (bind_ok _ _ _ _ _ Hnew). unfold bind at 1.
    destruct (AudioStream_init _ _ _ _ _ _ _ _) as [[[]|e] w1] eqn:Hinit; [|discriminate].
    intros [= <- <-].
    eapply AudioStream_init_attrs in Hinit as (Hm & Hf & _); [done|].
    simpl. rewrite lookup_insert_eq. by eexists.
Qed.

End ConstructorProperties.

(** A stream built in the sample world. *)
Lemma constructors_swap_arguments_witness :
  let r := sample_stream (sample_world "ebu" 7 false false) in
  fst r = Ok sample_self
  /\ attr (snd r) sample_self "media_file" = Some (VRef 2%positive)
  /\ attr (snd r) sample_self "ffmpeg_normalize" = Some (VRef 1%positive).
Proof.
  split; [by vm_compute|].
  destruct (constructors_swap_arguments (VRef 2%positive) (VRef 1%positive) (VInt 0)
              VNone VNone VNone (sample_world "ebu" 7 false false)) as (_ & _ & Haudio).
  apply Haudio. by vm_compute.
Defined.

(** ** Reading statistics and targets *)

Section ReadProperties.
Context `{Runtime}.

Lemma statistic_ok self key w v :
  read_statistic w self key = Some v -> statistic self key w = (Ok v, w).
Proof.
  unfold read_statistic, statistic. intros Hr.
  destruct (attr w self "loudness_statistics") as [ls|] eqn:Hls; [|discriminate].
  rewrite (bind_ok _ _ _ _ _ (getattr_ok _ _ _ _ Hls)). simpl in Hr.
  unfold lift, py_getitem. destruct ls; try discriminate. simpl in Hr. by rewrite Hr.
Qed.

Lemma ebu_item_ok self key w v :
  read_ebu_item w self key = Some v -> ebu_item self key w = (Ok v, w).
Proof.
  unfold read_ebu_item, ebu_item. intros Hr.
  destruct (read_statistic w self "ebu") as [ebu|] eqn:He; [|discriminate].
  rewrite (bind_ok _ _ _ _ _ (statistic_ok _ _ _ _ He)). simpl in Hr.
  unfold lift, py_getitem. destruct ebu; try discriminate. simpl in Hr. by rewrite Hr.
Qed.

Lemma targets_ok self name w v :
  read_target w self name = Some v ->
  exists n, targets self w = (Ok n, w) /\ attr w n name = Some v.
Proof.
  unfold read_target, targets. intros Hr.
  destruct (attr w self "media_file") as [mf|] eqn:Hmf; [|discriminate]. simpl in Hr.
  destruct (attr w mf "ffmpeg_normalize") as [n|] eqn:Hn; [|discriminate]. simpl in Hr.
  exists n. split; [|done].
  rewrite (bind_ok _ _ _ _ _ (getattr_ok _ _ _ _ Hmf)). by apply getattr_ok.
Qed.

Lemma target_ok self name w v :
  read_target w self name = Some v -> target self name w = (Ok v, w).
Proof.
  intros Hr. destruct (targets_ok _ _ _ _ Hr) as (n & Hn & Ha).
  unfold target. rewrite (bind_ok _ _ _ _ _ Hn). by apply getattr_ok.
Qed.

(** C8. When the [ebu] statistic of a stream is still [None], as the
    constructor left it, [get_second_pass_opts_ebu] raises
    [FFmpegNormalizeError] (the module's only error class) with the
    "First pass not run" message, returns no filter and changes nothing. *)
Theorem unmeasured_stream_rejected (self : pyval) (w : world) :
  read_statistic w self "ebu" = Some VNone ->
  get_second_pass_opts_ebu self w = (Raise (FFmpegNormalizeError first_pass_msg), w).
Proof.
  intros He. unfold get_second_pass_opts_ebu, second_pass_plan_ebu, ebu_first_pass_check.
  apply bind_raise. apply bind_raise.
  by rewrite (bind_ok _ _ _ _ _ (statistic_ok _ _ _ _ He)).
Qed.

(** A stream that [AudioStream(...)] has just returned is in that state. *)
Lemma new_stream_unmeasured a b stream_id sample_rate bit_depth duration w self w' :
  AudioStream a b stream_id sample_rate bit_depth duration w = (Ok self, w') ->
  read_statistic w' self "ebu" = Some VNone.
Proof.
  unfold AudioStream.
  destruct (new_object_run w) as [Hnew _]. simpl in Hnew.
  rewrite (bind_ok _ _ _ _ _ Hnew). unfold bind at 1.
  destruct (AudioStream_init _ _ _ _ _ _ _ _) as [[[]|e] w1] eqn:Hinit; [|discriminate].
  intros [= <- <-].
  eapply AudioStream_init_attrs in Hinit as (_ & _ & _ & Hs).
  - unfold read_statistic. by rewrite Hs.
  - simpl. rewrite lookup_insert_eq. by eexists.
Qed.

End ReadProperties.

(** The planner on the stream of the sample world, before any
    measurement. *)
Lemma unmeasured_stream_rejected_witness :
  let w := snd (sample_stream (sample_world "ebu" 7 false false)) in
  read_statistic w sample_self "ebu" = Some VNone
  /\ get_second_pass_opts_ebu (H := sample_runtime) sample_self w
     = (Raise (FFmpegNormalizeError first_pass_msg), w).
Proof.
  simpl. split; [by vm_compute|].
  apply (unmeasured_stream_rejected (H := sample_runtime)). by vm_compute.
Defined.

(** ** The validator *)

Lemma SFeqb_neg_inf f : SFeqb f (SFopp inf) = true <-> f = neg_inf.
Proof.
  unfold SFeqb, inf, neg_inf. simpl.
  destruct f as [[]|[]| |[] m e]; simpl; split; intros Hf; try discriminate; done.
Qed.

Lemma SFeqb_inf f : SFeqb f inf = true <-> f = inf.
Proof.
  unfold SFeqb, inf. simpl.
  destruct f as [[]|[]| |[] m e]; simpl; split; intros Hf; try discriminate; done.
Qed.

Section ValidatorProperties.
Context `{Runtime}.

Lemma py_float_number f : py_float (VFloat f) = Ok f.
Proof. reflexivity. Qed.

Lemma py_float_string s f : float_of_str s = Some f -> py_float (VStr s) = Ok f.
Proof. intros Hs. unfold py_float. simpl. by rewrite Hs. Qed.

Lemma validate_key_ok m key f :
  parses m key f ->
  validate_key (VDict m) key = Ok (VDict (<[key := stored f]> m)).
Proof.
  intros (v & Hv & Hf). unfold validate_key, py_getitem, obind, py_setitem.
  rewrite Hv, Hf.
  destruct (SFeqb f (SFopp inf)) eqn:Hneg.
  { apply SFeqb_neg_inf in Hneg as ->. reflexivity. }
  destruct (SFeqb f inf) eqn:Hpos.
  { apply SFeqb_inf in Hpos as ->. reflexivity. }
  destruct f as [s|[]| |s mf e]; try reflexivity; discriminate.
Qed.

Lemma validate_key_missing m key :
  m !! key = None -> validate_key (VDict m) key = Raise (KeyError key).
Proof. intros Hk. unfold validate_key, py_getitem, obind. by rewrite Hk. Qed.

Lemma validate_key_unparsed m key v e :
  m !! key = Some v -> py_float v = Raise e -> validate_key (VDict m) key = Raise e.
Proof. intros Hk He. unfold validate_key, py_getitem, obind. by rewrite Hk, He. Qed.

Lemma parses_insert_ne m key key' x f :
  key <> key' -> parses (<[key := x]> m) key' f <-> parses m key' f.
Proof. intros Hne. unfold parses. by rewrite lookup_insert_ne. Qed.

Lemma parses_fun m key f f' : parses m key f -> parses m key f' -> f = f'.
Proof. intros (v & Hv & Hf) (v' & Hv' & Hf'). congruence. Qed.

(** When every key of the list parses, each is replaced by what the rule
    prescribes and no other key is touched. *)
Lemma validate_keys_ok keys : forall m,
  NoDup keys ->
  (forall key, key ∈ keys -> exists f, parses m key f) ->
  exists m',
    validate_keys keys (VDict m) = Ok (VDict m')
    /\ (forall key f, key ∈ keys -> parses m key f -> m' !! key = Some (stored f))
    /\ (forall key, key ∉ keys -> m' !! key = m !! key).
Proof.
  induction keys as [|k rest IH]; intros m Hnd Hall.
  - exists m. split; [done|]. split; [|done]. intros key f Hin. by apply elem_of_nil in Hin.
  - apply NoDup_cons in Hnd as [Hk Hnd].
    destruct (Hall k) as [f Hf]; [by left|].
    destruct (IH (<[k := stored f]> m) Hnd) as (m' & Hrun & Hin & Hout).
    { intros key Hkey. destruct (Hall key) as [f' Hf']; [by right|].
      exists f'. apply parses_insert_ne; [|done]. by intros ->. }
    exists m'. split; [|split].
    + simpl. unfold obind. by rewrite (validate_key_ok _ _ _ Hf).
    + intros key f' [->|Hkey]%elem_of_cons Hf'.
      * rewrite (Hout _ Hk), lookup_insert_eq. by rewrite (parses_fun _ _ _ _ Hf Hf').
      * apply Hin; [done|]. apply parses_insert_ne; [|done]. by intros ->.
    + intros key Hkey. apply not_elem_of_cons in Hkey as [Hne Hkey].
      rewrite (Hout _ Hkey). by rewrite lookup_insert_ne.
Qed.

(** The exception of the first key that is missing or does not parse. *)
Lemma validate_keys_first_failure pre key post m e :
  (forall k, k ∈ pre -> exists f, parses m k f) ->
  key ∉ pre ->
  ((m !! key = None /\ e = KeyError key)
   \/ exists v, m !! key = Some v /\ py_float v = Raise e) ->
  validate_keys (pre ++ key :: post) (VDict m) = Raise e.
Proof.
  revert m. induction pre as [|k rest IH]; intros m Hall Hnot Hwhy.
  - simpl. unfold obind. destruct Hwhy as [[Hnone ->]|(v & Hv & He)].
    + by rewrite validate_key_missing.
    + by rewrite (validate_key_unparsed _ _ _ _ Hv He).
  - apply not_elem_of_cons in Hnot as [Hne Hnot].
    destruct (Hall k) as [f Hf]; [by left|].
    simpl. unfold obind. rewrite (validate_key_ok _ _ _ Hf).
    apply IH; [|done|].
    + intros k' Hk'. destruct (decide (k = k')) as [<-|Hkk].
      * exists (match stored f with VNum (NFloat g) => g | VNum (NInt z) => float_of_int z
                                  | _ => f end).
        exists (stored f). rewrite lookup_insert_eq. split; [done|].
        by destruct f as [s|[]| |s mf ef].
      * destruct (Hall k') as [f' Hf']; [by right|]. exists f'. by apply parses_insert_ne.
    + destruct Hwhy as [[Hnone ->]|(v & Hv & He)].
      * left. by rewrite lookup_insert_ne.
      * right. exists v. by rewrite lookup_insert_ne.
Qed.

(** A key that is missing or does not parse makes the loop raise. *)
Lemma validate_keys_fail keys : forall m key,
  key ∈ keys ->
  (m !! key = None \/ exists v e, m !! key = Some v /\ py_float v = Raise e) ->
  exists e, validate_keys keys (VDict m) = Raise e.
Proof.
  induction keys as [|k rest IH]; intros m key Hin Hwhy.
  - by apply elem_of_nil in Hin.
  - simpl. unfold obind.
    destruct (m !! k) as [v|] eqn:Hk.
    2:{ exists (KeyError k). by rewrite validate_key_missing. }
    destruct (py_float v) as [f|e] eqn:Hf.
    2:{ exists e. by rewrite (validate_key_unparsed _ _ _ _ Hk Hf). }
    rewrite (validate_key_ok m k f) by (by exists v).
    assert (Hne : k <> key).
    { intros ->. destruct Hwhy as [Hnone|(v' & e & Hv' & He)]; congruence. }
    apply elem_of_cons in Hin as [->|Hin]; [done|].
    apply (IH _ key Hin).
    destruct Hwhy as [Hnone|(v' & e & Hv' & He)].
    + left. by rewrite lookup_insert_ne.
    + right. exists v', e. by rewrite lookup_insert_ne.
Qed.

Lemma ebu_keys_NoDup : NoDup ebu_keys.
Proof. by_compute. Qed.

End ValidatorProperties.

Section ParserProperties.
Context `{Runtime}.

Lemma parse_loudnorm_output_run output_lines w :
  _parse_loudnorm_output output_lines w =
    match loudnorm_json output_lines with
    | Some text => decode_loudnorm_stats text w
    | None => (Raise (FFmpegNormalizeError no_output_msg), w)
    end.
Proof.
  unfold _parse_loudnorm_output, loudnorm_json.
  destruct (loudnorm_scan output_lines 0 0) as [s e].
  by destruct (negb (s =? 0)%nat && negb (e =? 0)%nat).
Qed.

Lemma decode_run text stats w :
  json_loads text = Ok stats ->
  decode_loudnorm_stats text w =
    (match validate_keys ebu_keys stats with
     | Ok validated => Ok validated
     | Raise e => Raise (FFmpegNormalizeError (wrong_json_msg e))
     end, add_log DEBUG (parsed_msg stats) w).
Proof.
  intros Hj. unfold decode_loudnorm_stats. rewrite Hj. unfold bind, logger, ret, raise.
  by destruct (validate_keys ebu_keys stats).
Qed.

(** C3. For a decoded object, each of the nine fields is treated alike:
    a field that [float] turns into negative infinity is stored as [-99],
    one that it turns into positive infinity as [0], any other as the
    float itself, whether the field was a number or a string; the other
    keys are left as decoded. When one of the nine fields is not accepted
    by [float], [_parse_loudnorm_output] raises [FFmpegNormalizeError]
    (the module's only error class). *)
Theorem validation_rule (output_lines : list string) (text : string)
    (m : gmap string pyval) (w : world) :
  loudnorm_json output_lines = Some text ->
  json_loads text = Ok (VDict m) ->
  let w' := add_log DEBUG (parsed_msg (VDict m)) w in
  ((forall key, key ∈ ebu_keys -> exists f, parses m key f) ->
   exists m',
     _parse_loudnorm_output output_lines w = (Ok (VDict m'), w')
     /\ (forall key f, key ∈ ebu_keys -> parses m key f -> m' !! key = Some (stored f))
     /\ (forall key, key ∉ ebu_keys -> m' !! key = m !! key))
  /\ (forall key v e, key ∈ ebu_keys -> m !! key = Some v -> py_float v = Raise e ->
      exists cause,
        _parse_loudnorm_output output_lines w
        = (Raise (FFmpegNormalizeError (wrong_json_msg cause)), w'))
  /\ stored neg_inf = VInt (-99)
  /\ stored inf = VInt 0
  /\ (forall f, f <> neg_inf -> f <> inf -> stored f = VFloat f)
  /\ (forall f, py_float (VFloat f) = Ok f)
  /\ (forall s f, float_of_str s = Some f -> py_float (VStr s) = Ok f).
Proof.
  intros Hjson Hloads w'. rewrite parse_loudnorm_output_run, Hjson.
  rewrite (decode_run _ _ _ Hloads). fold w'.
  split; [|split; [|split; [|split; [|split; [|split]]]]].
  - intros Hall. destruct (validate_keys_ok ebu_keys m ebu_keys_NoDup Hall)
      as (m' & Hrun & Hin & Hout).
    exists m'. by rewrite Hrun.
  - intros key v e Hkey Hv He.
    destruct (validate_keys_fail ebu_keys m key Hkey) as [cause Hcause].
    { right. by exists v, e. }
    exists cause. by rewrite Hcause.
  - reflexivity.
  - reflexivity.
  - intros f Hneg Hpos. destruct f as [s|[]| |s mf e]; try reflexivity; done.
  - apply py_float_number.
  - apply py_float_string.
Qed.

(** C9. When the decoded object lacks one of the nine fields,
    [_parse_loudnorm_output] raises [FFmpegNormalizeError] (the module's
    only error class) whose message ends with the text of the exception
    that the loop raised; that exception is the [KeyError] of the missing
    field when the fields before it are present and parse. No value is
    returned, so nothing stands in for the field. *)
Theorem missing_field_rejected (output_lines : list string) (text : string)
    (m : gmap string pyval) (key : string) (w : world) :
  loudnorm_json output_lines = Some text ->
  json_loads text = Ok (VDict m) ->
  key ∈ ebu_keys ->
  m !! key = None ->
  exists cause,
    validate_keys ebu_keys (VDict m) = Raise cause
    /\ _parse_loudnorm_output output_lines w
       = (Raise (FFmpegNormalizeError (wrong_json_msg cause)),
          add_log DEBUG (parsed_msg (VDict m)) w)
    /\ wrong_json_msg cause
       = "Could not parse loudnorm stats; wrong JSON format in string: " +:+ exn_str cause
    /\ (forall pre post, ebu_keys = (pre ++ key :: post)%list ->
        (forall k, k ∈ pre -> exists f, parses m k f) ->
        cause = KeyError key).
Proof.
  intros Hjson Hloads Hkey Hnone.
  destruct (validate_keys_fail ebu_keys m key Hkey) as [cause Hcause]; [by left|].
  exists cause. split; [done|]. split; [|split; [reflexivity|]].
  - rewrite parse_loudnorm_output_run, Hjson, (decode_run _ _ _ Hloads). by rewrite Hcause.
  - intros pre post Hsplit Hpre.
    pose proof ebu_keys_NoDup as Hnd. rewrite Hsplit in Hnd, Hcause.
    apply NoDup_app in Hnd as (_ & Hdisj & _).
    rewrite (validate_keys_first_failure pre key post m (KeyError key)) in Hcause.
    + congruence.
    + done.
    + intros Hin. apply (Hdisj _ Hin). by left.
    + by left.
Qed.

End ParserProperties.

(** The report of a silent input: [input_i] is ["-inf"] and is stored as
    [-99], [output_lra] is ["inf"] and is stored as [0], [input_lra] is
    ["9.0"] and stays the float 9. *)
Lemma validation_rule_witness :
  exists m',
    fst (_parse_loudnorm_output (H := sample_runtime) (sample_lines "report") empty_world)
    = Ok (VDict m')
    /\ m' !! "input_i" = Some (VInt (-99))
    /\ m' !! "output_lra" = Some (VInt 0)
    /\ m' !! "input_lra" = Some (VFloat (float_of_int 9))
    /\ m' !! "normalization_type" = Some (VStr "dynamic").
Proof.
  destruct (validation_rule (H := sample_runtime) (sample_lines "report")
              ("{" +:+ nl +:+ "report" +:+ nl +:+ "}") sample_report empty_world)
    as (Hok & _); [by vm_compute|by vm_compute|].
  destruct Hok as (m' & Hrun & Hin & Hout).
  { intros key Hkey. unfold ebu_keys in Hkey.
    repeat (apply elem_of_cons in Hkey as [->|Hkey];
            [eexists; eexists; split; vm_compute; reflexivity|]).
    by apply elem_of_nil in Hkey. }
  exists m'. rewrite Hrun. split; [reflexivity|].
  split; [|split; [|split]].
  - apply (Hin "input_i" neg_inf); [by_compute|].
    eexists. split; vm_compute; reflexivity.
  - apply (Hin "output_lra" inf); [by_compute|].
    eexists. split; vm_compute; reflexivity.
  - apply (Hin "input_lra" (float_of_int 9)); [by_compute|].
    eexists. split; vm_compute; reflexivity.
  - rewrite Hout; [by vm_compute|]. by_compute.
Defined.

(** The same report without [input_lra]. *)
Lemma missing_field_rejected_witness :
  _parse_loudnorm_output (H := sample_runtime) (sample_lines "no_lra") empty_world
  = (Raise (FFmpegNormalizeError
              (wrong_json_msg (H := sample_runtime) (KeyError "input_lra"))),
     add_log DEBUG (parsed_msg (H := sample_runtime)
                      (VDict (delete "input_lra" sample_report))) empty_world).
Proof.
  destruct (missing_field_rejected (H := sample_runtime) (sample_lines "no_lra")
              ("{" +:+ nl +:+ "no_lra" +:+ nl +:+ "}") (delete "input_lra" sample_report)
              "input_lra" empty_world)
    as (cause & _ & Hrun & _ & Hcause);
    [by vm_compute|by vm_compute|by_compute|by vm_compute|].
  rewrite Hrun. rewrite (Hcause ["input_i"; "input_tp"] ["input_thresh"; "output_i";
    "output_tp"; "output_lra"; "output_thresh"; "target_offset"]); [reflexivity|reflexivity|].
  intros k Hk.
  repeat (apply elem_of_cons in Hk as [->|Hk];
          [eexists; eexists; split; vm_compute; reflexivity|]).
  by apply elem_of_nil in Hk.
Defined.

(** ** The bounds of the JSON body *)

Lemma first_index_Some {A} (P : A -> bool) l i :
  first_index P l = Some i <->
  (exists x, l !! i = Some x /\ P x = true)
  /\ (forall j y, (j < i)%nat -> l !! j = Some y -> P y = false).
Proof.
  revert i. induction l as [|x rest IH]; intros i; simpl.
  - split; [done|]. by intros [(y & Hy & _) _].
  - destruct (P x) eqn:Hx.
    + split.
      * intros [= <-]. split; [by exists x|]. intros j y Hj. lia.
      * intros [(y & Hy & HP) Hfirst]. destruct i as [|i]; [done|].
        specialize (Hfirst 0%nat x). simpl in Hfirst. rewrite Hfirst in Hx; [done|lia|done].
    + rewrite fmap_Some. split.
      * intros (k & Hk & ->). apply IH in Hk as [Hex Hfirst]. split; [done|].
        intros [|j] y Hj; simpl; [by intros [= <-]|]. apply Hfirst. lia.
      * intros [(y & Hy & HP) Hfirst]. destruct i as [|i]; [simpl in Hy; congruence|].
        exists i. split; [|done]. apply IH. split; [by exists y|].
        intros j z Hj Hz. apply (Hfirst (S j) z); [lia|done].
Qed.

Lemma first_index_None {A} (P : A -> bool) l :
  first_index P l = None <-> forall x, x ∈ l -> P x = false.
Proof.
  induction l as [|x rest IH]; simpl.
  - split; [|done]. intros _ x Hx. by apply elem_of_nil in Hx.
  - destruct (P x) eqn:Hx.
    + split; [done|]. intros Hall. rewrite Hall in Hx; [done|by left].
    + rewrite fmap_None, IH. split.
      * intros Hall y [->|Hy]%elem_of_cons; [done|by apply Hall].
      * intros Hall y Hy. apply Hall. by right.
Qed.

Lemma last_index_app {A} (P : A -> bool) l1 l2 :
  last_index P (l1 ++ l2) =
    match last_index P l2 with
    | Some i => Some (length l1 + i)%nat
    | None => last_index P l1
    end.
Proof.
  induction l1 as [|x rest IH]; simpl.
  - by destruct (last_index P l2).
  - rewrite IH. by destruct (last_index P l2).
Qed.

Lemma last_index_None {A} (P : A -> bool) l :
  last_index P l = None <-> forall x, x ∈ l -> P x = false.
Proof.
  induction l as [|x rest IH]; simpl.
  - split; [|done]. intros _ x Hx. by apply elem_of_nil in Hx.
  - destruct (last_index P rest) as [k|].
    + split; [done|]. intros Hall.
      assert (Hk : Some k = None); [|done]. apply IH. intros y Hy. apply Hall. by right.
    + destruct (P x) eqn:Hx.
      * split; [done|]. intros Hall. rewrite Hall in Hx; [done|by left].
      * split; [|done]. intros _ y [->|Hy]%elem_of_cons; [done|]. by apply IH.
Qed.

Lemma last_index_Some {A} (P : A -> bool) l i :
  last_index P l = Some i <->
  (exists x, l !! i = Some x /\ P x = true)
  /\ (forall j y, (i < j)%nat -> l !! j = Some y -> P y = false).
Proof.
  revert i. induction l as [|x rest IH]; intros i; simpl.
  - split; [done|]. by intros [(y & Hy & _) _].
  - destruct (last_index P rest) as [k|] eqn:Hk.
    + pose proof (proj1 (IH k) eq_refl) as [Hex Hlast]. split.
      * intros [= <-]. split; [done|]. intros [|j] y Hj; [lia|]. simpl. apply Hlast. lia.
      * intros [(y & Hy & HP) Hlast']. f_equal. destruct i as [|i].
        -- destruct Hex as (z & Hz & HPz). rewrite (Hlast' (S k) z) in HPz; [done|lia|done].
        -- f_equal. assert (Hi : Some k = Some i); [|congruence].
           apply IH. split; [by exists y|]. intros j z Hj Hz. apply (Hlast' (S j) z); [lia|done].
    + pose proof (proj1 (last_index_None P rest) Hk) as Hnone.
      destruct (P x) eqn:Hx.
      * split.
        -- intros [= <-]. split; [by exists x|]. intros [|j] y Hj; [lia|]. simpl.
           intros Hy. apply Hnone. by apply list_elem_of_lookup_2 in Hy.
        -- intros [(y & Hy & HP) _]. destruct i as [|i]; [done|]. simpl in Hy.
           apply list_elem_of_lookup_2 in Hy. rewrite (Hnone _ Hy) in HP. done.
      * split; [done|]. intros [(y & Hy & HP) _]. destruct i as [|i]; simpl in Hy.
        -- congruence.
        -- apply list_elem_of_lookup_2 in Hy. rewrite (Hnone _ Hy) in HP. done.
Qed.

Lemma prefix_cons a p b s :
  String.prefix (String a p) (String b s)
  = match ascii_dec a b with left _ => String.prefix p s | right _ => false end.
Proof. reflexivity. Qed.

Lemma header_not_closing line : is_header line = true -> is_closing line = false.
Proof.
  unfold is_header, is_closing. destruct line as [|c rest]; [done|].
  rewrite !prefix_cons.
  destruct (ascii_dec "[" c) as [<-|]; [|done]. intros _.
  by destruct (ascii_dec "}" "[").
Qed.

Lemma scan_cons line rest index start :
  loudnorm_scan (line :: rest) index start =
    if is_header line then loudnorm_scan rest (S index) (index + 1)
    else if negb (start =? 0)%nat && is_closing line then (start, (index + 1)%nat)
         else loudnorm_scan rest (S index) start.
Proof. reflexivity. Qed.

Lemma scan_started output_lines : forall index start,
  start <> 0%nat ->
  loudnorm_scan output_lines index start =
    match first_index is_closing output_lines with
    | Some c =>
        (match last_index is_header (take c output_lines) with
         | Some h => (index + h + 1)%nat
         | None => start
         end, (index + c + 1)%nat)
    | None =>
        (match last_index is_header output_lines with
         | Some h => (index + h + 1)%nat
         | None => start
         end, 0%nat)
    end.
Proof.
  induction output_lines as [|line rest IH]; intros index start Hstart; [done|].
  rewrite scan_cons. simpl.
  destruct (is_header line) eqn:Hh.
  - rewrite (header_not_closing _ Hh). rewrite IH by lia.
    destruct (first_index is_closing rest) as [c|]; simpl.
    + rewrite ?Hh. destruct (last_index is_header (take c rest)); f_equal; lia.
    + rewrite ?Hh. destruct (last_index is_header rest); f_equal; lia.
  - destruct (start =? 0)%nat eqn:Hs; [apply Nat.eqb_eq in Hs; done|]. simpl.
    destruct (is_closing line); simpl.
    + f_equal; lia.
    + rewrite IH by done. destruct (first_index is_closing rest) as [c|]; simpl.
      * rewrite ?Hh. destruct (last_index is_header (take c rest)); f_equal; lia.
      * rewrite ?Hh. destruct (last_index is_header rest); f_equal; lia.
Qed.

Lemma scan_unstarted output_lines : forall index,
  loudnorm_scan output_lines index 0 =
    match first_index is_header output_lines with
    | Some h0 => loudnorm_scan (drop (S h0) output_lines) (index + S h0) (index + h0 + 1)
    | None => (0%nat, 0%nat)
    end.
Proof.
  induction output_lines as [|line rest IH]; intros index; [done|].
  rewrite scan_cons. simpl.
  destruct (is_header line) eqn:Hh.
  - simpl. rewrite drop_0. f_equal; lia.
  - simpl. rewrite IH. destruct (first_index is_header rest) as [h0|]; simpl; [|done].
    f_equal; lia.
Qed.

Lemma last_index_first {A} (P : A -> bool) l h0 :
  first_index P l = Some h0 -> last_index P (take (S h0) l) = Some h0.
Proof.
  revert h0. induction l as [|x rest IH]; intros h0; [done|]. simpl.
  destruct (P x) eqn:Hx.
  - intros [= <-]. simpl. by rewrite ?Hx.
  - rewrite fmap_Some. intros (k & Hk & ->).
    change (take (S (S k)) (x :: rest)) with (x :: take (S k) rest).
    simpl last_index. by rewrite (IH _ Hk).
Qed.

Lemma first_index_lt {A} (P : A -> bool) l i : first_index P l = Some i -> (i < length l)%nat.
Proof.
  intros [(x & Hx & _) _]%first_index_Some. by apply lookup_lt_Some in Hx.
Qed.

Lemma last_header_before output_lines h0 c :
  first_index is_header output_lines = Some h0 ->
  last_index is_header (take (S h0 + c) output_lines)
  = Some (match last_index is_header (take c (drop (S h0) output_lines)) with
          | Some h => (S h0 + h)%nat
          | None => h0
          end).
Proof.
  intros Hh0.
  rewrite <- (take_take_drop output_lines (S h0) c), last_index_app.
  rewrite (last_index_first _ _ _ Hh0).
  rewrite length_take_le by (apply first_index_lt in Hh0; lia).
  by destruct (last_index is_header (take c (drop (S h0) output_lines))).
Qed.

Lemma loudnorm_json_bounds output_lines :
  loudnorm_json output_lines
  = (fun b => String.concat nl (slice output_lines b.1 b.2)) <$> scan_bounds output_lines.
Proof.
  unfold loudnorm_json, scan_bounds. rewrite scan_unstarted.
  destruct (first_index is_header output_lines) as [h0|] eqn:Hh0; [|done].
  rewrite scan_started by lia. cbn [mbind option_bind].
  destruct (first_index is_closing (drop (S h0) output_lines)) as [c|] eqn:Hc.
  2:{ by rewrite andb_false_r. }
  cbn [mbind option_bind]. rewrite (last_header_before _ _ c Hh0).
  cbn [mbind option_bind fmap option_fmap option_map fst snd].
  destruct (last_index is_header (take c (drop (S h0) output_lines))) as [h|].
  - replace (0 + S h0 + h + 1 =? 0)%nat with false by (symmetry; apply Nat.eqb_neq; lia).
    replace (0 + S h0 + c + 1 =? 0)%nat with false by (symmetry; apply Nat.eqb_neq; lia).
    cbn [negb andb]. do 3 f_equal; lia.
  - replace (0 + h0 + 1 =? 0)%nat with false by (symmetry; apply Nat.eqb_neq; lia).
    replace (0 + S h0 + c + 1 =? 0)%nat with false by (symmetry; apply Nat.eqb_neq; lia).
    cbn [negb andb]. do 3 f_equal; lia.
Qed.

Lemma slice_last {A} (l : list A) h c x :
  (h < c)%nat -> l !! c = Some x -> last (slice l (S h) (S c)) = Some x.
Proof.
  intros Hlt Hc. unfold slice. rewrite last_lookup, length_take, length_drop.
  pose proof (lookup_lt_Some _ _ _ Hc) as Hlen.
  rewrite lookup_take_lt by lia. rewrite lookup_drop.
  replace (S h + Init.Nat.pred ((S c - S h) `min` (length l - S h)))%nat with c by lia.
  done.
Qed.

(** What the bounds of the loop are. *)
Lemma scan_bounds_Some output_lines s e :
  scan_bounds output_lines = Some (s, e) ->
  exists h0 h c hl cl,
    s = S h /\ e = S c /\ (h0 <= h < c)%nat
    /\ first_index is_header output_lines = Some h0
    /\ output_lines !! h = Some hl /\ is_header hl = true
    /\ output_lines !! c = Some cl /\ is_closing cl = true
    /\ last (slice output_lines s e) = Some cl
    /\ (forall j l, (h < j < c)%nat -> output_lines !! j = Some l -> is_header l = false)
    /\ (forall j l, (h0 < j < c)%nat -> output_lines !! j = Some l -> is_closing l = false).
Proof.
  unfold scan_bounds.
  destruct (first_index is_header output_lines) as [h0|] eqn:Hh0; [|done].
  cbn [mbind option_bind].
  destruct (first_index is_closing (drop (S h0) output_lines)) as [c|] eqn:Hc; [|done].
  cbn [mbind option_bind].
  destruct (last_index is_header (take (S h0 + c) output_lines)) as [h|] eqn:Hh; [|done].
  cbn [mbind option_bind]. intros [= <- <-].
  apply first_index_Some in Hc as [(cl & Hcl & Hclosing) Hcfirst].
  rewrite lookup_drop in Hcl.
  apply last_index_Some in Hh as [(hl & Hhl & Hheader) Hhlast].
  apply lookup_take_Some in Hhl as [Hhl Hhlt].
  pose proof Hh0 as [(hl0 & Hhl0 & Hheader0) _]%first_index_Some.
  assert (Hge : (h0 <= h)%nat).
  { destruct (decide (h0 <= h)%nat) as [|Hn]; [done|].
    rewrite (Hhlast h0 hl0) in Hheader0; [done|lia|].
    apply lookup_take_Some. split; [done|lia]. }
  exists h0, h, (S h0 + c)%nat, hl, cl.
  split; [done|]. split; [done|]. split; [lia|]. split; [done|].
  split; [done|]. split; [done|]. split; [done|]. split; [done|].
  split; [by apply slice_last|]. split.
  - intros j l Hj Hl. apply (Hhlast j l); [lia|]. apply lookup_take_Some. split; [done|lia].
  - intros j l Hj Hl. apply (Hcfirst (j - S h0)%nat l); [lia|].
    rewrite lookup_drop. by replace (S h0 + (j - S h0))%nat with j by lia.
Qed.

Lemma scan_bounds_None output_lines :
  scan_bounds output_lines = None <->
  first_index is_header output_lines = None
  \/ exists h0, first_index is_header output_lines = Some h0
                /\ first_index is_closing (drop (S h0) output_lines) = None.
Proof.
  unfold scan_bounds.
  destruct (first_index is_header output_lines) as [h0|] eqn:Hh0.
  2:{ split; [by left|done]. }
  cbn [mbind option_bind].
  destruct (first_index is_closing (drop (S h0) output_lines)) as [c|] eqn:Hc.
  - cbn [mbind option_bind]. rewrite (last_header_before _ _ c Hh0). cbn [mbind option_bind].
    split; [done|]. intros [|(h & [= <-] & Hn)]; [done|congruence].
  - split; [|done]. intros _. right. by exists h0.
Qed.

Section BoundsProperties.
Context `{Runtime}.

(** C4, as the code has it. In EBU mode, for every list of output lines,
    the text handed to the JSON decoder ends with the first line after the
    first header line that begins with a closing brace (that line
    included, whatever follows the brace on it), and starts at the line
    after the last header line before that closing line (a later header
    line moves the start). When there is no header line, or no line
    beginning with a closing brace after the first header line,
    [FFmpegNormalizeError] is raised with the "no loudnorm-related output
    found" message. *)
Theorem json_body_bounds (output_lines : list string) (w : world) :
  _parse_loudnorm_output output_lines w
  = match scan_bounds output_lines with
    | Some (s, e) => decode_loudnorm_stats (String.concat nl (slice output_lines s e)) w
    | None => (Raise (FFmpegNormalizeError no_output_msg), w)
    end
  /\ (scan_bounds output_lines = None <->
      first_index is_header output_lines = None
      \/ exists h0, first_index is_header output_lines = Some h0
                    /\ first_index is_closing (drop (S h0) output_lines) = None)
  /\ (forall s e, scan_bounds output_lines = Some (s, e) ->
      exists h0 h c hl cl,
        s = S h /\ e = S c /\ (h0 <= h < c)%nat
        /\ first_index is_header output_lines = Some h0
        /\ output_lines !! h = Some hl /\ is_header hl = true
        /\ output_lines !! c = Some cl /\ is_closing cl = true
        /\ last (slice output_lines s e) = Some cl
        /\ (forall j l, (h < j < c)%nat -> output_lines !! j = Some l -> is_header l = false)
        /\ (forall j l, (h0 < j < c)%nat -> output_lines !! j = Some l ->
            is_closing l = false)).
Proof.
  split; [|split].
  - rewrite parse_loudnorm_output_run, loudnorm_json_bounds.
    by destruct (scan_bounds output_lines) as [[s e]|].
  - apply scan_bounds_None.
  - apply scan_bounds_Some.
Qed.

End BoundsProperties.

(** On lines with two headers the body starts after the second one. *)
Lemma json_body_bounds_witness :
  scan_bounds two_header_lines = Some (3%nat, 5%nat)
  /\ exists h0 h c hl cl,
      3%nat = S h /\ 5%nat = S c /\ (h0 <= h < c)%nat
      /\ first_index is_header two_header_lines = Some h0
      /\ two_header_lines !! h = Some hl /\ is_header hl = true
      /\ two_header_lines !! c = Some cl /\ is_closing cl = true
      /\ last (slice two_header_lines 3 5) = Some cl.
Proof.
  split; [reflexivity|].
  destruct (json_body_bounds (H := sample_runtime) two_header_lines empty_world)
    as (_ & _ & Hsome).
  destruct (Hsome 3%nat 5%nat eq_refl)
    as (h0 & h & c & hl & cl & Hs & He & Hlt & Hh0 & Hh & Hhl & Hc & Hcl & Hlast & _).
  by exists h0, h, c, hl, cl.
Defined.

(** C4, as the specification has it, fails: with a second header line
    before the body the code starts after that one, not after the first
    (and [early_brace_lines] shows that a line only beginning with a
    closing brace already ends the body). *)
Lemma json_body_not_as_specified : ~ json_body_as_specified.
Proof.
  intros Hspec. specialize (Hspec two_header_lines). by vm_compute in Hspec.
Qed.

Lemma early_brace_ends_body :
  loudnorm_json early_brace_lines = Some ("{" +:+ nl +:+ "} trailing")
  /\ spec_loudnorm_json early_brace_lines
     = Some ("{" +:+ nl +:+ "} trailing" +:+ nl +:+ "}").
Proof. split; reflexivity. Qed.

(** ** The peak/RMS output *)

Lemma append_assoc (a b c : string) : (a +:+ b) +:+ c = a +:+ (b +:+ c).
Proof.
  induction a as [|x a IH]; [done|].
  change (String x ((a +:+ b) +:+ c) = String x (a +:+ b +:+ c)). by rewrite IH.
Qed.

Lemma strip_prefix_Some p s rest : strip_prefix p s = Some rest <-> s = p +:+ rest.
Proof.
  revert s. induction p as [|a p IH]; intros s; simpl.
  - split; [by intros [= ->]|by intros ->].
  - destruct s as [|b s]; [done|].
    destruct (Ascii.eqb a b) eqn:Hab.
    + apply Ascii.eqb_eq in Hab as ->. rewrite IH. split; [by intros ->|by intros [= ->]].
    + split; [done|]. intros [= -> _]. by rewrite Ascii.eqb_refl in Hab.
Qed.

Lemma contains_cons label c rest :
  contains label (String c rest)
  = match strip_prefix label (String c rest) with
    | Some _ => true
    | None => contains label rest
    end.
Proof. reflexivity. Qed.

Lemma occurs_contains label text : occurs label text <-> contains label text = true.
Proof.
  split.
  - intros (pre & post & ->). induction pre as [|c pre IH].
    + assert (Hs : strip_prefix label (label +:+ post) = Some post) by by apply strip_prefix_Some.
      simpl. destruct (label +:+ post); simpl; simpl in Hs; by rewrite Hs.
    + change (String c pre +:+ label +:+ post) with (String c (pre +:+ label +:+ post)).
      rewrite contains_cons. by destruct (strip_prefix _ _).
  - induction text as [|c rest IH].
    + simpl. destruct (strip_prefix label "") as [r|] eqn:Hs; [|done].
      intros _. apply strip_prefix_Some in Hs. by exists "", r.
    + rewrite contains_cons.
      destruct (strip_prefix label (String c rest)) as [r|] eqn:Hs.
      * intros _. apply strip_prefix_Some in Hs. by exists "", r.
      * intros (pre & post & ->)%IH. by exists (String c pre), post.
Qed.




Section AstatsProperties.
Context `{Runtime}.

Lemma set_statistic_run l stats key v w :
  attr w (VRef l) "loudness_statistics" = Some (VDict stats) ->
  set_statistic (VRef l) key v w
  = (Ok tt, wset w l "loudness_statistics" (VDict (<[key := v]> stats))).
Proof.
  intros Hs. unfold set_statistic.
  rewrite (bind_ok _ _ _ _ _ (getattr_ok _ _ _ _ Hs)).
  unfold lift, py_setitem, bind. apply setattr_run.
  apply attr_allocated in Hs as (l' & [= <-] & Hl). done.
Qed.

Lemma input_file_ok self file w :
  (attr w self "media_file" ≫= fun mf => attr w mf "input_file") = Some file ->
  input_file self w = (Ok file, w).
Proof.
  intros Hf. unfold input_file.
  destruct (attr w self "media_file") as [mf|] eqn:Hmf; [|done]. simpl in Hf.
  rewrite (bind_ok _ _ _ _ _ (getattr_ok _ _ _ _ Hmf)). by apply getattr_ok.
Qed.






End AstatsProperties.



(** The placeholder: a silent input has both statistics at negative
    infinity. *)
Lemma astats_placeholder :
  exists w',
    parse_astats (H := sample_runtime) sample_self
      ("RMS level dB: -" +:+ nl +:+ "Peak level dB: -") (sample_stream_world "rms")
    = (Ok tt, w')
    /\ read_statistic w' sample_self "mean" = Some (VFloat neg_inf)
    /\ read_statistic w' sample_self "max" = Some (VFloat neg_inf).
Proof. eexists. split; [by vm_compute|]. split; by vm_compute. Qed.

(** ** The peak/RMS planner *)

Lemma num_same_refl a : num_same a a.
Proof.
  unfold num_same. destruct (is_nan a) eqn:Ha; [by right|left].
  unfold num_eq. by rewrite num_compare_refl.
Qed.

(** [0 + t] is [t], but for the float [-0.0], which becomes [0.0]. *)
Lemma zero_add t :
  num_add (NInt 0) t
  = Some (match t with NFloat (S754_zero true) => NFloat (S754_zero false) | _ => t end).
Proof.
  destruct t as [z|f]; [done|].
  by destruct f as [[]|[]| |s m e].
Qed.

(** Subtracting from either zero gives the same number. *)
Lemma zero_sub_same stat :
  num_same (NFloat (SFsub prec emax (S754_zero false) stat))
           (NFloat (SFsub prec emax (S754_zero true) stat)).
Proof.
  destruct stat as [[]|[]| |s m e]; simpl;
    try (by right); try (left; reflexivity).
  left. unfold num_eq. simpl. destruct s; simpl;
    by rewrite Z.compare_refl, Pos.compare_cont_refl.
Qed.

Lemma shifted_sub t stat :
  match num_sub t (NFloat stat) with
  | Some d =>
      exists a, num_sub (match t with
                         | NFloat (S754_zero true) => NFloat (S754_zero false)
                         | _ => t
                         end) (NFloat stat) = Some (NFloat a)
                /\ num_same (NFloat a) d
                /\ (t <> NFloat (S754_zero true) -> NFloat a = d)
  | None =>
      num_sub (match t with
               | NFloat (S754_zero true) => NFloat (S754_zero false)
               | _ => t
               end) (NFloat stat) = None
  end.
Proof.
  destruct t as [z|f].
  - simpl. destruct (float_of_Z z) as [x|]; simpl; [|done].
    eexists. split; [done|]. split; [apply num_same_refl|done].
  - destruct f as [[]|s| |s m e]; simpl;
      try (eexists; split; [done|]; split; [apply num_same_refl|done]).
    eexists. split; [done|]. split; [apply zero_sub_same|done].
Qed.

Lemma sub_float t stat d : num_sub t (NFloat stat) = Some d -> exists a, d = NFloat a.
Proof.
  destruct t as [z|f]; simpl.
  - destruct (float_of_Z z); simpl; [|done]. intros [= <-]. by eexists.
  - intros [= <-]. by eexists.
Qed.

Lemma logger_run lv msg w : logger lv msg w = (Ok tt, add_log lv msg w).
Proof. reflexivity. Qed.

Lemma lift_run {A} (o : outcome A) w : lift o w = (o, w).
Proof. reflexivity. Qed.

Section GainProperties.
Context `{Runtime}.

Lemma peakrms_tail self nt t mn mx sid a w :
  peakrms_ready w self nt t mn mx sid ->
  peakrms_adjustment self nt (VNum t) w = (Ok (VFloat a), w) ->
  get_second_pass_opts_peakrms self w
  = (Ok (volume_filter (VFloat a)),
     World (heap w) (log w ++ gain_log sid (VNum t) mx a)).
Proof.
  intros (Hnt & Ht & Hmn & Hmx & Hsid) Hadj. unfold get_second_pass_opts_peakrms.
  rewrite (bind_ok _ _ _ _ _ (target_ok _ _ _ _ Hnt)).
  rewrite (bind_ok _ _ _ _ _ (target_ok _ _ _ _ Ht)).
  rewrite (bind_ok _ _ _ _ _ Hadj).
  rewrite (bind_ok _ _ _ _ _ (getattr_ok _ _ _ _ Hsid)).
  rewrite (bind_ok _ _ _ _ _ (logger_run _ _ _)).
  set (w1 := add_log _ _ w).
  assert (Hmx1 : read_statistic w1 self "max" = Some (VFloat mx)) by exact Hmx.
  rewrite (bind_ok _ _ _ _ _ (statistic_ok _ _ _ _ Hmx1)).
  rewrite (bind_ok _ _ _ (VFloat (SFadd prec emax mx a)) _ (lift_run _ _)).
  rewrite (bind_ok _ _ _ (num_gt (NFloat (SFadd prec emax mx a)) (NInt 0)) _ (lift_run _ _)).
  unfold gain_log.
  destruct (num_gt (NFloat (SFadd prec emax mx a)) (NInt 0)).
  - rewrite (bind_ok _ _ _ tt (add_log WARNING (clipping_msg (VFloat (SFadd prec emax mx a))) w1)).
    + unfold ret. subst w1. unfold add_log. simpl. by rewrite <- app_assoc.
    + rewrite (bind_ok _ _ _ _ _ (statistic_ok _ _ _ _ Hmx1)).
      by rewrite (bind_ok _ _ _ (VFloat (SFadd prec emax mx a)) _ (lift_run _ _)).
  - rewrite (bind_ok _ _ _ tt w1) by reflexivity. reflexivity.
Qed.

Lemma peakrms_raise self nt t mn mx sid e w :
  peakrms_ready w self nt t mn mx sid ->
  peakrms_adjustment self nt (VNum t) w = (Raise e, w) ->
  get_second_pass_opts_peakrms self w = (Raise e, w).
Proof.
  intros (Hnt & Ht & Hmn & Hmx & Hsid) Hadj. unfold get_second_pass_opts_peakrms.
  rewrite (bind_ok _ _ _ _ _ (target_ok _ _ _ _ Hnt)).
  rewrite (bind_ok _ _ _ _ _ (target_ok _ _ _ _ Ht)).
  by apply bind_raise.
Qed.

(** C6. For a stream with both statistics measured: in peak mode the
    planner returns the gain [target_level - max], in RMS mode
    [target_level - mean], as the filter [volume=<gain>dB]; it logs the
    adjustment and, exactly when [max + gain > 0], the clipping warning,
    and returns the gain all the same. The gain is the number
    [target_level - statistic] (in peak mode the code computes
    [0 + target_level - max], which differs from it only by the sign of a
    zero result when the target is the float [-0.0]); when that
    subtraction overflows, converting an [int] target too large for a
    float, the [OverflowError] comes out instead. Any other normalization
    type raises [FFmpegNormalizeError] (the module's only error class). *)
Theorem adjustment_gain (w : world) (self nt : pyval) (t : num) (mn mx : spec_float)
    (sid : pyval) :
  peakrms_ready w self nt t mn mx sid ->
  (nt = VStr "peak" ->
   match num_sub t (NFloat mx) with
   | Some d =>
       exists a,
         num_same (NFloat a) d
         /\ (t <> NFloat (S754_zero true) -> NFloat a = d)
         /\ get_second_pass_opts_peakrms self w
            = (Ok (volume_filter (VFloat a)),
               World (heap w) (log w ++ gain_log sid (VNum t) mx a))
   | None => get_second_pass_opts_peakrms self w = (Raise OverflowError, w)
   end)
  /\ (nt = VStr "rms" ->
      match num_sub t (NFloat mn) with
      | Some d =>
          exists a,
            NFloat a = d
            /\ get_second_pass_opts_peakrms self w
               = (Ok (volume_filter (VFloat a)),
                  World (heap w) (log w ++ gain_log sid (VNum t) mx a))
      | None => get_second_pass_opts_peakrms self w = (Raise OverflowError, w)
      end)
  /\ (nt <> VStr "peak" -> nt <> VStr "rms" ->
      get_second_pass_opts_peakrms self w = (Raise (FFmpegNormalizeError adjustment_msg), w))
  /\ (forall a,
         let clipped := SFadd prec emax mx a in
         gain_log sid (VNum t) mx a
         = (INFO, adjusting_msg sid (VFloat a) (VNum t))
           :: (if num_gt (NFloat clipped) (NInt 0)
               then [(WARNING, clipping_msg (VFloat clipped))] else [])
         /\ volume_filter (VFloat a) = "volume=" +:+ py_str (VFloat a) +:+ "dB").
Proof.
  intros Hready. pose proof Hready as (Hnt & Ht & Hmn & Hmx & Hsid).
  split; [|split; [|split]]; [| | |done].
  - intros ->. pose proof (shifted_sub t mx) as Hshift.
    assert (Hadj : peakrms_adjustment self (VStr "peak") (VNum t) w
                   = (of_num (num_sub (match t with
                                       | NFloat (S754_zero true) => NFloat (S754_zero false)
                                       | _ => t
                                       end) (NFloat mx)), w)).
    { unfold peakrms_adjustment. change (val_eq_str (VStr "peak") "peak") with true.
      cbn iota.
      change (py_add (VInt 0) (VNum t)) with (of_num (num_add (NInt 0) t)).
      rewrite zero_add. cbn [of_num]. rewrite (bind_ok _ _ _ _ _ (lift_run _ _)).
      rewrite (bind_ok _ _ _ _ _ (statistic_ok _ _ _ _ Hmx)). reflexivity. }
    destruct (num_sub t (NFloat mx)) as [d|].
    + destruct Hshift as (a & Hsub & Hsame & Heq). exists a.
      split; [done|]. split; [done|].
      rewrite Hsub in Hadj. by apply (peakrms_tail _ _ _ _ _ _ _ _ Hready).
    + rewrite Hshift in Hadj. by apply (peakrms_raise _ _ _ _ _ _ _ _ Hready).
  - intros ->.
    assert (Hadj : peakrms_adjustment self (VStr "rms") (VNum t) w
                   = (of_num (num_sub t (NFloat mn)), w)).
    { unfold peakrms_adjustment. change (val_eq_str (VStr "rms") "peak") with false.
      change (val_eq_str (VStr "rms") "rms") with true. cbn iota.
      rewrite (bind_ok _ _ _ _ _ (statistic_ok _ _ _ _ Hmn)). reflexivity. }
    destruct (num_sub t (NFloat mn)) as [d|] eqn:Hsub.
    + destruct (sub_float _ _ _ Hsub) as [a ->]. exists a. split; [done|].
      by apply (peakrms_tail _ _ _ _ _ _ _ _ Hready).
    + by apply (peakrms_raise _ _ _ _ _ _ _ _ Hready).
  - intros Hpeak Hrms. apply (peakrms_raise _ _ _ _ _ _ _ _ Hready).
    unfold peakrms_adjustment.
    assert (Hp : val_eq_str nt "peak" = false).
    { destruct nt; try done. simpl. apply String.eqb_neq. congruence. }
    assert (Hr : val_eq_str nt "rms" = false).
    { destruct nt; try done. simpl. apply String.eqb_neq. congruence. }
    by rewrite Hp, Hr.
Qed.

End GainProperties.

(** The example of the specification: a peak of [-3.0] and a target of
    [-6.0] give the gain [-3.0], and nothing clips. *)
Lemma adjustment_gain_witness :
  get_second_pass_opts_peakrms (H := sample_runtime) sample_self (gain_world "peak" (-6) (-20) (-3))
  = (Ok (volume_filter (H := sample_runtime) (VFloat (float_of_int (-3)))),
     World (heap (gain_world "peak" (-6) (-20) (-3)))
       [(INFO, adjusting_msg (H := sample_runtime) (VInt 0) (VFloat (float_of_int (-3)))
                 (VFloat (float_of_int (-6))))]).
Proof.
  destruct (adjustment_gain (H := sample_runtime) (gain_world "peak" (-6) (-20) (-3))
              sample_self (VStr "peak") (NFloat (float_of_int (-6))) (float_of_int (-20))
              (float_of_int (-3)) (VInt 0)) as (Hpeak & _).
  { repeat split; by vm_compute. }
  specialize (Hpeak eq_refl).
  assert (Hsub : num_sub (NFloat (float_of_int (-6))) (NFloat (float_of_int (-3)))
                 = Some (NFloat (float_of_int (-3)))) by by vm_compute.
  rewrite Hsub in Hpeak. destruct Hpeak as (a & _ & Heq & Hrun).
  assert (Ha : a = float_of_int (-3)).
  { assert (Hne : NFloat (float_of_int (-6)) <> NFloat (S754_zero true)) by by vm_compute.
    specialize (Heq Hne). congruence. }
  rewrite Hrun, Ha. reflexivity.
Defined.

(** With a peak of [5.0] and a target of [2.0] the gain is [-3.0] and the
    result is [2.0] above full scale: the warning is logged and the filter
    is returned. *)
Lemma clipping_is_only_a_warning :
  get_second_pass_opts_peakrms (H := sample_runtime) sample_self (gain_world "peak" 2 (-20) 5)
  = (Ok (volume_filter (H := sample_runtime) (VFloat (float_of_int (-3)))),
     World (heap (gain_world "peak" 2 (-20) 5))
       [(INFO, adjusting_msg (H := sample_runtime) (VInt 0) (VFloat (float_of_int (-3)))
                 (VFloat (float_of_int 2)));
        (WARNING, clipping_msg (H := sample_runtime) (VFloat (float_of_int 2)))]).
Proof. by vm_compute. Qed.

(** ** From the measurement to the planner *)

Section Lifecycle.
Context `{Runtime}.

Lemma validate_key_Ok stats key r :
  validate_key stats key = Ok r ->
  exists m f, stats = VDict m /\ parses m key f /\ r = VDict (<[key := stored f]> m).
Proof.
  intros Hrun. destruct stats as [| | | | |m|]; try discriminate.
  destruct (m !! key) as [v|] eqn:Hv.
  2:{ by rewrite (validate_key_missing _ _ Hv) in Hrun. }
  destruct (py_float v) as [f|e] eqn:Hf.
  2:{ by rewrite (validate_key_unparsed _ _ _ _ Hv Hf) in Hrun. }
  assert (Hp : parses m key f) by by exists v.
  rewrite (validate_key_ok _ _ _ Hp) in Hrun. injection Hrun as <-.
  by exists m, f.
Qed.

Lemma stored_parses m key f : m !! key = Some (stored f) -> exists g, parses m key g.
Proof.
  intros Hk. destruct f as [s|[]| |s mf e];
    eexists; eexists; (split; [exact Hk|]); reflexivity.
Qed.

(** What the validation loop returns holds a number under each key. *)
Lemma validate_keys_Ok keys : forall m r,
  validate_keys keys (VDict m) = Ok r ->
  exists m', r = VDict m'
    /\ (forall key, key ∈ keys -> exists f, m' !! key = Some (stored f))
    /\ (forall key, key ∉ keys -> m' !! key = m !! key).
Proof.
  induction keys as [|k rest IH]; intros m r; simpl.
  - intros [= <-]. exists m. split; [done|]. split; [|done].
    intros key Hkey. by apply elem_of_nil in Hkey.
  - unfold obind. destruct (validate_key (VDict m) k) as [s1|e] eqn:Hk; [|done].
    apply validate_key_Ok in Hk as (m0 & f & [= <-] & Hf & ->).
    intros (m' & -> & Hin & Hout)%IH. exists m'. split; [done|]. split.
    + intros key [->|Hkey]%elem_of_cons; [|by apply Hin].
      destruct (decide (k ∈ rest)) as [Hr|Hr]; [by apply Hin|].
      exists f. by rewrite (Hout _ Hr), lookup_insert_eq.
    + intros key [Hne Hkey]%not_elem_of_cons.
      by rewrite (Hout _ Hkey), lookup_insert_ne.
Qed.

(** After [parse_loudnorm_stats] the [ebu] statistic is a dictionary in
    which [float] accepts each of the nine fields: the planner can read
    it. *)
Lemma parsed_report_parses self output_lines w w' :
  parse_loudnorm_stats self output_lines w = (Ok tt, w') ->
  exists ls report,
    attr w' self "loudness_statistics" = Some (VDict ls)
    /\ ls !! "ebu" = Some (VDict report)
    /\ (forall key, key ∈ ebu_keys -> exists f, parses report key f).
Proof.
  unfold parse_loudnorm_stats. unfold bind at 1.
  destruct (_parse_loudnorm_output output_lines w) as [[ebu|e] w1] eqn:Hparse; [|done].
  rewrite parse_loudnorm_output_run in Hparse.
  destruct (loudnorm_json output_lines) as [text|]; [|done].
  unfold decode_loudnorm_stats in Hparse.
  destruct (json_loads text) as [stats|e]; [|done].
  unfold bind, logger, ret, raise in Hparse.
  destruct (validate_keys ebu_keys stats) as [validated|e] eqn:Hval; [|done].
  injection Hparse as <- <-.
  assert (Hdict : exists m, stats = VDict m).
  { unfold ebu_keys in Hval. simpl in Hval. unfold obind in Hval.
    destruct (validate_key stats "input_i") eqn:Hk; [|done].
    apply validate_key_Ok in Hk as (m & _ & -> & _). by exists m. }
  destruct Hdict as [m ->].
  apply validate_keys_Ok in Hval as (report & -> & Hin & _).
  unfold set_statistic. unfold bind at 1. rewrite getattr_run.
  destruct (attr _ self "loudness_statistics") as [ls|] eqn:Hls; [|done].
  unfold bind at 1, lift at 1.
  destruct ls as [| | | | |ls|]; try done. simpl py_setitem. cbn iota.
  destruct (attr_allocated _ _ _ _ Hls) as (l & -> & Hl).
  rewrite (setattr_run _ _ _ _ Hl). intros [= <-].
  exists (<["ebu" := VDict report]> ls), report. split; [|split].
  - by apply attr_wset_same.
  - by rewrite lookup_insert_eq.
  - intros key Hkey. destruct (Hin key Hkey) as [f Hf]. by apply (stored_parses _ _ f).
Qed.

End Lifecycle.

(** ** The EBU planner *)

Ltac step_lift := rewrite (bind_ok _ _ _ _ _ (lift_run (Ok _) _)).
Ltac step_log := rewrite (bind_ok _ _ _ _ _ (logger_run _ _ _)).

Lemma agree_except_refl name w : agree_except name w w.
Proof. by intros v n Hn. Qed.

Lemma agree_except_heap name w w' : heap w' = heap w -> agree_except name w w'.
Proof. intros Hh v n Hn. unfold attr. by rewrite Hh. Qed.

Lemma agree_except_wset w l name x : agree_except name w (wset w l name x).
Proof. intros v n Hn. apply attr_wset_other_name. congruence. Qed.

Lemma agree_except_trans name w1 w2 w3 :
  agree_except name w1 w2 -> agree_except name w2 w3 -> agree_except name w1 w3.
Proof. intros H12 H23 v n Hn. by rewrite H23, H12. Qed.

Lemma log_extends_refl w : log_extends w w.
Proof. exists []. by rewrite app_nil_r. Qed.

Lemma log_extends_trans w1 w2 w3 : log_extends w1 w2 -> log_extends w2 w3 -> log_extends w1 w3.
Proof. intros [e1 H1] [e2 H2]. exists (e1 ++ e2)%list. by rewrite H2, H1, app_assoc. Qed.

Lemma log_extends_add_log lv msg w : log_extends w (add_log lv msg w).
Proof. by exists [(lv, msg)]. Qed.

Lemma log_extends_wset w l name x : log_extends w (wset w l name x).
Proof. exists []. by rewrite wset_log, app_nil_r. Qed.

Lemma log_extends_In w w' entry : log_extends w w' -> entry ∈ log w -> entry ∈ log w'.
Proof. intros [extra ->] Hin. apply elem_of_app. by left. Qed.

Lemma read_target_agree x w w' self name :
  agree_except x w w' -> x <> "media_file" -> x <> "ffmpeg_normalize" -> x <> name ->
  read_target w' self name = read_target w self name.
Proof.
  intros Hag Hm Hf Hn. unfold read_target.
  rewrite (Hag self "media_file") by congruence.
  destruct (attr w self "media_file") as [mf|]; [|done]. simpl.
  rewrite (Hag mf "ffmpeg_normalize") by congruence.
  destruct (attr w mf "ffmpeg_normalize") as [n|]; [|done]. simpl.
  apply Hag. congruence.
Qed.

Lemma py_getitem_ok m key v : m !! key = Some v -> py_getitem (VDict m) key = Ok v.
Proof. intros Hk. unfold py_getitem. by rewrite Hk. Qed.

Lemma read_ebu_item_report w self ls report key :
  attr w self "loudness_statistics" = Some (VDict ls) ->
  ls !! "ebu" = Some (VDict report) ->
  read_ebu_item w self key = report !! key.
Proof.
  intros Hls Hebu. unfold read_ebu_item, read_statistic. rewrite Hls. simpl.
  by rewrite Hebu.
Qed.

Section PlannerPhases.
Context `{Runtime}.

Lemma ebu_first_pass_check_ok self ls report key v w :
  attr w self "loudness_statistics" = Some (VDict ls) ->
  ls !! "ebu" = Some (VDict report) ->
  report !! key = Some v ->
  ebu_first_pass_check self w = (Ok tt, w).
Proof.
  intros Hls Hebu Hkey. unfold ebu_first_pass_check.
  assert (Hread : read_statistic w self "ebu" = Some (VDict report)).
  { unfold read_statistic. rewrite Hls. simpl. done. }
  rewrite (bind_ok _ _ _ _ _ (statistic_ok _ _ _ _ Hread)).
  assert (Ht : truthy (VDict report) = true).
  { simpl. destruct (map_to_list report) as [|p rest] eqn:Hl; [|done].
    apply map_to_list_empty_iff in Hl. subst report. by rewrite lookup_empty in Hkey. }
  by rewrite Ht.
Qed.

Lemma ebu_cap_run self ls report f w :
  attr w self "loudness_statistics" = Some (VDict ls) ->
  ls !! "ebu" = Some (VDict report) ->
  parses report "input_i" f ->
  exists w',
    ebu_cap_input_i self w = (Ok tt, w')
    /\ attr w' self "loudness_statistics"
       = Some (VDict (<["ebu" := VDict (if num_gt (NFloat f) (NInt 0)
                                        then <["input_i" := VInt 0]> report
                                        else report)]> ls))
    /\ agree_except "loudness_statistics" w w'
    /\ log_extends w w'.
Proof.
  intros Hls Hebu (v & Hv & Hf). unfold ebu_cap_input_i.
  assert (Hitem : read_ebu_item w self "input_i" = Some v)
    by by rewrite (read_ebu_item_report _ _ _ _ _ Hls Hebu).
  rewrite (bind_ok _ _ _ _ _ (ebu_item_ok _ _ _ _ Hitem)).
  rewrite Hf. step_lift.
  destruct (num_gt (NFloat f) (NInt 0)).
  - rewrite (bind_ok _ _ _ _ _ (ebu_item_ok _ _ _ _ Hitem)). step_log.
    set (w1 := add_log _ _ w).
    assert (Hls1 : attr w1 self "loudness_statistics" = Some (VDict ls)) by exact Hls.
    rewrite (bind_ok _ _ _ _ _ (getattr_ok _ _ _ _ Hls1)).
    rewrite (py_getitem_ok _ _ _ Hebu). step_lift.
    unfold py_setitem at 1. step_lift. unfold py_setitem at 1. step_lift.
    destruct (attr_allocated _ _ _ _ Hls1) as (l & -> & Hl).
    rewrite (setattr_run _ _ _ _ Hl). eexists. split; [done|]. split; [|split].
    + by apply attr_wset_same.
    + eapply agree_except_trans; [|apply agree_except_wset].
      by apply agree_except_heap.
    + eapply log_extends_trans; [apply log_extends_add_log|apply log_extends_wset].
  - exists w. split; [done|]. split; [|split].
    + by rewrite (insert_id ls "ebu" (VDict report)).
    + apply agree_except_refl.
    + apply log_extends_refl.
Qed.

Lemma ebu_dynamic_mode_run self ls report lra keep dynamic input_lra less w :
  attr w self "loudness_statistics" = Some (VDict ls) ->
  ls !! "ebu" = Some (VDict report) ->
  report !! "input_lra" = Some input_lra ->
  read_target w self "loudness_range_target" = Some lra ->
  read_target w self "keep_loudness_range_target" = Some keep ->
  read_target w self "dynamic" = Some dynamic ->
  py_lt (effective_range keep lra input_lra) input_lra = Ok less ->
  exists w',
    ebu_dynamic_mode self w
    = (Ok (if less && negb (truthy dynamic) then VBool true else dynamic), w')
    /\ read_target w' self "loudness_range_target" = Some (effective_range keep lra input_lra)
    /\ (forall n, (attr w self "media_file" ≫= fun mf => attr w mf "ffmpeg_normalize") = Some n ->
                  attr w' n "loudness_range_target"
                  = Some (effective_range keep lra input_lra))
    /\ agree_except "loudness_range_target" w w'
    /\ log_extends w w'
    /\ (less && negb (truthy dynamic) = true ->
        (WARNING, dynamic_fallback_msg input_lra (effective_range keep lra input_lra)) ∈ log w').
Proof.
  intros Hls Hebu Hilra Hlra Hkeep Hdyn Hlt. unfold ebu_dynamic_mode.
  rewrite (bind_ok _ _ _ _ _ (target_ok _ _ _ _ Hdyn)).
  rewrite (bind_ok _ _ _ _ _ (target_ok _ _ _ _ Hkeep)).
  assert (Hstep : exists w1,
             (if truthy keep
              then logger DEBUG "Keeping target loudness range in second pass loudnorm filter" ;;
                   input_lra0 <- ebu_item self "input_lra" ;;
                   n <- targets self ;; setattr n "loudness_range_target" input_lra0
              else ret tt) w = (Ok tt, w1)
             /\ read_target w1 self "loudness_range_target"
                = Some (effective_range keep lra input_lra)
             /\ (forall n, (attr w self "media_file" ≫= fun mf => attr w mf "ffmpeg_normalize")
                           = Some n ->
                           attr w1 n "loudness_range_target"
                           = Some (effective_range keep lra input_lra))
             /\ agree_except "loudness_range_target" w w1
             /\ log_extends w w1).
  { unfold effective_range. destruct (truthy keep).
    - step_log. set (w0 := add_log _ _ w).
      assert (Hitem : read_ebu_item w0 self "input_lra" = Some input_lra).
      { rewrite (read_ebu_item_report w0 self ls report); done. }
      rewrite (bind_ok _ _ _ _ _ (ebu_item_ok _ _ _ _ Hitem)).
      assert (Hlra0 : read_target w0 self "loudness_range_target" = Some lra) by exact Hlra.
      destruct (targets_ok _ _ _ _ Hlra0) as (n & Hn & Han).
      rewrite (bind_ok _ _ _ _ _ Hn).
      destruct (attr_allocated _ _ _ _ Han) as (ln & -> & Hln).
      rewrite (setattr_run _ _ _ _ Hln). eexists. split; [done|].
      assert (Hag : agree_except "loudness_range_target" w
                      (wset w0 ln "loudness_range_target" input_lra)).
      { eapply agree_except_trans; [|apply agree_except_wset]. by apply agree_except_heap. }
      assert (Hpath : (attr w self "media_file" ≫= fun mf => attr w mf "ffmpeg_normalize")
                      = Some (VRef ln)).
      { unfold targets in Hn. unfold bind in Hn. rewrite !getattr_run in Hn.
        change (attr w0 self "media_file") with (attr w self "media_file") in Hn.
        destruct (attr w self "media_file") as [mf|]; [|done]. simpl.
        rewrite getattr_run in Hn.
        change (attr w0 mf "ffmpeg_normalize") with (attr w mf "ffmpeg_normalize") in Hn.
        destruct (attr w mf "ffmpeg_normalize") as [n|]; [|done]. congruence. }
      split; [|split; [|split]].
      + unfold read_target. rewrite (Hag self "media_file") by done.
        destruct (attr w self "media_file") as [mf|]; [|done]. simpl in *.
        rewrite (Hag mf "ffmpeg_normalize") by done. rewrite Hpath. simpl.
        by apply attr_wset_same.
      + intros n Hn'. rewrite Hpath in Hn'. injection Hn' as <-. by apply attr_wset_same.
      + done.
      + eapply log_extends_trans; [apply log_extends_add_log|apply log_extends_wset].
    - exists w. split; [done|]. split; [done|]. split; [|split].
      + intros n Hn. unfold read_target in Hlra.
        destruct (attr w self "media_file") as [mf|]; [|done]. simpl in *.
        rewrite Hn in Hlra. done.
      + apply agree_except_refl.
      + apply log_extends_refl. }
  destruct Hstep as (w1 & Hrun1 & Hlra1 & Hobj & Hag & Hlog).
  rewrite (bind_ok _ _ _ _ _ Hrun1).
  rewrite (bind_ok _ _ _ _ _ (target_ok _ _ _ _ Hlra1)).
  assert (Hls1 : attr w1 self "loudness_statistics" = Some (VDict ls)).
  { by rewrite (Hag self "loudness_statistics"). }
  assert (Hitem1 : read_ebu_item w1 self "input_lra" = Some input_lra).
  { rewrite (read_ebu_item_report w1 self ls report); done. }
  rewrite (bind_ok _ _ _ _ _ (ebu_item_ok _ _ _ _ Hitem1)).
  rewrite Hlt. step_lift.
  destruct (less && negb (truthy dynamic)) eqn:Hfall.
  - rewrite (bind_ok _ _ _ _ _ (ebu_item_ok _ _ _ _ Hitem1)).
    rewrite (bind_ok _ _ _ _ _ (target_ok _ _ _ _ Hlra1)). step_log.
    eexists. split; [done|]. split; [done|]. split; [done|].
    split; [|split].
    + eapply agree_except_trans; [done|]. by apply agree_except_heap.
    + eapply log_extends_trans; [done|apply log_extends_add_log].
    + intros _. simpl. apply elem_of_app. right. by left.
  - exists w1. split; [done|]. split; [done|]. split; [done|]. split; [done|].
    split; [done|]. done.
Qed.


Lemma ebu_sample_rate_warning_run self will n sr w :
  attr w self "ffmpeg_normalize" = Some n ->
  attr w n "sample_rate" = Some sr ->
  exists w',
    ebu_sample_rate_warning self will w = (Ok tt, w')
    /\ heap w' = heap w /\ log_extends w w'.
Proof.
  intros Hn Hsr. unfold ebu_sample_rate_warning. destruct (truthy will).
  - rewrite (bind_ok _ _ _ _ _ (getattr_ok _ _ _ _ Hn)).
    rewrite (bind_ok _ _ _ _ _ (getattr_ok _ _ _ _ Hsr)).
    destruct (truthy sr); simpl.
    + exists w. split; [done|]. split; [done|apply log_extends_refl].
    + eexists. split; [apply logger_run|]. split; [done|apply log_extends_add_log].
  - exists w. split; [done|]. split; [done|apply log_extends_refl].
Qed.

Lemma constrained_run report key f lo hi w :
  parses report key f ->
  (lo <= hi)%Z ->
  exists w',
    constrained (VDict report) key lo hi w = (Ok (clamped f lo hi), w')
    /\ heap w' = heap w /\ log_extends w w'.
Proof.
  intros (v & Hv & Hf) Hle. unfold constrained.
  rewrite (py_getitem_ok _ _ _ Hv). step_lift. rewrite Hf. step_lift.
  assert (Hgt : num_gt (NInt lo) (NInt hi) = false).
  { unfold num_gt. simpl. by destruct (lo ?= hi)%Z eqn:Hc. }
  pose proof (constrain_run (NFloat f) (NInt lo) (NInt hi) (Some key) w Hgt) as Hrun.
  simpl in Hrun. rewrite (bind_ok _ _ _ _ _ Hrun). eexists. split; [done|].
  destruct (num_ne _ _).
  - split; [done|apply log_extends_add_log].
  - split; [done|apply log_extends_refl].
Qed.

Lemma ebu_opts_run self ls report tl lra tp dynamic dm foff fi flra ftp fth w :
  attr w self "loudness_statistics" = Some (VDict ls) ->
  ls !! "ebu" = Some (VDict report) ->
  parses report "target_offset" foff ->
  parses report "input_i" fi ->
  parses report "input_lra" flra ->
  parses report "input_tp" ftp ->
  parses report "input_thresh" fth ->
  read_target w self "target_level" = Some tl ->
  read_target w self "loudness_range_target" = Some lra ->
  read_target w self "true_peak" = Some tp ->
  read_target w self "dynamic" = Some dynamic ->
  read_target w self "dual_mono" = Some dm ->
  exists w',
    ebu_opts self w
    = (Ok ([("i", tl); ("lra", lra); ("tp", tp);
            ("offset", clamped foff (-99) 99);
            ("measured_i", clamped fi (-99) 0);
            ("measured_lra", clamped flra 0 99);
            ("measured_tp", clamped ftp (-99) 99);
            ("measured_thresh", clamped fth (-99) 0);
            ("linear", VStr (if truthy dynamic then "false" else "true"));
            ("print_format", VStr "json")]
           ++ (if truthy dm then [("dual_mono", VStr "true")] else []))%list, w')
    /\ heap w' = heap w /\ log_extends w w'.
Proof.
  intros Hls Hebu Hoff Hi Hilra Htp Hth Htl Hlra Htpk Hdyn Hdm. unfold ebu_opts.
  assert (Hread : read_statistic w self "ebu" = Some (VDict report)).
  { unfold read_statistic. rewrite Hls. simpl. done. }
  rewrite (bind_ok _ _ _ _ _ (statistic_ok _ _ _ _ Hread)).
  rewrite (bind_ok _ _ _ _ _ (target_ok _ _ _ _ Htl)).
  rewrite (bind_ok _ _ _ _ _ (target_ok _ _ _ _ Hlra)).
  rewrite (bind_ok _ _ _ _ _ (target_ok _ _ _ _ Htpk)).
  destruct (constrained_run report "target_offset" foff (-99) 99 w Hoff)
    as (w1 & Hr1 & Hh1 & Hl1); [lia|].
  rewrite (bind_ok _ _ _ _ _ Hr1).
  destruct (constrained_run report "input_i" fi (-99) 0 w1 Hi)
    as (w2 & Hr2 & Hh2 & Hl2); [lia|].
  rewrite (bind_ok _ _ _ _ _ Hr2).
  destruct (constrained_run report "input_lra" flra 0 99 w2 Hilra)
    as (w3 & Hr3 & Hh3 & Hl3); [lia|].
  rewrite (bind_ok _ _ _ _ _ Hr3).
  destruct (constrained_run report "input_tp" ftp (-99) 99 w3 Htp)
    as (w4 & Hr4 & Hh4 & Hl4); [lia|].
  rewrite (bind_ok _ _ _ _ _ Hr4).
  destruct (constrained_run report "input_thresh" fth (-99) 0 w4 Hth)
    as (w5 & Hr5 & Hh5 & Hl5); [lia|].
  rewrite (bind_ok _ _ _ _ _ Hr5).
  assert (Hh : heap w5 = heap w) by congruence.
  assert (Hag : agree_except "" w w5) by by apply agree_except_heap.
  assert (Hdyn5 : read_target w5 self "dynamic" = Some dynamic).
  { by rewrite (read_target_agree "" w w5). }
  assert (Hdm5 : read_target w5 self "dual_mono" = Some dm).
  { by rewrite (read_target_agree "" w w5). }
  rewrite (bind_ok _ _ _ _ _ (target_ok _ _ _ _ Hdyn5)).
  rewrite (bind_ok _ _ _ _ _ (target_ok _ _ _ _ Hdm5)).
  exists w5. split; [|split; [done|]].
  - unfold ret. f_equal. f_equal. destruct (truthy dm); [done|]. by rewrite app_nil_r.
  - repeat (eapply log_extends_trans; [eassumption|]). apply log_extends_refl.
Qed.


Lemma parses_capped report f :
  parses report "input_i" f ->
  exists f', parses (if num_gt (NFloat f) (NInt 0)
                     then <["input_i" := VInt 0]> report else report) "input_i" f'.
Proof.
  intros Hf. destruct (num_gt (NFloat f) (NInt 0)); [|by exists f].
  exists (S754_zero false), (VInt 0). by rewrite lookup_insert_eq.
Qed.

Lemma parses_capped_other report f key g :
  key <> "input_i" ->
  parses report key g ->
  parses (if num_gt (NFloat f) (NInt 0)
          then <["input_i" := VInt 0]> report else report) key g.
Proof.
  intros Hne Hg. destruct (num_gt (NFloat f) (NInt 0)); [|done].
  apply parses_insert_ne; done.
Qed.

(** The planner on a plannable stream, phase by phase. *)
Lemma ebu_plan_run w self report lra keep dynamic input_lra less :
  ebu_plannable w self report lra keep dynamic input_lra ->
  py_lt (effective_range keep lra input_lra) input_lra = Ok less ->
  exists opts w',
    second_pass_plan_ebu self w
    = (Ok (if less && negb (truthy dynamic) then VBool true else dynamic, opts), w')
    /\ get_second_pass_opts_ebu self w
       = (Ok ("loudnorm=" +:+ dict_to_filter_opts opts), w')
    /\ opt_value opts "lra" = Some (effective_range keep lra input_lra)
    /\ opt_value opts "linear" = Some (VStr (if truthy dynamic then "false" else "true"))
    /\ read_target w' self "loudness_range_target" = Some (effective_range keep lra input_lra)
    /\ (forall n, (attr w self "media_file" ≫= fun mf => attr w mf "ffmpeg_normalize") = Some n ->
                  attr w' n "loudness_range_target"
                  = Some (effective_range keep lra input_lra))
    /\ read_ebu_item w' self "input_lra" = Some input_lra
    /\ log_extends w w'
    /\ (less && negb (truthy dynamic) = true ->
        (WARNING, dynamic_fallback_msg input_lra (effective_range keep lra input_lra))
        ∈ log w').
Proof.
  intros ((ls & Hls & Hebu) & Hkeys & Hilra & Hlra & Hkeep & Hdyn & [tl Htl] & [tp Htp]
          & [dm Hdm] & (n2 & Hn2 & [sr Hsr])) Hlt.
  destruct (Hkeys "target_offset") as [foff Hoff]; [by_compute|].
  destruct (Hkeys "input_i") as [fi Hi]; [by_compute|].
  destruct (Hkeys "input_lra") as [flra Hflra]; [by_compute|].
  destruct (Hkeys "input_tp") as [ftp Hftp]; [by_compute|].
  destruct (Hkeys "input_thresh") as [fth Hfth]; [by_compute|].
  (* the cap *)
  destruct (ebu_cap_run self ls report fi w Hls Hebu Hi) as (w1 & Hrun1 & Hls1 & Hag1 & Hlog1).
  set (report1 := if num_gt (NFloat fi) (NInt 0)
                  then <["input_i" := VInt 0]> report else report) in *.
  set (ls1 := <["ebu" := VDict report1]> ls) in *.
  assert (Hebu1 : ls1 !! "ebu" = Some (VDict report1)) by apply lookup_insert_eq.
  assert (Hilra1 : report1 !! "input_lra" = Some input_lra).
  { subst report1. destruct (num_gt _ _); [|done]. by rewrite lookup_insert_ne. }
  destruct (parses_capped report fi Hi) as [fi1 Hi1]. fold report1 in Hi1.
  pose proof (parses_capped_other report fi "target_offset" foff ltac:(done) Hoff) as Hoff1.
  pose proof (parses_capped_other report fi "input_lra" flra ltac:(done) Hflra) as Hflra1.
  pose proof (parses_capped_other report fi "input_tp" ftp ltac:(done) Hftp) as Hftp1.
  pose proof (parses_capped_other report fi "input_thresh" fth ltac:(done) Hfth) as Hfth1.
  fold report1 in Hoff1, Hflra1, Hftp1, Hfth1.
  assert (Ht1 : forall name v, name <> "loudness_statistics" ->
                               read_target w self name = Some v ->
                               read_target w1 self name = Some v).
  { intros name v Hne Hv. by rewrite (read_target_agree "loudness_statistics" w w1). }
  (* the mode *)
  destruct (ebu_dynamic_mode_run self ls1 report1 lra keep dynamic input_lra less w1
              Hls1 Hebu1 Hilra1 (Ht1 "loudness_range_target" _ ltac:(done) Hlra)
              (Ht1 "keep_loudness_range_target" _ ltac:(done) Hkeep)
              (Ht1 "dynamic" _ ltac:(done) Hdyn) Hlt)
    as (w2 & Hrun2 & Hlra2 & Hobj2 & Hag2 & Hlog2 & Hwarn2).
  assert (Ht2 : forall name v, name <> "loudness_statistics" ->
                               name <> "loudness_range_target" ->
                               read_target w self name = Some v ->
                               read_target w2 self name = Some v).
  { intros name v Hne Hne' Hv.
    rewrite (read_target_agree "loudness_range_target" w1 w2) by done. by apply Ht1. }
  assert (Hls2 : attr w2 self "loudness_statistics" = Some (VDict ls1)).
  { by rewrite (Hag2 self "loudness_statistics"). }
  (* the sample rate *)
  assert (Hn22 : attr w2 self "ffmpeg_normalize" = Some n2).
  { rewrite (Hag2 self "ffmpeg_normalize") by done.
    by rewrite (Hag1 self "ffmpeg_normalize"). }
  assert (Hsr2 : attr w2 n2 "sample_rate" = Some sr).
  { rewrite (Hag2 n2 "sample_rate") by done. by rewrite (Hag1 n2 "sample_rate"). }
  destruct (ebu_sample_rate_warning_run self
              (if less && negb (truthy dynamic) then VBool true else dynamic) n2 sr w2 Hn22 Hsr2)
    as (w3 & Hrun3 & Hh3 & Hlog3).
  assert (Hag3 : agree_except "" w2 w3) by by apply agree_except_heap.
  assert (Ht3 : forall name v, read_target w2 self name = Some v ->
                               read_target w3 self name = Some v).
  { intros name v Hv. unfold read_target, attr. rewrite Hh3. exact Hv. }
  assert (Hls3 : attr w3 self "loudness_statistics" = Some (VDict ls1)).
  { unfold attr. rewrite Hh3. exact Hls2. }
  (* the options *)
  destruct (ebu_opts_run self ls1 report1 tl (effective_range keep lra input_lra) tp dynamic dm
              foff fi1 flra ftp fth w3 Hls3 Hebu1 Hoff1 Hi1 Hflra1 Hftp1 Hfth1
              (Ht3 _ _ (Ht2 "target_level" _ ltac:(done) ltac:(done) Htl))
              (Ht3 _ _ Hlra2)
              (Ht3 _ _ (Ht2 "true_peak" _ ltac:(done) ltac:(done) Htp))
              (Ht3 _ _ (Ht2 "dynamic" _ ltac:(done) ltac:(done) Hdyn))
              (Ht3 _ _ (Ht2 "dual_mono" _ ltac:(done) ltac:(done) Hdm)))
    as (w4 & Hrun4 & Hh4 & Hlog4).
  assert (Hplan : second_pass_plan_ebu self w
                  = (Ok (if less && negb (truthy dynamic) then VBool true else dynamic,
                         ([("i", tl); ("lra", effective_range keep lra input_lra); ("tp", tp);
                           ("offset", clamped foff (-99) 99);
                           ("measured_i", clamped fi1 (-99) 0);
                           ("measured_lra", clamped flra 0 99);
                           ("measured_tp", clamped ftp (-99) 99);
                           ("measured_thresh", clamped fth (-99) 0);
                           ("linear", VStr (if truthy dynamic then "false" else "true"));
                           ("print_format", VStr "json")]
                          ++ (if truthy dm then [("dual_mono", VStr "true")] else []))%list),
                     w4)).
  { unfold second_pass_plan_ebu.
    rewrite (bind_ok _ _ _ _ _ (ebu_first_pass_check_ok _ _ _ _ _ _ Hls Hebu Hilra)).
    rewrite (bind_ok _ _ _ _ _ Hrun1). rewrite (bind_ok _ _ _ _ _ Hrun2).
    rewrite (bind_ok _ _ _ _ _ Hrun3). by rewrite (bind_ok _ _ _ _ _ Hrun4). }
  eexists _, w4. split; [exact Hplan|]. split; [|split; [|split; [|split; [|split; [|split; [|split]]]]]].
  - unfold get_second_pass_opts_ebu. by rewrite (bind_ok _ _ _ _ _ Hplan).
  - reflexivity.
  - reflexivity.
  - unfold read_target, attr. rewrite Hh4. by apply Ht3.
  - intros n Hn. unfold attr. rewrite Hh4, Hh3. apply Hobj2.
    rewrite (Hag1 self "media_file") by done.
    destruct (attr w self "media_file") as [mf|]; [|done]. simpl in *.
    by rewrite (Hag1 mf "ffmpeg_normalize").
  - rewrite (read_ebu_item_report w4 self ls1 report1); [done| |done].
    unfold attr. rewrite Hh4. exact Hls3.
  - repeat (eapply log_extends_trans; [eassumption|]). apply log_extends_refl.
  - intros Hfall. eapply log_extends_In; [|by apply Hwarn2].
    eapply log_extends_trans; eassumption.
Qed.


Lemma py_lt_irrefl v f : py_float v = Ok f -> py_lt v v = Ok false.
Proof.
  unfold py_float, py_lt. destruct (as_num v) as [n|] eqn:Hn.
  - intros _. by rewrite num_lt_irrefl.
  - destruct v; try done. intros _. f_equal. unfold String.ltb.
    pose proof (String.compare_antisym s s) as Hs.
    by destruct (String.compare s s).
Qed.

(** C1, as the code has it. For every EBU planning call on a measured
    stream, the [linear] option is the negation of the caller's [dynamic]
    setting. So when the target range (the measured one if the input's
    range is kept) is below the measured range and dynamic mode was not
    asked for, the planner sets [will_use_dynamic_mode], logs the fallback
    warning, and returns options with [linear=true]. *)
Theorem dynamic_fallback (w : world) (self : pyval) (report : gmap string pyval)
    (loudness_range_target keep dynamic input_lra : pyval) (less : bool) :
  ebu_plannable w self report loudness_range_target keep dynamic input_lra ->
  py_lt (effective_range keep loudness_range_target input_lra) input_lra = Ok less ->
  exists will_use_dynamic_mode opts w',
    second_pass_plan_ebu self w = (Ok (will_use_dynamic_mode, opts), w')
    /\ get_second_pass_opts_ebu self w
       = (Ok ("loudnorm=" +:+ dict_to_filter_opts opts), w')
    /\ opt_value opts "linear" = Some (VStr (if truthy dynamic then "false" else "true"))
    /\ (less = true -> truthy dynamic = false ->
        will_use_dynamic_mode = VBool true
        /\ (WARNING,
            dynamic_fallback_msg input_lra
              (effective_range keep loudness_range_target input_lra)) ∈ log w'
        /\ opt_value opts "linear" = Some (VStr "true")).
Proof.
  intros Hplan Hlt.
  destruct (ebu_plan_run _ _ _ _ _ _ _ _ Hplan Hlt)
    as (opts & w' & Hrun & Hget & _ & Hlinear & _ & _ & _ & _ & Hwarn).
  eexists _, opts, w'. split; [exact Hrun|]. split; [done|]. split; [done|].
  intros -> Hdyn. rewrite Hdyn in *. simpl in *. split; [done|]. split; [by apply Hwarn|done].
Qed.

(** C2. For every EBU planning call on a measured stream with the keep
    flag set, the planner writes the measured input range into the
    [loudness_range_target] of the targets object before it compares the
    two (so the fallback is not taken and [will_use_dynamic_mode] stays
    the caller's setting), the [lra] option is the measured range, and
    after the call the targets object, whoever reads it, holds the
    measured range. *)
Theorem keep_range_overrides_target (w : world) (self : pyval) (report : gmap string pyval)
    (loudness_range_target keep dynamic input_lra : pyval) :
  ebu_plannable w self report loudness_range_target keep dynamic input_lra ->
  truthy keep = true ->
  exists opts w',
    second_pass_plan_ebu self w = (Ok (dynamic, opts), w')
    /\ get_second_pass_opts_ebu self w
       = (Ok ("loudnorm=" +:+ dict_to_filter_opts opts), w')
    /\ opt_value opts "lra" = Some input_lra
    /\ read_target w' self "loudness_range_target" = Some input_lra
    /\ (forall n, (attr w self "media_file" ≫= fun mf => attr w mf "ffmpeg_normalize") = Some n ->
                  attr w' n "loudness_range_target" = Some input_lra)
    /\ read_ebu_item w' self "input_lra" = Some input_lra.
Proof.
  intros Hplan Hkeep.
  assert (Hlt : py_lt (effective_range keep loudness_range_target input_lra) input_lra
                = Ok false).
  { unfold effective_range. rewrite Hkeep.
    destruct Hplan as (_ & Hkeys & Hilra & _).
    destruct (Hkeys "input_lra") as (f & v & Hv & Hf); [by_compute|].
    apply (py_lt_irrefl _ f). congruence. }
  destruct (ebu_plan_run _ _ _ _ _ _ _ _ Hplan Hlt)
    as (opts & w' & Hrun & Hget & Hlra & _ & Htarget & Hobj & Hitem & _).
  unfold effective_range in *. rewrite Hkeep in *. simpl in Hrun.
  by exists opts, w'.
Qed.

End PlannerPhases.

Ltac plannable :=
  unfold ebu_plannable;
  split; [eexists; split; vm_compute; reflexivity|];
  split; [intros key Hkey;
          repeat (apply elem_of_cons in Hkey as [->|Hkey];
                  [eexists; eexists; split; vm_compute; reflexivity|]);
          by apply elem_of_nil in Hkey|];
  split; [vm_compute; reflexivity|]; split; [vm_compute; reflexivity|];
  split; [vm_compute; reflexivity|]; split; [vm_compute; reflexivity|];
  split; [eexists; vm_compute; reflexivity|]; split; [eexists; vm_compute; reflexivity|];
  split; [eexists; vm_compute; reflexivity|];
  eexists; split; [vm_compute; reflexivity|eexists; vm_compute; reflexivity].

(** The example of the specification: target range 7, measured range 12,
    dynamic mode not asked for. *)
Lemma fallback_world_plannable :
  ebu_plannable (H := sample_runtime) (ebu_world 7 12 false false) sample_self
    (sample_ebu_report 12) (VFloat (float_of_int 7)) (VBool false) (VBool false)
    (VFloat (float_of_int 12)).
Proof. plannable. Qed.

Lemma dynamic_fallback_witness :
  exists opts w',
    second_pass_plan_ebu (H := sample_runtime) sample_self (ebu_world 7 12 false false)
    = (Ok (VBool true, opts), w')
    /\ (WARNING,
        dynamic_fallback_msg (H := sample_runtime) (VFloat (float_of_int 12))
          (VFloat (float_of_int 7))) ∈ log w'
    /\ opt_value opts "linear" = Some (VStr "true").
Proof.
  destruct (dynamic_fallback (H := sample_runtime) (ebu_world 7 12 false false) sample_self
              (sample_ebu_report 12) (VFloat (float_of_int 7)) (VBool false) (VBool false)
              (VFloat (float_of_int 12)) true fallback_world_plannable)
    as (will & opts & w' & Hrun & _ & _ & Hfall); [vm_compute; reflexivity|].
  destruct (Hfall eq_refl eq_refl) as (-> & Hwarn & Hlinear).
  exists opts, w'. split; [exact Hrun|]. split; [exact Hwarn|exact Hlinear].
Defined.

(** C1, as the specification has it, fails on that example: the options
    have [linear=true]. *)
Lemma fallback_keeps_linear_true : ~ fallback_sets_linear_false.
Proof.
  intros Hspec.
  destruct (ebu_plan_run (H := sample_runtime) (ebu_world 7 12 false false) sample_self
              (sample_ebu_report 12) (VFloat (float_of_int 7)) (VBool false) (VBool false)
              (VFloat (float_of_int 12)) true fallback_world_plannable)
    as (opts & w' & Hrun & _ & _ & Hlinear & Htarget & _ & Hitem & _);
    [vm_compute; reflexivity|].
  assert (Hfalse : opt_value opts "linear" = Some (VStr "false")).
  { apply (Hspec sample_runtime (ebu_world 7 12 false false) w' sample_self _ opts
             (VFloat (float_of_int 7)) (VFloat (float_of_int 12)) (VBool false) Hrun).
    - exact Htarget.
    - exact Hitem.
    - vm_compute; reflexivity.
    - vm_compute; reflexivity.
    - reflexivity. }
  rewrite Hlinear in Hfalse. discriminate Hfalse.
Qed.

(** The example of the specification: the range is kept and the measured
    range is 9. *)
Lemma keep_range_overrides_target_witness :
  exists opts w',
    second_pass_plan_ebu (H := sample_runtime) sample_self (ebu_world 7 9 true false)
    = (Ok (VBool false, opts), w')
    /\ opt_value opts "lra" = Some (VFloat (float_of_int 9))
    /\ attr w' (VRef 1%positive) "loudness_range_target" = Some (VFloat (float_of_int 9)).
Proof.
  destruct (keep_range_overrides_target (H := sample_runtime) (ebu_world 7 9 true false)
              sample_self (sample_ebu_report 9) (VFloat (float_of_int 7)) (VBool true)
              (VBool false) (VFloat (float_of_int 9)))
    as (opts & w' & Hrun & _ & Hlra & _ & Hobj & _); [plannable|reflexivity|].
  exists opts, w'. split; [exact Hrun|]. split; [exact Hlra|]. apply Hobj.
  vm_compute; reflexivity.
Defined.

(** A second reading of the same targets after the call sees the range
    the call wrote, not the caller's 7. *)
Lemma kept_range_persists :
  let w := ebu_world 7 9 true false in
  let w1 := snd (second_pass_plan_ebu (H := sample_runtime) sample_self w) in
  read_target w sample_self "loudness_range_target" = Some (VFloat (float_of_int 7))
  /\ read_target w1 sample_self "loudness_range_target" = Some (VFloat (float_of_int 9)).
Proof. split; vm_compute; reflexivity. Qed.

(** ** Methods that only read *)

Lemma reads_only_ret {A} (a : A) : reads_only (ret a).
Proof. intros w. split; [done|apply log_extends_refl]. Qed.

Lemma reads_only_raise {A} (e : exn) : reads_only (raise (A := A) e).
Proof. intros w. split; [done|apply log_extends_refl]. Qed.

Lemma reads_only_lift {A} (o : outcome A) : reads_only (lift o).
Proof. intros w. split; [done|apply log_extends_refl]. Qed.

Lemma reads_only_logger lv msg : reads_only (logger lv msg).
Proof. intros w. split; [done|apply log_extends_add_log]. Qed.

Lemma reads_only_getattr v name : reads_only (getattr v name).
Proof. intros w. rewrite getattr_run. split; [done|apply log_extends_refl]. Qed.

Lemma reads_only_bind {A B} (m : M A) (k : A -> M B) :
  reads_only m -> (forall a, reads_only (k a)) -> reads_only (bind m k).
Proof.
  intros Hm Hk w. unfold bind. specialize (Hm w).
  destruct (m w) as [[a|e] w1]; simpl in Hm; [|done].
  destruct (Hk a w1) as [Hh Hl]. destruct Hm as [Hh1 Hl1]. split.
  - by rewrite Hh.
  - by apply (log_extends_trans _ w1).
Qed.

Ltac read_only :=
  repeat first
    [ apply reads_only_ret | apply reads_only_raise | apply reads_only_lift
    | apply reads_only_logger | apply reads_only_getattr
    | apply reads_only_bind; [|intros ?]
    | match goal with
      | |- reads_only (if ?b then _ else _) => destruct b
      | |- reads_only (match ?x with _ => _ end) => destruct x
      | |- reads_only (let '(_, _) := ?x in _) => destruct x
      end ].

Lemma reads_only_input_file self : reads_only (input_file self).
Proof. unfold input_file. read_only. Qed.

Lemma reads_only_target self name : reads_only (target self name).
Proof. unfold target, targets. read_only. Qed.

Lemma reads_only_statistic self key : reads_only (statistic self key).
Proof. unfold statistic. read_only. Qed.

Lemma reads_only_constrain `{Runtime} number min_range max_range name :
  reads_only (_constrain number min_range max_range name).
Proof. unfold _constrain. read_only. Qed.

(** ** Integers as numbers *)

Lemma num_eq_int a b : num_eq (NInt a) (NInt b) = (a =? b).
Proof.
  unfold num_eq. simpl. destruct (Z.compare_spec a b) as [->|Hlt|Hgt].
  - by rewrite Z.eqb_refl.
  - symmetry. apply Z.eqb_neq. lia.
  - symmetry. apply Z.eqb_neq. lia.
Qed.

Lemma num_le_int a b : num_le (NInt a) (NInt b) = (a <=? b).
Proof. unfold num_le, Z.leb. simpl. by destruct (a ?= b). Qed.

(** ** The codec, the filter string and the statistics report *)

Section ReportingProperties.
Context `{Runtime} `{OsRuntime}.

Lemma reads_only_get_pcm_codec self : reads_only (get_pcm_codec self).
Proof. unfold get_pcm_codec. read_only. Qed.

(** X1. [get_pcm_codec] on a stream whose bit depth is unset or an [int]
    never raises and changes no object: [None] and [0] give ["pcm_s16le"];
    every other depth up to 8, the negative ones included, gives
    ["pcm_s8"]; 16, 24, 32 and 64 give ["pcm_s<depth>le"]; any other depth
    (12, 20, 48, ...) gives ["pcm_s16le"] after one warning. A depth that
    is a non-empty string raises [TypeError] at the comparison with 8. *)
Theorem pcm_codec_of_bit_depth (self bit_depth : pyval) (w : world) :
  attr w self "bit_depth" = Some bit_depth ->
  (bit_depth = VNone -> get_pcm_codec self w = (Ok "pcm_s16le", w))
  /\ (forall z, bit_depth = VInt z ->
      get_pcm_codec self w
      = if z =? 0 then (Ok "pcm_s16le", w)
        else if z <=? 8 then (Ok "pcm_s8", w)
        else if (z =? 16) || (z =? 24) || (z =? 32) || (z =? 64)
        then (Ok ("pcm_s" +:+ py_str (VInt z) +:+ "le"), w)
        else (Ok "pcm_s16le", add_log WARNING (unsupported_depth_msg (VInt z)) w))
  /\ (forall s, bit_depth = VStr s -> s <> "" ->
      get_pcm_codec self w = (Raise TypeError, w)).
Proof.
  intros Hb. pose proof (getattr_ok _ _ _ _ Hb) as Hg. split; [|split].
  - intros ->. unfold get_pcm_codec. by rewrite (bind_ok _ _ _ _ _ Hg).
  - intros z ->. unfold get_pcm_codec. rewrite (bind_ok _ _ _ _ _ Hg).
    change (truthy (VInt z)) with (negb (z =? 0)).
    destruct (z =? 0); [reflexivity|]. cbn [negb].
    rewrite (bind_ok _ _ _ _ _ Hg).
    change (py_le (VInt z) (VInt 8)) with (Ok (A := bool) (num_le (NInt z) (NInt 8))).
    step_lift. rewrite num_le_int. destruct (z <=? 8); [reflexivity|].
    rewrite (bind_ok _ _ _ _ _ Hg).
    change (py_in (VInt z) [16; 24; 32; 64])
      with (num_eq (NInt z) (NInt 16) || (num_eq (NInt z) (NInt 24)
            || (num_eq (NInt z) (NInt 32) || (num_eq (NInt z) (NInt 64) || false)))).
    rewrite !num_eq_int, orb_false_r, !orb_assoc.
    destruct ((z =? 16) || (z =? 24) || (z =? 32) || (z =? 64)).
    + by rewrite (bind_ok _ _ _ _ _ Hg).
    + rewrite (bind_ok _ _ _ _ _ Hg). by step_log.
  - intros s -> Hs. unfold get_pcm_codec. rewrite (bind_ok _ _ _ _ _ Hg).
    assert (Ht : truthy (VStr s) = true).
    { simpl. destruct (String.eqb_spec s ""); done. }
    rewrite Ht. cbn [negb]. rewrite (bind_ok _ _ _ _ _ Hg). reflexivity.
Qed.

(** X2. [_get_filter_str_with_pre_filter] puts the input label
    ["[0:<stream_id>]"] first. Without a pre-filter ([None], or the empty
    string, which is falsy) the label is followed by the filter alone, with
    no comma; with a pre-filter string the pre-filter comes between the
    label and the filter, joined by a comma. A pre-filter that is set but
    is not a string makes [join] raise [TypeError]. In every case no
    object and no log entry is changed. *)
Theorem filter_str_with_pre_filter (self stream_id pre_filter : pyval) (current_filter : string)
    (w : world) :
  attr w self "stream_id" = Some stream_id ->
  read_target w self "pre_filter" = Some pre_filter ->
  let input_label := "[0:" +:+ py_str stream_id +:+ "]" in
  (truthy pre_filter = false ->
   _get_filter_str_with_pre_filter self (VStr current_filter) w
   = (Ok (input_label +:+ current_filter), w))
  /\ (forall p, pre_filter = VStr p -> p <> "" ->
      _get_filter_str_with_pre_filter self (VStr current_filter) w
      = (Ok (input_label +:+ p +:+ "," +:+ current_filter), w))
  /\ (truthy pre_filter = true -> (forall p, pre_filter <> VStr p) ->
      _get_filter_str_with_pre_filter self (VStr current_filter) w = (Raise TypeError, w)).
Proof.
  intros Hid Hpre input_label. unfold _get_filter_str_with_pre_filter.
  rewrite (bind_ok _ _ _ _ _ (getattr_ok _ _ _ _ Hid)).
  rewrite (bind_ok _ _ _ _ _ (target_ok _ _ _ _ Hpre)).
  split; [|split].
  - intros ->. reflexivity.
  - intros p -> Hp.
    assert (Ht : truthy (VStr p) = true).
    { simpl. destruct (String.eqb_spec p ""); done. }
    rewrite Ht. rewrite (bind_ok _ _ _ [VStr p] w).
    + reflexivity.
    + by rewrite (bind_ok _ _ _ _ _ (target_ok _ _ _ _ Hpre)).
  - intros -> Hnot. rewrite (bind_ok _ _ _ [pre_filter] w).
    + destruct pre_filter; try reflexivity. by destruct (Hnot s).
    + by rewrite (bind_ok _ _ _ _ _ (target_ok _ _ _ _ Hpre)).
Qed.

End ReportingProperties.

(** ** What the constructors allocate *)

Lemma wset_heap w l name x o :
  heap w !! l = Some o -> heap (wset w l name x) = <[l := <[name := x]> o]> (heap w).
Proof. intros Ho. unfold wset. by rewrite Ho. Qed.

Lemma new_object_heap w l o name x :
  heap w = <[l := o]> (heap w) ->
  heap (wset w l name x) = <[l := <[name := x]> o]> (heap w).
Proof.
  intros Hh. apply wset_heap. rewrite Hh. apply lookup_insert_eq.
Qed.

Lemma MediaStream_init_heap l x y stream_type stream_id h lg :
  let w := World (<[l := ∅]> h) lg in
  MediaStream_init (VRef l) x y stream_type stream_id w
  = (Ok tt, World (<[l := media_object x y stream_type stream_id]> h) lg).
Proof.
  intros w. rewrite MediaStream_init_run by (simpl; rewrite lookup_insert_eq; by eexists).
  f_equal. unfold wset, media_object. simpl.
  repeat (rewrite lookup_insert_eq; simpl; rewrite insert_insert_eq).
  reflexivity.
Qed.

Lemma setattr_new l name x o h lg :
  setattr (VRef l) name x (World (<[l := o]> h) lg)
  = (Ok tt, World (<[l := <[name := x]> o]> h) lg).
Proof.
  unfold setattr. simpl. rewrite lookup_insert_eq. by rewrite insert_insert_eq.
Qed.

Lemma attr_new_object h lg l o v name :
  h !! l = None -> o !! name = None ->
  attr (World (<[l := o]> h) lg) v name = attr (World h lg) v name.
Proof.
  intros Hl Ho. destruct v as [| | | | | |l']; try reflexivity. unfold attr. simpl.
  destruct (decide (l = l')) as [<-|Hne].
  - rewrite lookup_insert_eq, Hl. simpl. exact Ho.
  - by rewrite lookup_insert_ne.
Qed.

Section AllocationProperties.

(** [AudioStream.__init__] on a new object: it gets its eight attributes,
    then the type of normalization is read from the object stored as
    [ffmpeg_normalize] and the duration is checked. *)
Lemma AudioStream_init_new l a b sid sr bd dur h lg :
  h !! l = None ->
  let w8 := World (<[l := audio_object a b sid sr bd dur]> h) lg in
  AudioStream_init (VRef l) a b sid sr bd dur (World (<[l := ∅]> h) lg)
  = match attr (World h lg) b "normalization_type" with
    | None => (Raise (AttributeError "normalization_type"), w8)
    | Some nt =>
        if val_eq_str nt "ebu" && truthy dur then
          match py_le dur (VInt 3) with
          | Ok true => (Ok tt, add_log WARNING short_duration_msg w8)
          | Ok false => (Ok tt, w8)
          | Raise e => (Raise e, w8)
          end
        else (Ok tt, w8)
    end.
Proof.
  intros Hfresh w8. unfold AudioStream_init.
  rewrite (bind_ok _ _ _ _ _ (MediaStream_init_heap l b a (VStr "audio") sid h lg)).
  do 4 rewrite (bind_ok _ _ _ _ _ (setattr_new _ _ _ _ _ _)).
  fold (audio_object a b sid sr bd dur). fold w8.
  assert (Hn : attr w8 (VRef l) "ffmpeg_normalize" = Some b).
  { unfold attr, w8. simpl. rewrite lookup_insert_eq. reflexivity. }
  assert (Hd : attr w8 (VRef l) "duration" = Some dur).
  { unfold attr, w8. simpl. rewrite lookup_insert_eq. reflexivity. }
  assert (Hnt : attr w8 b "normalization_type" = attr (World h lg) b "normalization_type").
  { unfold w8. by rewrite attr_new_object. }
  rewrite (bind_ok _ _ _ _ _ (getattr_ok _ _ _ _ Hn)).
  unfold bind at 1. rewrite getattr_run, Hnt.
  destruct (attr (World h lg) b "normalization_type") as [nt|]; [|reflexivity].
  destruct (val_eq_str nt "ebu").
  2:{ unfold bind, ret. reflexivity. }
  unfold bind at 1. unfold bind at 1. rewrite (getattr_ok _ _ _ _ Hd).
  destruct (truthy dur).
  2:{ unfold bind, ret. reflexivity. }
  cbn [andb]. rewrite (bind_ok _ _ _ _ _ (getattr_ok _ _ _ _ Hd)).
  unfold lift, bind. by destruct (py_le dur (VInt 3)) as [[]|e].
Qed.

Lemma AudioStream_run a b sid sr bd dur w :
  let l := fresh (dom (heap w)) in
  let w8 := World (<[l := audio_object a b sid sr bd dur]> (heap w)) (log w) in
  AudioStream a b sid sr bd dur w
  = match attr w b "normalization_type" with
    | None => (Raise (AttributeError "normalization_type"), w8)
    | Some nt =>
        if val_eq_str nt "ebu" && truthy dur then
          match py_le dur (VInt 3) with
          | Ok true => (Ok (VRef l), add_log WARNING short_duration_msg w8)
          | Ok false => (Ok (VRef l), w8)
          | Raise e => (Raise e, w8)
          end
        else (Ok (VRef l), w8)
    end.
Proof.
  intros l w8. destruct (new_object_run w) as [Hnew Hfresh]. simpl in Hnew, Hfresh.
  fold l in Hnew, Hfresh. unfold AudioStream. rewrite (bind_ok _ _ _ _ _ Hnew).
  pose proof (AudioStream_init_new l a b sid sr bd dur (heap w) (log w) Hfresh) as Hinit.
  simpl in Hinit. fold w8 in Hinit.
  replace (World (heap w) (log w)) with w in Hinit by by destruct w.
  unfold bind at 1. rewrite Hinit.
  destruct (attr w b "normalization_type") as [nt|]; [|reflexivity].
  destruct (val_eq_str nt "ebu" && truthy dur); [|reflexivity].
  by destruct (py_le dur (VInt 3)) as [[]|e].
Qed.

(** X3. A constructor call makes one new object, at a location that was
    not in use, and writes to no other: [VideoStream(...)] and
    [SubtitleStream(...)] always return it, with the four attributes of
    [MediaStream]; [AudioStream(...)], whether it returns or raises,
    leaves it with its eight attributes, the three statistics being
    [None], and what it returns is that object. Every object that was
    there before is as it was. *)
Theorem streams_are_new_objects
    (ffmpeg_normalize media_file stream_id sample_rate bit_depth duration : pyval)
    (w : world) :
  let l := fresh (dom (heap w)) in
  let audio :=
    AudioStream ffmpeg_normalize media_file stream_id sample_rate bit_depth duration w in
  heap w !! l = None
  /\ VideoStream ffmpeg_normalize media_file stream_id w
     = (Ok (VRef l),
        World (<[l := media_object media_file ffmpeg_normalize (VStr "video") stream_id]>
                 (heap w)) (log w))
  /\ SubtitleStream ffmpeg_normalize media_file stream_id w
     = (Ok (VRef l),
        World (<[l := media_object media_file ffmpeg_normalize (VStr "subtitle") stream_id]>
                 (heap w)) (log w))
  /\ heap (snd audio)
     = <[l := audio_object ffmpeg_normalize media_file stream_id sample_rate bit_depth
               duration]> (heap w)
  /\ (forall self, fst audio = Ok self -> self = VRef l)
  /\ (forall l' o, heap w !! l' = Some o ->
      heap (snd audio) !! l' = Some o
      /\ heap (snd (VideoStream ffmpeg_normalize media_file stream_id w)) !! l' = Some o
      /\ heap (snd (SubtitleStream ffmpeg_normalize media_file stream_id w)) !! l' = Some o).
Proof.
  intros l audio. destruct (new_object_run w) as [Hnew Hfresh]. simpl in Hnew, Hfresh.
  fold l in Hnew, Hfresh.
  assert (Hplain : forall kind,
             (self <- new_object ;;
              MediaStream_init self media_file ffmpeg_normalize (VStr kind) stream_id ;;
              ret self) w
             = (Ok (VRef l),
                World (<[l := media_object media_file ffmpeg_normalize (VStr kind) stream_id]>
                         (heap w)) (log w))).
  { intros kind. rewrite (bind_ok _ _ _ _ _ Hnew).
    by rewrite (bind_ok _ _ _ _ _ (MediaStream_init_heap l _ _ _ _ (heap w) (log w))). }
  assert (Haudio : heap (snd audio)
                   = <[l := audio_object ffmpeg_normalize media_file stream_id sample_rate
                              bit_depth duration]> (heap w)
                   /\ forall self, fst audio = Ok self -> self = VRef l).
  { unfold audio. rewrite AudioStream_run. fold l.
    destruct (attr w media_file "normalization_type") as [nt|]; [|by split].
    destruct (val_eq_str nt "ebu" && truthy duration); [|split; [done|by intros self [= <-]]].
    destruct (py_le duration (VInt 3)) as [[]|e];
      (split; [done|]); intros self; simpl; congruence. }
  destruct Haudio as [Hheap Hself].
  split; [exact Hfresh|]. split; [apply (Hplain "video")|].
  split; [apply (Hplain "subtitle")|]. split; [exact Hheap|]. split; [exact Hself|].
  intros l' o Ho.
  assert (Hne : l <> l') by congruence.
  split; [|split].
  - rewrite Hheap. by rewrite lookup_insert_ne.
  - unfold VideoStream, VideoStream_init. rewrite (Hplain "video"). simpl.
    by rewrite lookup_insert_ne.
  - unfold SubtitleStream, SubtitleStream_init. rewrite (Hplain "subtitle"). simpl.
    by rewrite lookup_insert_ne.
Qed.

(** X4. [AudioStream(...)], given a duration that is [None] or a number
    and an object to read the type of normalization from, returns the
    stream, and logs the short-duration warning exactly when the type is
    ["ebu"] and the duration is not zero and at most 3: a duration of [0]
    is falsy and passes unwarned, a negative one is warned about, NaN is
    not. Nothing else is logged. *)
Theorem short_duration_warning
    (ffmpeg_normalize media_file stream_id sample_rate bit_depth duration nt : pyval)
    (w : world) :
  attr w media_file "normalization_type" = Some nt ->
  duration = VNone \/ (exists d, duration = VNum d) ->
  let warned :=
    val_eq_str nt "ebu"
    && match duration with
       | VNum (NInt z) => negb (z =? 0) && (z <=? 3)
       | VNum (NFloat f) => negb (SFeqb f (S754_zero false)) && num_le (NFloat f) (NInt 3)
       | _ => false
       end in
  exists self w',
    AudioStream ffmpeg_normalize media_file stream_id sample_rate bit_depth duration w
    = (Ok self, w')
    /\ log w' = (log w ++ if warned then [(WARNING, short_duration_msg)] else [])%list.
Proof.
  intros Hnt Hdur warned. rewrite AudioStream_run, Hnt. subst warned.
  destruct (val_eq_str nt "ebu"); cbn [andb].
  2:{ eexists _, _. split; [reflexivity|]. simpl. by rewrite app_nil_r. }
  destruct Hdur as [->|[d ->]].
  { eexists _, _. split; [reflexivity|]. simpl. by rewrite app_nil_r. }
  destruct d as [z|f].
  - change (truthy (VNum (NInt z))) with (negb (z =? 0)).
    destruct (z =? 0); cbn [negb andb].
    { eexists _, _. split; [reflexivity|]. simpl. by rewrite app_nil_r. }
    change (py_le (VNum (NInt z)) (VInt 3)) with (Ok (A := bool) (num_le (NInt z) (NInt 3))).
    rewrite num_le_int. destruct (z <=? 3).
    + eexists _, _. split; [reflexivity|]. reflexivity.
    + eexists _, _. split; [reflexivity|]. simpl. by rewrite app_nil_r.
  - change (truthy (VNum (NFloat f))) with (negb (SFeqb f (S754_zero false))).
    destruct (SFeqb f (S754_zero false)); cbn [negb andb].
    { eexists _, _. split; [reflexivity|]. simpl. by rewrite app_nil_r. }
    change (py_le (VNum (NFloat f)) (VInt 3))
      with (Ok (A := bool) (num_le (NFloat f) (NInt 3))).
    destruct (num_le (NFloat f) (NInt 3)).
    + eexists _, _. split; [reflexivity|]. reflexivity.
    + eexists _, _. split; [reflexivity|]. simpl. by rewrite app_nil_r.
Qed.

End AllocationProperties.

(** A stream of two seconds to be normalized by EBU R128 is warned
    about. *)
Lemma short_duration_warning_witness :
  exists self w',
    AudioStream (VRef 2%positive) (VRef 1%positive) (VInt 0) VNone VNone
      (VInt 2) (sample_world "ebu" 7 false false)
    = (Ok self, w')
    /\ log w' = [(WARNING, short_duration_msg)].
Proof.
  destruct (short_duration_warning (VRef 2%positive) (VRef 1%positive)
              (VInt 0) VNone VNone (VInt 2) (VStr "ebu") (sample_world "ebu" 7 false false))
    as (self & w' & Hrun & Hlog); [vm_compute; reflexivity|right; by eexists|].
  exists self, w'. split; [exact Hrun|exact Hlog].
Defined.

(** ** The statistics report *)

Section StatsProperties.
Context `{Runtime} `{OsRuntime}.

Lemma reads_only_get_stats self : reads_only (get_stats self).
Proof. unfold get_stats. read_only. Qed.

(** X5. [get_stats] returns a new dictionary and changes nothing: every
    statistic of the stream is in it under its own key, and the three
    entries [input_file], [output_file] and [stream_id] are those of the
    stream unless the statistics have an entry of the same name, which
    then wins ([update] comes last). *)
Theorem get_stats_reports (self input_file output_file stream_id : pyval)
    (stats : gmap string pyval) (w : world) :
  (attr w self "media_file" ≫= fun mf => attr w mf "input_file") = Some input_file ->
  (attr w self "media_file" ≫= fun mf => attr w mf "output_file") = Some output_file ->
  attr w self "stream_id" = Some stream_id ->
  attr w self "loudness_statistics" = Some (VDict stats) ->
  exists report,
    get_stats self w = (Ok (VDict report), w)
    /\ (forall key v, stats !! key = Some v -> report !! key = Some v)
    /\ (forall key, stats !! key = None ->
        report !! key = stats_base input_file output_file stream_id !! key)
    /\ (forall key, is_Some (report !! key) <->
        is_Some (stats !! key) \/ key ∈ ["input_file"; "output_file"; "stream_id"]).
Proof.
  intros Hin Hout Hid Hls.
  exists (stats ∪ stats_base input_file output_file stream_id). split; [|split; [|split]].
  - unfold get_stats. rewrite (bind_ok _ _ _ _ _ (input_file_ok _ _ _ Hin)).
    destruct (attr w self "media_file") as [mf|] eqn:Hmf; [|done]. simpl in Hout.
    rewrite (bind_ok _ _ _ _ _ (getattr_ok _ _ _ _ Hmf)).
    rewrite (bind_ok _ _ _ _ _ (getattr_ok _ _ _ _ Hout)).
    rewrite (bind_ok _ _ _ _ _ (getattr_ok _ _ _ _ Hid)).
    by rewrite (bind_ok _ _ _ _ _ (getattr_ok _ _ _ _ Hls)).
  - intros key v Hk. by apply lookup_union_Some_l.
  - intros key Hk. by rewrite lookup_union_r.
  - intros key. rewrite lookup_union_is_Some. unfold stats_base.
    rewrite !lookup_insert_is_Some', lookup_empty, !elem_of_cons, elem_of_nil.
    split; (intros [Hs|Hb]; [by left|right]).
    + destruct Hb as [->|[->|[->|Hn]]];
        [by left|right; by left|right; right; by left|by destruct Hn].
    + destruct Hb as [->|[->|[->|[]]]]; [by left|right; by left|right; right; by left].
Qed.

End StatsProperties.

(** A stream that has just been built reports its three statistics as
    [None], beside the names of the file it was given first. *)
Lemma get_stats_reports_witness :
  exists report,
    get_stats (VRef 3%positive)
      (snd (AudioStream (VRef 2%positive) (VRef 1%positive) (VInt 0) VNone VNone VNone
              report_world))
    = (Ok (VDict report),
       snd (AudioStream (VRef 2%positive) (VRef 1%positive) (VInt 0) VNone VNone VNone
              report_world))
    /\ report !! "mean" = Some VNone
    /\ report !! "input_file" = Some (VStr "/media/in.wav")
    /\ report !! "output_file" = Some (VStr "out/normalized.mkv")
    /\ report !! "stream_id" = Some (VInt 0).
Proof.
  destruct (get_stats_reports (VRef 3%positive) (VStr "/media/in.wav")
              (VStr "out/normalized.mkv") (VInt 0)
              (<["ebu" := VNone]> (<["mean" := VNone]> (<["max" := VNone]> ∅)))
              (snd (AudioStream (VRef 2%positive) (VRef 1%positive) (VInt 0) VNone VNone VNone
                      report_world)))
    as (report & Hrun & Hstat & Hbase & _);
    [vm_compute; reflexivity|vm_compute; reflexivity|vm_compute; reflexivity
    |vm_compute; reflexivity|].
  exists report. split; [exact Hrun|]. split; [|split; [|split]].
  - apply Hstat. vm_compute; reflexivity.
  - rewrite Hbase; vm_compute; reflexivity.
  - rewrite Hbase; vm_compute; reflexivity.
  - rewrite Hbase; vm_compute; reflexivity.
Defined.

(** ** The printed form of a stream *)

Section ReprProperties.
Context `{Runtime} `{OsRuntime}.

Lemma py_basename_world v w : snd (py_basename v w) = w.
Proof. by destruct v. Qed.

Lemma reads_only_py_basename v : reads_only (py_basename v).
Proof.
  intros w. rewrite py_basename_world. split; [done|apply log_extends_refl].
Qed.

(** X6. For an audio stream the method [AudioStream.__repr__] does what
    the inherited [MediaStream.__repr__] would do, on every path: the
    same string, or the same exception, and no change ([str] of the
    string ["audio"] being that string). With an input file that is a
    string, the result is ["<base, audio stream id>"] where [base] is the
    base name of [self.media_file.input_file], the file of the object
    that the constructor was given first; with an input file that is
    [None], a [bool], a number, a list or a dictionary, [basename] raises
    [TypeError]. *)
Theorem audio_repr_is_media_repr (self : pyval) (w : world) :
  attr w self "stream_type" = Some (VStr "audio") ->
  py_str (VStr "audio") = "audio" ->
  AudioStream_repr self w = MediaStream_repr self w
  /\ (forall path stream_id,
         (attr w self "media_file" ≫= fun mf => attr w mf "input_file") = Some (VStr path) ->
         attr w self "stream_id" = Some stream_id ->
         AudioStream_repr self w
         = (Ok ("<" +:+ basename path +:+ ", audio stream " +:+ py_str stream_id +:+ ">"), w))
  /\ (forall file,
         (attr w self "media_file" ≫= fun mf => attr w mf "input_file") = Some file ->
         match file with VStr _ | VRef _ => False | _ => True end ->
         AudioStream_repr self w = (Raise TypeError, w)).
Proof.
  intros Htype Hstr. split; [|split].
  - unfold AudioStream_repr, MediaStream_repr, bind.
    destruct (input_file self w) as [[file|e] w1] eqn:Hfile; [|reflexivity].
    assert (Hw : w1 = w).
    { unfold input_file, bind in Hfile. rewrite getattr_run in Hfile.
      destruct (attr w self "media_file"); [|congruence].
      rewrite getattr_run in Hfile. congruence. }
    subst w1. pose proof (py_basename_world file w) as Hw.
    destruct (py_basename file w) as [[base|e] w1]; simpl in Hw; subst w1; [|reflexivity].
    rewrite (getattr_ok _ _ _ _ Htype), Hstr.
    destruct (getattr self "stream_id" w) as [[stream_id|e] w1]; reflexivity.
  - intros path stream_id Hfile Hid. unfold AudioStream_repr.
    rewrite (bind_ok _ _ _ _ _ (input_file_ok _ _ _ Hfile)).
    rewrite (bind_ok _ _ _ (basename path) w) by reflexivity.
    by rewrite (bind_ok _ _ _ _ _ (getattr_ok _ _ _ _ Hid)).
  - intros file Hfile Hnot. unfold AudioStream_repr.
    rewrite (bind_ok _ _ _ _ _ (input_file_ok _ _ _ Hfile)).
    destruct file; try reflexivity; destruct Hnot.
Qed.

End ReprProperties.

(** The stream of [/media/in.wav] prints as [<in.wav, audio stream 0>]. *)
Lemma audio_repr_is_media_repr_witness :
  let w := snd (AudioStream (VRef 2%positive) (VRef 1%positive) (VInt 0) VNone VNone VNone
                  report_world) in
  MediaStream_repr (H := sample_runtime) (H0 := sample_os) (VRef 3%positive) w
  = (Ok "<in.wav, audio stream 0>", w).
Proof.
  intros w.
  destruct (audio_repr_is_media_repr (H := sample_runtime) (H0 := sample_os)
              (VRef 3%positive) w) as (Hsame & Hstr & _);
    [vm_compute; reflexivity|reflexivity|].
  rewrite <- Hsame. rewrite (Hstr "/media/in.wav" (VInt 0)); [reflexivity| |];
    vm_compute; reflexivity.
Defined.

(** ** The commands of the first pass *)

Section CommandProperties.
Context `{Runtime} `{OsRuntime}.

Lemma filter_str_run self stream_id pre_filter current_filter w :
  attr w self "stream_id" = Some stream_id ->
  read_target w self "pre_filter" = Some pre_filter ->
  truthy pre_filter = false \/ (exists p, pre_filter = VStr p) ->
  _get_filter_str_with_pre_filter self (VStr current_filter) w
  = (Ok (("[0:" +:+ py_str stream_id +:+ "]") +:+ pre_filter_prefix pre_filter
         +:+ current_filter), w).
Proof.
  intros Hid Hpre Hkind. unfold _get_filter_str_with_pre_filter.
  rewrite (bind_ok _ _ _ _ _ (getattr_ok _ _ _ _ Hid)).
  rewrite (bind_ok _ _ _ _ _ (target_ok _ _ _ _ Hpre)).
  assert (Hcase : (truthy pre_filter = false /\ pre_filter_prefix pre_filter = "")
                  \/ exists p, pre_filter = VStr p /\ p <> "").
  { destruct Hkind as [Hf|[p ->]].
    - left. split; [done|]. destruct pre_filter; try reflexivity. simpl in *.
      by destruct (String.eqb s "").
    - simpl. destruct (String.eqb_spec p "") as [->|Hne]; [by left|]. right. by exists p. }
  destruct Hcase as [[Hf ->]|(p & -> & Hp)].
  - rewrite Hf. reflexivity.
  - assert (Ht : truthy (VStr p) = true).
    { simpl. by destruct (String.eqb_spec p ""). }
    rewrite Ht. rewrite (bind_ok _ _ _ [VStr p] w).
    + simpl. destruct (String.eqb_spec p ""); [done|].
      unfold lift, bind, ret. simpl. by rewrite (append_assoc p).
    + by rewrite (bind_ok _ _ _ _ _ (target_ok _ _ _ _ Hpre)).
Qed.

Lemma first_pass_opts_run self target_level loudness_range_target true_peak offset dual_mono
    w :
  read_target w self "target_level" = Some target_level ->
  read_target w self "loudness_range_target" = Some loudness_range_target ->
  read_target w self "true_peak" = Some true_peak ->
  read_target w self "offset" = Some offset ->
  read_target w self "dual_mono" = Some dual_mono ->
  first_pass_opts self w
  = (Ok (first_pass_items target_level loudness_range_target true_peak offset dual_mono), w).
Proof.
  intros Htl Hlra Htp Hoff Hdm. unfold first_pass_opts.
  rewrite (bind_ok _ _ _ _ _ (target_ok _ _ _ _ Htl)).
  rewrite (bind_ok _ _ _ _ _ (target_ok _ _ _ _ Hlra)).
  rewrite (bind_ok _ _ _ _ _ (target_ok _ _ _ _ Htp)).
  rewrite (bind_ok _ _ _ _ _ (target_ok _ _ _ _ Hoff)).
  rewrite (bind_ok _ _ _ _ _ (target_ok _ _ _ _ Hdm)).
  unfold ret, first_pass_items. by destruct (truthy dual_mono).
Qed.

(** X7. The two first passes run the same command but for the filter:
    the executable, [-nostdin -y -i] and the input file,
    [-filter_complex] and the filter string, then [-vn -sn -f null] and
    the null device, so that video and subtitles are dropped and nothing
    is written. The filter string is the input label, the pre-filter and
    a comma if one is set, and the [astats] filter, respectively
    ["loudnorm="] with the options [i], [lra], [tp], [offset] of the
    targets, [print_format=json] and, only when it is set,
    [dual_mono=true]. Each logs one line and changes no object. *)
Theorem first_pass_commands (self stream_id ffmpeg_exe input_file pre_filter target_level
    loudness_range_target true_peak offset dual_mono : pyval) (w : world) :
  attr w self "stream_id" = Some stream_id ->
  read_target w self "ffmpeg_exe" = Some ffmpeg_exe ->
  (attr w self "media_file" ≫= fun mf => attr w mf "input_file") = Some input_file ->
  read_target w self "pre_filter" = Some pre_filter ->
  truthy pre_filter = false \/ (exists p, pre_filter = VStr p) ->
  read_target w self "target_level" = Some target_level ->
  read_target w self "loudness_range_target" = Some loudness_range_target ->
  read_target w self "true_peak" = Some true_peak ->
  read_target w self "offset" = Some offset ->
  read_target w self "dual_mono" = Some dual_mono ->
  let label := ("[0:" +:+ py_str stream_id +:+ "]") +:+ pre_filter_prefix pre_filter in
  let opts :=
    first_pass_items target_level loudness_range_target true_peak offset dual_mono in
  parse_astats_cmd self w
  = (Ok (first_pass_args ffmpeg_exe input_file (label +:+ astats_filter)),
     add_log INFO ("Running first pass astats filter for stream " +:+ py_str stream_id) w)
  /\ parse_loudnorm_stats_cmd self w
     = (Ok (first_pass_args ffmpeg_exe input_file
              (label +:+ "loudnorm=" +:+ dict_to_filter_opts opts)),
        add_log INFO ("Running first pass loudnorm filter for stream " +:+ py_str stream_id) w)
  /\ first_pass_opts self w = (Ok opts, w).
Proof.
  intros Hid Hexe Hfile Hpre Hkind Htl Hlra Htp Hoff Hdm label opts.
  assert (Hcmd : forall filter_str lv msg,
             first_pass_cmd self filter_str (add_log lv msg w)
             = (Ok (first_pass_args ffmpeg_exe input_file filter_str), add_log lv msg w)).
  { intros filter_str lv msg. unfold first_pass_cmd.
    rewrite (bind_ok _ _ _ ffmpeg_exe (add_log lv msg w)) by by apply target_ok.
    by rewrite (bind_ok _ _ _ input_file (add_log lv msg w)) by by apply input_file_ok. }
  assert (Hopts : forall w0, heap w0 = heap w -> first_pass_opts self w0 = (Ok opts, w0)).
  { intros w0 Hh.
    assert (Hr : forall name v, read_target w self name = Some v ->
                                read_target w0 self name = Some v).
    { intros name v Hv. unfold read_target, attr. rewrite Hh. exact Hv. }
    apply first_pass_opts_run; by apply Hr. }
  split; [|split].
  - unfold parse_astats_cmd. rewrite (bind_ok _ _ _ _ _ (getattr_ok _ _ _ _ Hid)). step_log.
    erewrite bind_ok; [apply Hcmd|].
    unfold label. rewrite append_assoc. apply filter_str_run; [exact Hid|exact Hpre|exact Hkind].
  - unfold parse_loudnorm_stats_cmd.
    rewrite (bind_ok _ _ _ _ _ (getattr_ok _ _ _ _ Hid)). step_log.
    erewrite (bind_ok _ _ _ _ _ (Hopts (add_log _ _ w) eq_refl)).
    erewrite bind_ok; [apply Hcmd|].
    unfold label. rewrite append_assoc. apply filter_str_run; [exact Hid|exact Hpre|exact Hkind].
  - by apply Hopts.
Qed.

End CommandProperties.

(** The first pass of the stream of [/media/in.wav] with a high-pass
    pre-filter. *)
Lemma first_pass_commands_witness :
  let w := snd (AudioStream (VRef 2%positive) (VRef 1%positive) (VInt 0) VNone VNone VNone
                  report_world) in
  fst (parse_astats_cmd (H := sample_runtime) (H0 := sample_os) (VRef 3%positive) w)
  = Ok [VStr "ffmpeg"; VStr "-nostdin"; VStr "-y"; VStr "-i"; VStr "/media/in.wav";
        VStr "-filter_complex";
        VStr "[0:0]highpass=f=100,astats=measure_overall=Peak_level+RMS_level:measure_perchannel=0";
        VStr "-vn"; VStr "-sn"; VStr "-f"; VStr "null"; VStr "/dev/null"].
Proof.
  intros w.
  destruct (first_pass_commands (H := sample_runtime) (H0 := sample_os) (VRef 3%positive)
              (VInt 0) (VStr "ffmpeg") (VStr "/media/in.wav") (VStr "highpass=f=100")
              (VFloat (float_of_int (-23))) (VFloat (float_of_int 7))
              (VFloat (float_of_int (-2))) (VFloat (float_of_int 0)) (VBool false) w)
    as (Hastats & _);
    [vm_compute; reflexivity|vm_compute; reflexivity|vm_compute; reflexivity
    |vm_compute; reflexivity|right; by eexists|vm_compute; reflexivity|vm_compute; reflexivity
    |vm_compute; reflexivity|vm_compute; reflexivity|vm_compute; reflexivity|].
  rewrite Hastats. reflexivity.
Defined.

(** ** The text of the output *)

Lemma append_cons c a b : String c a +:+ b = String c (a +:+ b).
Proof. reflexivity. Qed.

Lemma append_nil_r s : s +:+ "" = s.
Proof. induction s as [|c s IH]; [done|]. by rewrite append_cons, IH. Qed.

Lemma occurs_refl s : occurs s s.
Proof. exists "", "". simpl. by rewrite append_nil_r. Qed.

Lemma occurs_trans a b c : occurs a b -> occurs b c -> occurs a c.
Proof.
  intros (p1 & q1 & ->) (p2 & q2 & ->). exists (p2 +:+ p1), (q1 +:+ q2).
  by rewrite !append_assoc.
Qed.

Lemma occurs_cons c x s : occurs x s -> occurs x (String c s).
Proof. intros (p & q & ->). by exists (String c p), q. Qed.

Lemma prefix_occurs p s : String.prefix p s = true -> occurs p s.
Proof.
  revert s. induction p as [|a p IH]; intros s Hp.
  - by exists "", s.
  - destruct s as [|b s]; [done|]. rewrite prefix_cons in Hp.
    destruct (ascii_dec a b) as [->|]; [|done].
    destruct (IH s Hp) as (pre & post & Hs).
    assert (Hpre : exists post', s = p +:+ post').
    { clear IH Hs. revert s Hp. induction p as [|a' p IHp]; intros s Hp.
      - by exists s.
      - destruct s as [|b' s]; [done|]. rewrite prefix_cons in Hp.
        destruct (ascii_dec a' b') as [->|]; [|done].
        destruct (IHp s Hp) as [post' ->]. by exists post'. }
    destruct Hpre as [post' ->]. by exists "", post'.
Qed.

Lemma lstrip_from_occurs skip s : occurs (lstrip_from skip s) s.
Proof.
  revert skip. induction s as [|c s IH]; intros skip.
  - apply occurs_refl.
  - cbn [lstrip_from]. destruct skip as [|k]; [|apply occurs_cons, IH].
    destruct (space_len (String c s)) as [|k]; [apply occurs_refl|apply occurs_cons, IH].
Qed.

Lemma lstrip_occurs s : occurs (lstrip s) s.
Proof. apply lstrip_from_occurs. Qed.

Lemma rstrip_prefix s : exists post, s = rstrip s +:+ post.
Proof.
  induction s as [|c s [post IH]].
  - by exists "".
  - cbn [rstrip]. destruct (all_space_from 0 (String c s)).
    + by exists (String c s).
    + exists post. rewrite append_cons. by rewrite <- IH.
Qed.

Lemma strip_occurs s : occurs (strip s) s.
Proof.
  apply (occurs_trans _ (lstrip s)); [|apply lstrip_occurs].
  unfold strip. destruct (rstrip_prefix (lstrip s)) as [post Hpost].
  exists "", post. exact Hpost.
Qed.

Lemma split_lines_occur s :
  exists line lines,
    split_lines s = line :: lines
    /\ (exists post, s = line +:+ post)
    /\ forall x, x ∈ lines -> occurs x s.
Proof.
  induction s as [|c s (line & lines & Hsplit & [post Hpost] & Hrest)]; simpl.
  - exists "", []. split; [done|]. split; [by exists ""|].
    intros x Hx. by apply elem_of_nil in Hx.
  - destruct (Ascii.eqb c "010").
    + exists "", (split_lines s). split; [done|]. split; [by eexists|].
      intros x Hx. apply occurs_cons. rewrite Hsplit in Hx.
      apply elem_of_cons in Hx as [->|Hx]; [|by apply Hrest].
      by exists "", post.
    + rewrite Hsplit. exists (String c line), lines. split; [done|]. split.
      * exists post. rewrite append_cons. by rewrite <- Hpost.
      * intros x Hx. apply occurs_cons. by apply Hrest.
Qed.

Lemma output_lines_occur output line :
  line ∈ output_lines_of output -> occurs line output.
Proof.
  unfold output_lines_of. intros (raw & -> & Hraw)%list_elem_of_fmap.
  apply (occurs_trans _ raw); [apply strip_occurs|].
  destruct (split_lines_occur output) as (first & lines & Hsplit & [post Hpost] & Hrest).
  rewrite Hsplit in Hraw. apply elem_of_cons in Hraw as [->|Hraw]; [|by apply Hrest].
  by exists "", post.
Qed.

(** Joining the lines of a text with newlines gives the text back. *)
Lemma join_split_lines s : String.concat nl (split_lines s) = s.
Proof.
  induction s as [|c s IH]; [reflexivity|]. simpl.
  destruct (Ascii.eqb_spec c "010") as [->|Hne].
  - destruct (split_lines s) as [|line lines] eqn:Hs.
    + by destruct (split_lines_occur s) as (? & ? & ? & _); congruence.
    + change (String.concat nl ("" :: line :: lines))
        with ("" +:+ nl +:+ String.concat nl (line :: lines)).
      rewrite IH. reflexivity.
  - destruct (split_lines s) as [|line lines] eqn:Hs.
    + by destruct (split_lines_occur s) as (? & ? & ? & _); congruence.
    + rewrite <- IH. by destruct lines.
Qed.

Section OutputProperties.
Context `{Runtime}.

(** X8. An output of the first pass in which the text
    ["[Parsed_loudnorm"] does not occur, the empty output included, is
    rejected with the "no loudnorm-related output found" error, whatever
    else it holds (a JSON object alone is not enough), and the stream is
    left as it was. *)
Theorem output_without_header_is_rejected (self : pyval) (output : string) (w : world) :
  ~ occurs "[Parsed_loudnorm" output ->
  parse_loudnorm_stats_output self output w
  = (Raise (FFmpegNormalizeError no_output_msg), w).
Proof.
  intros Hno. unfold parse_loudnorm_stats_output, parse_loudnorm_stats.
  apply bind_raise. rewrite parse_loudnorm_output_run, loudnorm_json_bounds.
  assert (Hnone : scan_bounds (output_lines_of output) = None).
  { apply scan_bounds_None. left. apply first_index_None. intros line Hline.
    destruct (is_header line) eqn:Hh; [|done]. destruct Hno.
    apply (occurs_trans _ line); [by apply prefix_occurs|by apply output_lines_occur]. }
  by rewrite Hnone.
Qed.

End OutputProperties.

(** An output that holds the JSON object but not the header of the
    filter. *)
Lemma output_without_header_is_rejected_witness :
  let output := "size=N/A time=00:00:05.00" +:+ nl +:+ "{" +:+ nl +:+ "report" +:+ nl +:+ "}" in
  parse_loudnorm_stats_output (H := sample_runtime) sample_self output
    (sample_stream_world "ebu")
  = (Raise (FFmpegNormalizeError no_output_msg), sample_stream_world "ebu").
Proof.
  intros output.
  apply (output_without_header_is_rejected (H := sample_runtime)).
  rewrite occurs_contains. by vm_compute.
Defined.

(** ** What the parser of the loudnorm report can give *)

Section ParserOutcomes.
Context `{Runtime}.

Lemma reads_only_parse_loudnorm_output output_lines :
  reads_only (_parse_loudnorm_output output_lines).
Proof.
  unfold _parse_loudnorm_output, decode_loudnorm_stats. read_only.
Qed.

(** X9. [_parse_loudnorm_output] raises nothing but
    [FFmpegNormalizeError]: whatever the lines are and whatever the
    decoder returns or raises, a [KeyError], [ValueError], [TypeError] or
    decoding error of the [try] block never comes out as itself; and no
    object is changed. *)
Theorem parser_raises_only_its_error (output_lines : list string) (w : world) :
  only_parse_errors (fst (_parse_loudnorm_output output_lines w))
  /\ heap (snd (_parse_loudnorm_output output_lines w)) = heap w.
Proof.
  split; [|apply reads_only_parse_loudnorm_output].
  rewrite parse_loudnorm_output_run.
  destruct (loudnorm_json output_lines) as [text|]; [|done].
  unfold decode_loudnorm_stats. destruct (json_loads text) as [stats|e]; [|done].
  unfold bind, logger. by destruct (validate_keys ebu_keys stats).
Qed.

Lemma stored_not_infinite f : not_infinite (stored f).
Proof.
  destruct f as [s|[]| |s m e]; eexists; (split; [reflexivity|]); split; discriminate.
Qed.

(** X10. Whatever [_parse_loudnorm_output] returns is a dictionary in
    which each of the nine fields is a number that is not an infinity: a
    float, or the [int] [-99] or [0] that stands for one. No string and
    no infinity goes on to the planner. *)
Theorem parsed_report_is_numeric (output_lines : list string) (w w' : world) (r : pyval) :
  _parse_loudnorm_output output_lines w = (Ok r, w') ->
  exists report,
    r = VDict report
    /\ forall key, key ∈ ebu_keys -> exists v, report !! key = Some v /\ not_infinite v.
Proof.
  rewrite parse_loudnorm_output_run.
  destruct (loudnorm_json output_lines) as [text|]; [|done].
  unfold decode_loudnorm_stats. destruct (json_loads text) as [stats|e]; [|done].
  unfold bind, logger, ret, raise.
  destruct (validate_keys ebu_keys stats) as [validated|e] eqn:Hval; [|done].
  intros [= <- <-].
  assert (Hdict : exists m, stats = VDict m).
  { unfold ebu_keys in Hval. simpl in Hval. unfold obind in Hval.
    destruct (validate_key stats "input_i") eqn:Hk; [|done].
    apply validate_key_Ok in Hk as (m & _ & -> & _). by exists m. }
  destruct Hdict as [m ->].
  apply validate_keys_Ok in Hval as (report & -> & Hin & _).
  exists report. split; [done|]. intros key Hkey. destruct (Hin key Hkey) as [f Hf].
  exists (stored f). split; [done|apply stored_not_infinite].
Qed.

End ParserOutcomes.

(** The report of a silent input: the parser returns [-99] for its
    [input_i]. *)
Lemma parsed_report_is_numeric_witness :
  exists report v,
    fst (_parse_loudnorm_output (H := sample_runtime) (sample_lines "report") empty_world)
    = Ok (VDict report)
    /\ report !! "input_i" = Some v /\ not_infinite v.
Proof.
  destruct (_parse_loudnorm_output (H := sample_runtime) (sample_lines "report") empty_world)
    as [r w'] eqn:Hrun.
  assert (Hok : exists r0, r = Ok r0).
  { assert (Hfst : is_Some (match fst (_parse_loudnorm_output (H := sample_runtime)
                                         (sample_lines "report") empty_world) with
                            | Ok r0 => Some r0 | Raise _ => None end))
      by (vm_compute; by eexists).
    rewrite Hrun in Hfst. simpl in Hfst. destruct r as [r0|e]; [by exists r0|].
    by destruct Hfst. }
  destruct Hok as [r0 ->].
  destruct (parsed_report_is_numeric (H := sample_runtime) (sample_lines "report")
              empty_world w' r0 Hrun) as (report & -> & Hnum).
  destruct (Hnum "input_i") as (v & Hv & Hfin); [by_compute|].
  by exists report, v.
Defined.

(** ** What the two measurements write *)

Lemma writes_only_reads {A} v name (m : M A) : reads_only m -> writes_only v name m.
Proof.
  intros Hm w. destruct (Hm w) as [Hh Hl]. split; [|done].
  intros v' n _. unfold attr. by rewrite Hh.
Qed.

Lemma writes_only_bind {A B} v name (m : M A) (k : A -> M B) :
  writes_only v name m -> (forall a, writes_only v name (k a)) ->
  writes_only v name (bind m k).
Proof.
  intros Hm Hk w. unfold bind. specialize (Hm w).
  destruct (m w) as [[a|e] w1]; simpl in Hm; [|done].
  destruct (Hk a w1) as [Ha Hl]. destruct Hm as [Ha1 Hl1]. split.
  - intros v' n Hne. by rewrite Ha, Ha1.
  - by apply (log_extends_trans _ w1).
Qed.

Lemma attr_wset_other w l name x v name' :
  v <> VRef l \/ name' <> name -> attr (wset w l name x) v name' = attr w v name'.
Proof.
  intros [Hv|Hn]; [|by apply attr_wset_other_name].
  destruct v as [| | | | | |l']; try reflexivity.
  apply attr_wset_other_loc. congruence.
Qed.

Lemma writes_only_setattr v name x : writes_only v name (setattr v name x).
Proof.
  intros w. unfold setattr.
  destruct v as [| | | | | |l]; try (split; [done|apply log_extends_refl]).
  destruct (heap w !! l) as [o|] eqn:Ho; [|split; [done|apply log_extends_refl]].
  simpl. replace (World (<[l := <[name := x]> o]> (heap w)) (log w)) with (wset w l name x)
    by (unfold wset; by rewrite Ho).
  split; [|apply log_extends_wset]. intros v' n Hne. by apply attr_wset_other.
Qed.

Lemma keeps_statistics_reads {A} self keys (m : M A) :
  reads_only m -> keeps_statistics self keys m.
Proof.
  intros Hm w stats Hs. destruct (Hm w) as [Hh _]. exists stats. split; [|done].
  unfold attr. by rewrite Hh.
Qed.

Lemma keeps_statistics_bind {A B} self keys (m : M A) (k : A -> M B) :
  keeps_statistics self keys m -> (forall a, keeps_statistics self keys (k a)) ->
  keeps_statistics self keys (bind m k).
Proof.
  intros Hm Hk w stats Hs. unfold bind. destruct (Hm w stats Hs) as (stats1 & Hs1 & Hk1).
  destruct (m w) as [[a|e] w1]; simpl in Hs1; [|by exists stats1].
  destruct (Hk a w1 stats1 Hs1) as (stats2 & Hs2 & Hk2). exists stats2. split; [done|].
  intros key Hkey. by rewrite Hk2, Hk1.
Qed.

Lemma writes_only_set_statistic self key v :
  writes_only self "loudness_statistics" (set_statistic self key v).
Proof.
  unfold set_statistic. apply writes_only_bind.
  { apply writes_only_reads, reads_only_getattr. }
  intros ls. apply writes_only_bind.
  { apply writes_only_reads, reads_only_lift. }
  intros ls'. apply writes_only_setattr.
Qed.

Lemma keeps_statistics_set_statistic self key keys v :
  key ∈ keys -> keeps_statistics self keys (set_statistic self key v).
Proof.
  intros Hkey w stats Hs. destruct (attr_allocated _ _ _ _ Hs) as (l & -> & Hl).
  rewrite (set_statistic_run _ _ _ _ _ Hs). simpl. exists (<[key := v]> stats). split.
  - by apply attr_wset_same.
  - intros key' Hkey'. rewrite lookup_insert_ne; [done|]. by intros ->.
Qed.

Section MeasurementProperties.
Context `{Runtime}.

Lemma writes_only_parse_level self label key what output :
  writes_only self "loudness_statistics" (parse_level self label key what output).
Proof.
  unfold parse_level. destruct (re_findall_level label output) as [|m rest].
  - apply writes_only_reads. read_only.
  - destruct (String.eqb m "-"); [apply writes_only_set_statistic|].
    apply writes_only_bind; [apply writes_only_reads, reads_only_lift|].
    intros f. apply writes_only_set_statistic.
Qed.

Lemma keeps_statistics_parse_level self label key what output keys :
  key ∈ keys -> keeps_statistics self keys (parse_level self label key what output).
Proof.
  intros Hkey. unfold parse_level. destruct (re_findall_level label output) as [|m rest].
  - apply keeps_statistics_reads. read_only.
  - destruct (String.eqb m "-"); [by apply keeps_statistics_set_statistic|].
    apply keeps_statistics_bind; [apply keeps_statistics_reads, reads_only_lift|].
    intros f. by apply keeps_statistics_set_statistic.
Qed.

(** X11. The two measurements write to one place each and do not
    disturb each other. Whatever the output is and whether they return or
    raise, [parse_astats] and [parse_loudnorm_stats] change no attribute
    of any object but [loudness_statistics] of the stream itself; in that
    dictionary [parse_astats] changes at most [mean] and [max], so an
    [ebu] report already measured stays, and [parse_loudnorm_stats]
    changes at most [ebu], so [mean] and [max] stay. *)
Theorem measurements_are_separate (self : pyval) (output : string)
    (output_lines : list string) :
  writes_only self "loudness_statistics" (parse_astats self output)
  /\ writes_only self "loudness_statistics" (parse_loudnorm_stats self output_lines)
  /\ keeps_statistics self ["mean"; "max"] (parse_astats self output)
  /\ keeps_statistics self ["ebu"] (parse_loudnorm_stats self output_lines).
Proof.
  split; [|split; [|split]].
  - unfold parse_astats. apply writes_only_bind; [apply writes_only_parse_level|].
    intros _. apply writes_only_parse_level.
  - unfold parse_loudnorm_stats. apply writes_only_bind.
    + apply writes_only_reads, reads_only_parse_loudnorm_output.
    + intros ebu. apply writes_only_set_statistic.
  - unfold parse_astats. apply keeps_statistics_bind.
    + apply keeps_statistics_parse_level. by_compute.
    + intros _. apply keeps_statistics_parse_level. by_compute.
  - unfold parse_loudnorm_stats. apply keeps_statistics_bind.
    + apply keeps_statistics_reads, reads_only_parse_loudnorm_output.
    + intros ebu. apply keeps_statistics_set_statistic. by_compute.
Qed.

End MeasurementProperties.

(** ** The EBU planner, in full *)

Section PlannerFrames.
Context `{Runtime}.

Lemma writes_only_ebu_cap self :
  writes_only self "loudness_statistics" (ebu_cap_input_i self).
Proof.
  unfold ebu_cap_input_i.
  apply writes_only_bind; [apply writes_only_reads; read_only|]. intros input_i.
  apply writes_only_bind; [apply writes_only_reads; read_only|]. intros f.
  destruct (num_gt (NFloat f) (NInt 0)); [|apply writes_only_reads; read_only].
  apply writes_only_bind; [apply writes_only_reads; read_only|]. intros shown.
  apply writes_only_bind; [apply writes_only_reads; read_only|]. intros _.
  apply writes_only_bind; [apply writes_only_reads; read_only|]. intros ls.
  apply writes_only_bind; [apply writes_only_reads; read_only|]. intros ebu.
  apply writes_only_bind; [apply writes_only_reads; read_only|]. intros ebu'.
  apply writes_only_bind; [apply writes_only_reads; read_only|]. intros ls'.
  apply writes_only_setattr.
Qed.

Lemma capped_report_parsed report v f :
  report !! "input_i" = Some v -> py_float v = Ok f ->
  capped_report report
  = if num_gt (NFloat f) (NInt 0) then <["input_i" := VInt 0]> report else report.
Proof. intros Hv Hf. unfold capped_report. by rewrite Hv, Hf. Qed.

(** The cap, when it applies, is logged; when it does not, nothing
    happens. *)
Lemma ebu_cap_log self ls report shown f w :
  attr w self "loudness_statistics" = Some (VDict ls) ->
  ls !! "ebu" = Some (VDict report) ->
  report !! "input_i" = Some shown ->
  py_float shown = Ok f ->
  (num_gt (NFloat f) (NInt 0) = true ->
   (WARNING, cap_msg shown) ∈ log (snd (ebu_cap_input_i self w)))
  /\ (num_gt (NFloat f) (NInt 0) = false -> ebu_cap_input_i self w = (Ok tt, w)).
Proof.
  intros Hls Hebu Hv Hf. unfold ebu_cap_input_i.
  assert (Hitem : read_ebu_item w self "input_i" = Some shown)
    by by rewrite (read_ebu_item_report _ _ _ _ _ Hls Hebu).
  rewrite (bind_ok _ _ _ _ _ (ebu_item_ok _ _ _ _ Hitem)).
  rewrite Hf. step_lift. split; intros Hgt; rewrite Hgt; [|reflexivity].
  rewrite (bind_ok _ _ _ _ _ (ebu_item_ok _ _ _ _ Hitem)). step_log.
  set (w1 := add_log _ _ w).
  assert (Hls1 : attr w1 self "loudness_statistics" = Some (VDict ls)) by exact Hls.
  rewrite (bind_ok _ _ _ _ _ (getattr_ok _ _ _ _ Hls1)).
  rewrite (py_getitem_ok _ _ _ Hebu). step_lift.
  unfold py_setitem at 1. step_lift. unfold py_setitem at 1. step_lift.
  destruct (attr_allocated _ _ _ _ Hls1) as (l & -> & Hl).
  rewrite (setattr_run _ _ _ _ Hl). simpl. rewrite wset_log. subst w1. simpl.
  apply elem_of_app. right. by left.
Qed.

(** Besides the range target of the targets object, the mode phase
    changes nothing. *)
Lemma ebu_dynamic_mode_frame self ls report lra keep dynamic input_lra w v :
  attr w self "loudness_statistics" = Some (VDict ls) ->
  ls !! "ebu" = Some (VDict report) ->
  report !! "input_lra" = Some input_lra ->
  read_target w self "loudness_range_target" = Some lra ->
  read_target w self "keep_loudness_range_target" = Some keep ->
  read_target w self "dynamic" = Some dynamic ->
  read_targets w self <> Some v ->
  attr (snd (ebu_dynamic_mode self w)) v "loudness_range_target"
  = attr w v "loudness_range_target".
Proof.
  intros Hls Hebu Hilra Hlra Hkeep Hdyn Hv. unfold ebu_dynamic_mode.
  rewrite (bind_ok _ _ _ _ _ (target_ok _ _ _ _ Hdyn)).
  rewrite (bind_ok _ _ _ _ _ (target_ok _ _ _ _ Hkeep)).
  assert (Htail : forall (will : pyval) w1,
             heap (snd ((loudness_range_target <- target self "loudness_range_target" ;;
                         input_lra0 <- ebu_item self "input_lra" ;;
                         less <- lift (py_lt loudness_range_target input_lra0) ;;
                         if (less : bool) && negb (truthy will) then
                           shown_lra <- ebu_item self "input_lra" ;;
                           shown_target <- target self "loudness_range_target" ;;
                           logger WARNING (dynamic_fallback_msg shown_lra shown_target) ;;
                           ret (VBool true)
                         else ret will) w1)) = heap w1).
  { intros will w1.
    assert (Hr : reads_only
                   (loudness_range_target <- target self "loudness_range_target" ;;
                    input_lra0 <- ebu_item self "input_lra" ;;
                    less <- lift (py_lt loudness_range_target input_lra0) ;;
                    if (less : bool) && negb (truthy will) then
                      shown_lra <- ebu_item self "input_lra" ;;
                      shown_target <- target self "loudness_range_target" ;;
                      logger WARNING (dynamic_fallback_msg shown_lra shown_target) ;;
                      ret (VBool true)
                    else ret will)) by read_only.
    apply Hr. }
  destruct (truthy keep).
  - assert (Hstep : exists ln,
               read_targets w self = Some (VRef ln)
               /\ (logger DEBUG "Keeping target loudness range in second pass loudnorm filter" ;;
                   input_lra0 <- ebu_item self "input_lra" ;;
                   n <- targets self ;; setattr n "loudness_range_target" input_lra0) w
                  = (Ok tt, wset (add_log DEBUG
                                    "Keeping target loudness range in second pass loudnorm filter"
                                    w) ln "loudness_range_target" input_lra)).
    { step_log. set (w0 := add_log _ _ w).
      assert (Hitem : read_ebu_item w0 self "input_lra" = Some input_lra).
      { rewrite (read_ebu_item_report w0 self ls report); done. }
      rewrite (bind_ok _ _ _ _ _ (ebu_item_ok _ _ _ _ Hitem)).
      assert (Hlra0 : read_target w0 self "loudness_range_target" = Some lra) by exact Hlra.
      destruct (targets_ok _ _ _ _ Hlra0) as (n & Hn & Han).
      rewrite (bind_ok _ _ _ _ _ Hn).
      destruct (attr_allocated _ _ _ _ Han) as (ln & -> & Hln).
      exists ln. split; [|by apply setattr_run].
      unfold targets in Hn. unfold bind in Hn. rewrite !getattr_run in Hn.
      unfold read_targets.
      change (attr w0 self "media_file") with (attr w self "media_file") in Hn.
      destruct (attr w self "media_file") as [mf|]; [|done]. simpl.
      rewrite getattr_run in Hn.
      change (attr w0 mf "ffmpeg_normalize") with (attr w mf "ffmpeg_normalize") in Hn.
      destruct (attr w mf "ffmpeg_normalize") as [n|]; [|done]. congruence. }
    destruct Hstep as (ln & Hpath & Hrun). rewrite (bind_ok _ _ _ _ _ Hrun).
    unfold attr at 1. rewrite Htail. fold (attr (wset (add_log DEBUG
      "Keeping target loudness range in second pass loudnorm filter" w) ln
      "loudness_range_target" input_lra) v "loudness_range_target").
    rewrite attr_wset_other; [reflexivity|]. left. congruence.
  - rewrite (bind_ok _ _ _ tt w) by reflexivity.
    unfold attr at 1. by rewrite Htail.
Qed.

End PlannerFrames.

Section PlannerFull.
Context `{Runtime}.

Lemma read_targets_agree x w w' self :
  agree_except x w w' -> x <> "media_file" -> x <> "ffmpeg_normalize" ->
  read_targets w' self = read_targets w self.
Proof.
  intros Hag Hm Hf. unfold read_targets.
  rewrite (Hag self "media_file") by congruence.
  destruct (attr w self "media_file") as [mf|]; [|done]. simpl.
  apply Hag. congruence.
Qed.

Lemma attr_heap w w' v name : heap w' = heap w -> attr w' v name = attr w v name.
Proof. intros Hh. unfold attr. by rewrite Hh. Qed.

Lemma ebu_sample_rate_warning_warns self will n sr w :
  attr w self "ffmpeg_normalize" = Some n ->
  attr w n "sample_rate" = Some sr ->
  truthy will = true -> truthy sr = false ->
  ebu_sample_rate_warning self will w = (Ok tt, add_log WARNING sample_rate_msg w).
Proof.
  intros Hn Hsr Hwill Hfalsy. unfold ebu_sample_rate_warning. rewrite Hwill.
  rewrite (bind_ok _ _ _ _ _ (getattr_ok _ _ _ _ Hn)).
  rewrite (bind_ok _ _ _ _ _ (getattr_ok _ _ _ _ Hsr)).
  by rewrite Hfalsy.
Qed.

(** The planner on a plannable stream: what it returns, what it writes
    and what it leaves. *)
Lemma ebu_plan_full w self report lra keep dynamic input_lra less :
  ebu_plannable w self report lra keep dynamic input_lra ->
  py_lt (effective_range keep lra input_lra) input_lra = Ok less ->
  exists ls tl tp dm foff fi flra ftp fth w',
    attr w self "loudness_statistics" = Some (VDict ls)
    /\ read_target w self "target_level" = Some tl
    /\ read_target w self "true_peak" = Some tp
    /\ read_target w self "dual_mono" = Some dm
    /\ parses (capped_report report) "target_offset" foff
    /\ parses (capped_report report) "input_i" fi
    /\ parses (capped_report report) "input_lra" flra
    /\ parses (capped_report report) "input_tp" ftp
    /\ parses (capped_report report) "input_thresh" fth
    /\ second_pass_plan_ebu self w
       = (Ok (if less && negb (truthy dynamic) then VBool true else dynamic,
              ebu_items tl (effective_range keep lra input_lra) tp foff fi flra ftp fth
                dynamic dm), w')
    /\ attr w' self "loudness_statistics"
       = Some (VDict (<["ebu" := VDict (capped_report report)]> ls))
    /\ (forall v name, name <> "loudness_statistics" -> name <> "loudness_range_target" ->
        attr w' v name = attr w v name)
    /\ (forall v, v <> self ->
        attr w' v "loudness_statistics" = attr w v "loudness_statistics")
    /\ (forall v, read_targets w self <> Some v ->
        attr w' v "loudness_range_target" = attr w v "loudness_range_target")
    /\ (forall n, read_targets w self = Some n ->
        attr w' n "loudness_range_target" = Some (effective_range keep lra input_lra))
    /\ log_extends w w'
    /\ (forall shown f, report !! "input_i" = Some shown -> py_float shown = Ok f ->
        num_gt (NFloat f) (NInt 0) = true -> (WARNING, cap_msg shown) ∈ log w')
    /\ (less && negb (truthy dynamic) = true ->
        (WARNING, dynamic_fallback_msg input_lra (effective_range keep lra input_lra))
        ∈ log w')
    /\ (forall n sample_rate,
         attr w self "ffmpeg_normalize" = Some n -> attr w n "sample_rate" = Some sample_rate ->
         truthy (if less && negb (truthy dynamic) then VBool true else dynamic) = true ->
         truthy sample_rate = false ->
         (WARNING, sample_rate_msg) ∈ log w').
Proof.
  intros ((ls & Hls & Hebu) & Hkeys & Hilra & Hlra & Hkeep & Hdyn & [tl Htl] & [tp Htp]
          & [dm Hdm] & (n2 & Hn2 & [sr Hsr])) Hlt.
  destruct (Hkeys "target_offset") as [foff Hoff]; [by_compute|].
  destruct (Hkeys "input_i") as [fi Hi]; [by_compute|].
  destruct (Hkeys "input_lra") as [flra Hflra]; [by_compute|].
  destruct (Hkeys "input_tp") as [ftp Hftp]; [by_compute|].
  destruct (Hkeys "input_thresh") as [fth Hfth]; [by_compute|].
  (* the cap *)
  destruct (ebu_cap_run self ls report fi w Hls Hebu Hi) as (w1 & Hrun1 & Hls1 & Hag1 & Hlog1).
  pose proof Hi as (shown0 & Hshown0 & Hf0).
  rewrite <- (capped_report_parsed report shown0 fi Hshown0 Hf0) in Hls1.
  pose proof (parses_capped report fi Hi) as [fi1 Hi1].
  pose proof (parses_capped_other report fi "target_offset" foff ltac:(done) Hoff) as Hoff1.
  pose proof (parses_capped_other report fi "input_lra" flra ltac:(done) Hflra) as Hflra1.
  pose proof (parses_capped_other report fi "input_tp" ftp ltac:(done) Hftp) as Hftp1.
  pose proof (parses_capped_other report fi "input_thresh" fth ltac:(done) Hfth) as Hfth1.
  rewrite <- (capped_report_parsed report shown0 fi Hshown0 Hf0) in Hi1, Hoff1, Hflra1, Hftp1, Hfth1.
  set (report1 := capped_report report) in *.
  set (ls1 := <["ebu" := VDict report1]> ls) in *.
  assert (Hebu1 : ls1 !! "ebu" = Some (VDict report1)) by apply lookup_insert_eq.
  assert (Hilra1 : report1 !! "input_lra" = Some input_lra).
  { subst report1. rewrite (capped_report_parsed report shown0 fi Hshown0 Hf0).
    destruct (num_gt _ _); [|done]. by rewrite lookup_insert_ne. }
  destruct (writes_only_ebu_cap self w) as [Hw1 _]. rewrite Hrun1 in Hw1. simpl in Hw1.
  destruct (ebu_cap_log self ls report shown0 fi w Hls Hebu Hshown0 Hf0) as [Hcap _].
  rewrite Hrun1 in Hcap. simpl in Hcap.
  assert (Ht1 : forall name v, name <> "loudness_statistics" ->
                               read_target w self name = Some v ->
                               read_target w1 self name = Some v).
  { intros name v Hne Hv. by rewrite (read_target_agree "loudness_statistics" w w1). }
  (* the mode *)
  destruct (ebu_dynamic_mode_run self ls1 report1 lra keep dynamic input_lra less w1
              Hls1 Hebu1 Hilra1 (Ht1 "loudness_range_target" _ ltac:(done) Hlra)
              (Ht1 "keep_loudness_range_target" _ ltac:(done) Hkeep)
              (Ht1 "dynamic" _ ltac:(done) Hdyn) Hlt)
    as (w2 & Hrun2 & Hlra2 & Hobj2 & Hag2 & Hlog2 & Hwarn2).
  pose proof (fun v => ebu_dynamic_mode_frame self ls1 report1 lra keep dynamic input_lra w1 v
                         Hls1 Hebu1 Hilra1 (Ht1 "loudness_range_target" _ ltac:(done) Hlra)
                         (Ht1 "keep_loudness_range_target" _ ltac:(done) Hkeep)
                         (Ht1 "dynamic" _ ltac:(done) Hdyn)) as Hframe2.
  rewrite Hrun2 in Hframe2. simpl in Hframe2.
  assert (Hpath1 : read_targets w1 self = read_targets w self).
  { by apply (read_targets_agree "loudness_statistics"). }
  assert (Ht2 : forall name v, name <> "loudness_statistics" ->
                               name <> "loudness_range_target" ->
                               read_target w self name = Some v ->
                               read_target w2 self name = Some v).
  { intros name v Hne Hne' Hv.
    rewrite (read_target_agree "loudness_range_target" w1 w2) by done. by apply Ht1. }
  assert (Hls2 : attr w2 self "loudness_statistics" = Some (VDict ls1)).
  { by rewrite (Hag2 self "loudness_statistics"). }
  (* the sample rate *)
  assert (Hn22 : attr w2 self "ffmpeg_normalize" = Some n2).
  { rewrite (Hag2 self "ffmpeg_normalize") by done.
    by rewrite (Hag1 self "ffmpeg_normalize"). }
  assert (Hsr2 : attr w2 n2 "sample_rate" = Some sr).
  { rewrite (Hag2 n2 "sample_rate") by done. by rewrite (Hag1 n2 "sample_rate"). }
  destruct (ebu_sample_rate_warning_run self
              (if less && negb (truthy dynamic) then VBool true else dynamic) n2 sr w2 Hn22 Hsr2)
    as (w3 & Hrun3 & Hh3 & Hlog3).
  assert (Ht3 : forall name v, read_target w2 self name = Some v ->
                               read_target w3 self name = Some v).
  { intros name v Hv. unfold read_target, attr. rewrite Hh3. exact Hv. }
  assert (Hls3 : attr w3 self "loudness_statistics" = Some (VDict ls1)).
  { unfold attr. rewrite Hh3. exact Hls2. }
  (* the options *)
  destruct (ebu_opts_run self ls1 report1 tl (effective_range keep lra input_lra) tp dynamic dm
              foff fi1 flra ftp fth w3 Hls3 Hebu1 Hoff1 Hi1 Hflra1 Hftp1 Hfth1
              (Ht3 _ _ (Ht2 "target_level" _ ltac:(done) ltac:(done) Htl))
              (Ht3 _ _ Hlra2)
              (Ht3 _ _ (Ht2 "true_peak" _ ltac:(done) ltac:(done) Htp))
              (Ht3 _ _ (Ht2 "dynamic" _ ltac:(done) ltac:(done) Hdyn))
              (Ht3 _ _ (Ht2 "dual_mono" _ ltac:(done) ltac:(done) Hdm)))
    as (w4 & Hrun4 & Hh4 & Hlog4).
  assert (Hattr4 : forall v name, attr w4 v name = attr w2 v name).
  { intros v name. rewrite (attr_heap w3 w4) by done. by apply attr_heap. }
  exists ls, tl, tp, dm, foff, fi1, flra, ftp, fth, w4.
  split; [exact Hls|]. split; [exact Htl|]. split; [exact Htp|]. split; [exact Hdm|].
  split; [exact Hoff1|]. split; [exact Hi1|]. split; [exact Hflra1|].
  split; [exact Hftp1|]. split; [exact Hfth1|].
  split; [|split; [|split; [|split; [|split; [|split; [|split; [|split; [|split]]]]]]]].
  - unfold second_pass_plan_ebu.
    rewrite (bind_ok _ _ _ _ _ (ebu_first_pass_check_ok _ _ _ _ _ _ Hls Hebu Hilra)).
    rewrite (bind_ok _ _ _ _ _ Hrun1). rewrite (bind_ok _ _ _ _ _ Hrun2).
    rewrite (bind_ok _ _ _ _ _ Hrun3). by rewrite (bind_ok _ _ _ _ _ Hrun4).
  - rewrite Hattr4. exact Hls2.
  - intros v name Hne Hne'. rewrite Hattr4, (Hag2 v name) by done. by apply Hag1.
  - intros v Hv. rewrite Hattr4, (Hag2 v "loudness_statistics") by done.
    apply Hw1. by left.
  - intros v Hv. rewrite Hattr4, Hframe2 by by rewrite Hpath1.
    by apply Hag1.
  - intros n Hn. rewrite Hattr4. apply Hobj2. fold (read_targets w1 self). by rewrite Hpath1.
  - repeat (eapply log_extends_trans; [eassumption|]). apply log_extends_refl.
  - intros shown f Hshown Hf Hgt.
    assert (shown = shown0) by congruence. subst shown.
    assert (f = fi) by congruence. subst f.
    eapply log_extends_In; [|by apply Hcap].
    repeat (eapply log_extends_trans; [eassumption|]). apply log_extends_refl.
  - intros Hfall. eapply log_extends_In; [|by apply Hwarn2].
    eapply log_extends_trans; eassumption.
  - intros n sample_rate Hn Hrate Hwill Hfalsy.
    assert (n = n2) by congruence. subst n.
    assert (sample_rate = sr) by congruence. subst sample_rate.
    rewrite (ebu_sample_rate_warning_warns _ _ _ _ _ Hn22 Hsr2 Hwill Hfalsy) in Hrun3.
    injection Hrun3 as <-. eapply log_extends_In; [exact Hlog4|].
    simpl. apply elem_of_app. right. by left.
Qed.

End PlannerFull.

(** ** What the EBU planner returns *)

Section PlannerResults.
Context `{Runtime}.

Lemma capped_report_other report key :
  key <> "input_i" -> capped_report report !! key = report !! key.
Proof.
  intros Hne. unfold capped_report. destruct (report !! "input_i") as [v|]; [|done].
  destruct (py_float v) as [f|e]; [|done].
  destruct (num_gt (NFloat f) (NInt 0)); [|done]. by rewrite lookup_insert_ne.
Qed.

Lemma capped_report_idem report : capped_report (capped_report report) = capped_report report.
Proof.
  unfold capped_report at 2 3. destruct (report !! "input_i") as [v|] eqn:Hv.
  2:{ unfold capped_report. by rewrite Hv. }
  destruct (py_float v) as [f|e] eqn:Hf.
  2:{ unfold capped_report. by rewrite Hv, Hf. }
  destruct (num_gt (NFloat f) (NInt 0)) eqn:Hgt.
  - unfold capped_report. rewrite lookup_insert_eq. reflexivity.
  - unfold capped_report. by rewrite Hv, Hf, Hgt.
Qed.

Lemma read_ebu_item_stored w self ls report key :
  attr w self "loudness_statistics" = Some (VDict (<["ebu" := VDict report]> ls)) ->
  read_ebu_item w self key = report !! key.
Proof.
  intros Hls. apply (read_ebu_item_report w self _ report key Hls). apply lookup_insert_eq.
Qed.

Lemma py_float_zero f : py_float (VInt 0) = Ok f -> f = S754_zero false.
Proof. intros Hf. vm_compute in Hf. congruence. Qed.

(** X12. When the measured [input_i] is above zero, the planner logs the
    capping warning, replaces the value by [0] in the statistics of the
    stream, where it stays after the call, and passes [measured_i=0.0];
    otherwise the statistics keep the value and [measured_i] is its
    clamp into [[-99, 0]]. *)
Theorem positive_input_is_capped (w : world) (self : pyval) (report : gmap string pyval)
    (loudness_range_target keep dynamic input_lra shown : pyval) (less : bool)
    (f : spec_float) :
  ebu_plannable w self report loudness_range_target keep dynamic input_lra ->
  py_lt (effective_range keep loudness_range_target input_lra) input_lra = Ok less ->
  report !! "input_i" = Some shown ->
  py_float shown = Ok f ->
  exists will_use_dynamic_mode opts w',
    second_pass_plan_ebu self w = (Ok (will_use_dynamic_mode, opts), w')
    /\ (num_gt (NFloat f) (NInt 0) = true ->
        read_ebu_item w' self "input_i" = Some (VInt 0)
        /\ (WARNING, cap_msg shown) ∈ log w'
        /\ opt_value opts "measured_i" = Some (VFloat (S754_zero false)))
    /\ (num_gt (NFloat f) (NInt 0) = false ->
        read_ebu_item w' self "input_i" = Some shown
        /\ opt_value opts "measured_i" = Some (clamped f (-99) 0)).
Proof.
  intros Hplan Hlt Hshown Hf.
  destruct (ebu_plan_full _ _ _ _ _ _ _ _ Hplan Hlt)
    as (ls & tl & tp & dm & foff & fi & flra & ftp & fth & w' & Hls & _ & _ & _ & _ & Hi
        & _ & _ & _ & Hrun & Hls' & _ & _ & _ & _ & _ & Hcap & _).
  eexists _, _, w'. split; [exact Hrun|].
  pose proof (read_ebu_item_stored w' self ls (capped_report report) "input_i" Hls') as Hitem.
  rewrite (capped_report_parsed _ _ _ Hshown Hf) in Hitem, Hi.
  destruct Hi as (v & Hv & Hfv).
  split; intros Hgt; rewrite Hgt in *.
  - rewrite lookup_insert_eq in Hitem, Hv. injection Hv as <-.
    apply py_float_zero in Hfv as ->.
    split; [exact Hitem|]. split; [by apply (Hcap shown f)|reflexivity].
  - assert (v = shown) by congruence. subst v.
    assert (fi = f) by congruence. subst fi.
    split; [congruence|reflexivity].
Qed.

(** X13. Each of the five measured options of the second pass is the
    clamp of the field the statistics hold after the call: [offset] of
    [target_offset] into [[-99, 99]], [measured_i] of [input_i] into
    [[-99, 0]], [measured_lra] of [input_lra] into [[0, 99]],
    [measured_tp] of [input_tp] into [[-99, 99]] and [measured_thresh] of
    [input_thresh] into [[-99, 0]]. So each lies in its range, except
    that a field that is NaN is passed on as NaN. *)
Theorem measured_options_are_clamped (w : world) (self : pyval)
    (report : gmap string pyval) (loudness_range_target keep dynamic input_lra : pyval)
    (less : bool) :
  ebu_plannable w self report loudness_range_target keep dynamic input_lra ->
  py_lt (effective_range keep loudness_range_target input_lra) input_lra = Ok less ->
  exists will_use_dynamic_mode opts w',
    second_pass_plan_ebu self w = (Ok (will_use_dynamic_mode, opts), w')
    /\ forall option field lo hi,
        (option, field, lo, hi) ∈ option_ranges ->
        exists v f r,
          read_ebu_item w' self field = Some v
          /\ py_float v = Ok f
          /\ opt_value opts option = Some (VNum r)
          /\ r = py_max (py_min (NFloat f) (NInt hi)) (NInt lo)
          /\ (f <> S754_nan -> num_le (NInt lo) r = true /\ num_le r (NInt hi) = true)
          /\ (f = S754_nan -> r = NFloat S754_nan).
Proof.
  intros Hplan Hlt.
  destruct (ebu_plan_full _ _ _ _ _ _ _ _ Hplan Hlt)
    as (ls & tl & tp & dm & foff & fi & flra & ftp & fth & w' & Hls & _ & _ & _ & Hoff & Hi
        & Hflra & Hftp & Hfth & Hrun & Hls' & _).
  eexists _, _, w'. split; [exact Hrun|].
  assert (Hone : forall field f lo hi,
             parses (capped_report report) field f -> lo <= hi ->
             exists v,
               read_ebu_item w' self field = Some v
               /\ py_float v = Ok f
               /\ (f <> S754_nan ->
                   num_le (NInt lo) (py_max (py_min (NFloat f) (NInt hi)) (NInt lo)) = true
                   /\ num_le (py_max (py_min (NFloat f) (NInt hi)) (NInt lo)) (NInt hi) = true)
               /\ (f = S754_nan ->
                   py_max (py_min (NFloat f) (NInt hi)) (NInt lo) = NFloat S754_nan)).
  { intros field f lo hi (v & Hv & Hf) Hle. exists v.
    split; [by rewrite (read_ebu_item_stored w' self ls (capped_report report))|].
    split; [exact Hf|]. split.
    - intros Hnan. apply clamp_bounds.
      + rewrite num_le_int. by apply Z.leb_le.
      + by destruct f.
    - intros ->. reflexivity. }
  assert (Hgive : forall option field f lo hi,
             parses (capped_report report) field f -> lo <= hi ->
             opt_value
               (ebu_items tl (effective_range keep loudness_range_target input_lra) tp foff fi
                  flra ftp fth dynamic dm) option
             = Some (clamped f lo hi) ->
             exists v f0 r,
               read_ebu_item w' self field = Some v
               /\ py_float v = Ok f0
               /\ opt_value
                    (ebu_items tl (effective_range keep loudness_range_target input_lra) tp
                       foff fi flra ftp fth dynamic dm) option
                  = Some (VNum r)
               /\ r = py_max (py_min (NFloat f0) (NInt hi)) (NInt lo)
               /\ (f0 <> S754_nan -> num_le (NInt lo) r = true /\ num_le r (NInt hi) = true)
               /\ (f0 = S754_nan -> r = NFloat S754_nan)).
  { intros option field f lo hi Hp Hle Hopt.
    destruct (Hone field f lo hi Hp Hle) as (v & Hv & Hf & Hin' & Hnan).
    exists v, f. eexists. split; [exact Hv|]. split; [exact Hf|].
    split; [exact Hopt|]. split; [reflexivity|]. split; [exact Hin'|exact Hnan]. }
  intros option field lo hi Hin. unfold option_ranges in Hin.
  apply elem_of_cons in Hin as [[= -> -> -> ->]|Hin];
    [by apply (Hgive "offset" "target_offset" foff)|].
  apply elem_of_cons in Hin as [[= -> -> -> ->]|Hin];
    [by apply (Hgive "measured_i" "input_i" fi)|].
  apply elem_of_cons in Hin as [[= -> -> -> ->]|Hin];
    [by apply (Hgive "measured_lra" "input_lra" flra)|].
  apply elem_of_cons in Hin as [[= -> -> -> ->]|Hin];
    [by apply (Hgive "measured_tp" "input_tp" ftp)|].
  apply elem_of_cons in Hin as [[= -> -> -> ->]|Hin];
    [by apply (Hgive "measured_thresh" "input_thresh" fth)|].
  by apply elem_of_nil in Hin.
Qed.

(** X14. The options of the second pass come in the order [i], [lra],
    [tp], [offset], [measured_i], [measured_lra], [measured_tp],
    [measured_thresh], [linear], [print_format], with [dual_mono] last
    and only when the targets have it set. [i] and [tp] are the target
    level and the true peak of the targets as they are, neither clamped
    nor converted, and [print_format] is ["json"]. *)
Theorem ebu_options_in_order (w : world) (self : pyval) (report : gmap string pyval)
    (loudness_range_target keep dynamic input_lra : pyval) (less : bool) :
  ebu_plannable w self report loudness_range_target keep dynamic input_lra ->
  py_lt (effective_range keep loudness_range_target input_lra) input_lra = Ok less ->
  exists target_level true_peak dual_mono will_use_dynamic_mode opts w',
    read_target w self "target_level" = Some target_level
    /\ read_target w self "true_peak" = Some true_peak
    /\ read_target w self "dual_mono" = Some dual_mono
    /\ second_pass_plan_ebu self w = (Ok (will_use_dynamic_mode, opts), w')
    /\ map fst opts
       = (["i"; "lra"; "tp"; "offset"; "measured_i"; "measured_lra"; "measured_tp";
           "measured_thresh"; "linear"; "print_format"]
          ++ if truthy dual_mono then ["dual_mono"] else [])%list
    /\ opt_value opts "i" = Some target_level
    /\ opt_value opts "tp" = Some true_peak
    /\ opt_value opts "print_format" = Some (VStr "json")
    /\ opt_value opts "dual_mono" = (if truthy dual_mono then Some (VStr "true") else None).
Proof.
  intros Hplan Hlt.
  destruct (ebu_plan_full _ _ _ _ _ _ _ _ Hplan Hlt)
    as (ls & tl & tp & dm & foff & fi & flra & ftp & fth & w' & _ & Htl & Htp & Hdm & _ & _
        & _ & _ & _ & Hrun & _).
  exists tl, tp, dm. eexists _, _, w'.
  split; [exact Htl|]. split; [exact Htp|]. split; [exact Hdm|]. split; [exact Hrun|].
  unfold ebu_items. by destruct (truthy dm).
Qed.

Lemma read_target_via w self name :
  read_target w self name = (read_targets w self ≫= fun n => attr w n name).
Proof.
  unfold read_target, read_targets.
  destruct (attr w self "media_file") as [mf|]; [|done]. simpl.
  by destruct (attr w mf "ffmpeg_normalize").
Qed.

Lemma read_targets_frame w w' self :
  (forall v name, name <> "loudness_statistics" -> name <> "loudness_range_target" ->
                  attr w' v name = attr w v name) ->
  read_targets w' self = read_targets w self.
Proof.
  intros Hf. unfold read_targets. rewrite (Hf self "media_file") by done.
  destruct (attr w self "media_file") as [mf|]; [|done]. simpl. by apply Hf.
Qed.

Lemma read_target_frame w w' self name :
  (forall v name, name <> "loudness_statistics" -> name <> "loudness_range_target" ->
                  attr w' v name = attr w v name) ->
  name <> "loudness_statistics" -> name <> "loudness_range_target" ->
  read_target w' self name = read_target w self name.
Proof.
  intros Hf Hn1 Hn2. rewrite !read_target_via, (read_targets_frame w w') by done.
  destruct (read_targets w self) as [n|]; [|done]. simpl. by apply Hf.
Qed.

Lemma effective_range_again keep lra input_lra :
  effective_range keep (effective_range keep lra input_lra) input_lra
  = effective_range keep lra input_lra.
Proof. unfold effective_range. by destruct (truthy keep). Qed.

(** After a planning call the stream can be planned again, with the
    range the call has left in the targets. *)
Lemma planned_is_plannable w self report lra keep dynamic input_lra ls w' :
  ebu_plannable w self report lra keep dynamic input_lra ->
  attr w' self "loudness_statistics"
  = Some (VDict (<["ebu" := VDict (capped_report report)]> ls)) ->
  (forall v name, name <> "loudness_statistics" -> name <> "loudness_range_target" ->
                  attr w' v name = attr w v name) ->
  (forall n, read_targets w self = Some n ->
             attr w' n "loudness_range_target" = Some (effective_range keep lra input_lra)) ->
  ebu_plannable w' self (capped_report report) (effective_range keep lra input_lra) keep
    dynamic input_lra.
Proof.
  intros ((ls0 & Hls & Hebu) & Hkeys & Hilra & Hlra & Hkeep & Hdyn & Htl & Htp & Hdm
          & (n2 & Hn2 & Hsr)) Hls' Hf Hobj.
  split; [|split; [|split; [|split; [|split; [|split; [|split; [|split; [|split]]]]]]]].
  - eexists. split; [exact Hls'|]. apply lookup_insert_eq.
  - intros key Hkey. destruct (Hkeys key Hkey) as [f Hp].
    destruct (decide (key = "input_i")) as [->|Hne].
    + destruct Hp as (v & Hv & Hfv). rewrite (capped_report_parsed _ _ _ Hv Hfv).
      by apply (parses_capped report f); exists v.
    + exists f. destruct Hp as (v & Hv & Hfv). exists v.
      by rewrite capped_report_other.
  - by rewrite capped_report_other.
  - rewrite read_target_via, (read_targets_frame w w') by done.
    rewrite read_target_via in Hlra.
    destruct (read_targets w self) as [n|] eqn:Hn; [|done]. simpl. by apply Hobj.
  - by rewrite (read_target_frame w w').
  - by rewrite (read_target_frame w w').
  - by rewrite (read_target_frame w w').
  - by rewrite (read_target_frame w w').
  - by rewrite (read_target_frame w w').
  - exists n2. rewrite !Hf by done. done.
Qed.

(** X15. Planning a stream a second time gives the same mode and the
    same options as the first time, hence the same filter string, and
    leaves every attribute of every object as the first call left it:
    what the first call wrote (the capped [input_i], the kept range) is
    what the second one finds. *)
Theorem planning_again_changes_nothing (w : world) (self : pyval)
    (report : gmap string pyval) (loudness_range_target keep dynamic input_lra : pyval)
    (less : bool) :
  ebu_plannable w self report loudness_range_target keep dynamic input_lra ->
  py_lt (effective_range keep loudness_range_target input_lra) input_lra = Ok less ->
  exists plan w' w'',
    second_pass_plan_ebu self w = (Ok plan, w')
    /\ second_pass_plan_ebu self w' = (Ok plan, w'')
    /\ get_second_pass_opts_ebu self w
       = (Ok ("loudnorm=" +:+ dict_to_filter_opts (snd plan)), w')
    /\ get_second_pass_opts_ebu self w'
       = (Ok ("loudnorm=" +:+ dict_to_filter_opts (snd plan)), w'')
    /\ forall v name, attr w'' v name = attr w' v name.
Proof.
  intros Hplan Hlt. pose proof Hplan as Hplan0.
  destruct Hplan0 as ((ls0 & Hls0 & Hebu0) & _ & _ & Hlra & _).
  destruct (ebu_plan_full _ _ _ _ _ _ _ _ Hplan Hlt)
    as (ls & tl & tp & dm & foff & fi & flra & ftp & fth & w' & Hls & Htl & Htp & Hdm & Hoff
        & Hi & Hflra & Hftp & Hfth & Hrun & Hls' & Hf1 & Hf2 & Hf3 & Hobj & _).
  pose proof (planned_is_plannable _ _ _ _ _ _ _ _ _ Hplan Hls' Hf1 Hobj) as Hplan'.
  assert (Hlt' : py_lt (effective_range keep
                          (effective_range keep loudness_range_target input_lra) input_lra)
                   input_lra = Ok less) by by rewrite effective_range_again.
  destruct (ebu_plan_full _ _ _ _ _ _ _ _ Hplan' Hlt')
    as (ls2 & tl2 & tp2 & dm2 & foff2 & fi2 & flra2 & ftp2 & fth2 & w'' & Hls2 & Htl2 & Htp2
        & Hdm2 & Hoff2 & Hi2 & Hflra2 & Hftp2 & Hfth2 & Hrun2 & Hls'' & Hg1 & Hg2 & Hg3
        & Hobj2 & _).
  rewrite capped_report_idem in Hoff2, Hi2, Hflra2, Hftp2, Hfth2, Hls''.
  rewrite effective_range_again in Hrun2, Hobj2.
  assert (ls2 = <["ebu" := VDict (capped_report report)]> ls) by congruence. subst ls2.
  rewrite insert_insert_eq in Hls''.
  rewrite (read_target_frame w w') in Htl2, Htp2, Hdm2 by done.
  assert (tl2 = tl) by congruence. assert (tp2 = tp) by congruence.
  assert (dm2 = dm) by congruence. subst tl2 tp2 dm2.
  rewrite (parses_fun _ _ _ _ Hoff2 Hoff), (parses_fun _ _ _ _ Hi2 Hi),
    (parses_fun _ _ _ _ Hflra2 Hflra), (parses_fun _ _ _ _ Hftp2 Hftp),
    (parses_fun _ _ _ _ Hfth2 Hfth) in Hrun2.
  eexists _, w', w''. split; [exact Hrun|]. split; [exact Hrun2|].
  split; [unfold get_second_pass_opts_ebu; by rewrite (bind_ok _ _ _ _ _ Hrun)|].
  split; [unfold get_second_pass_opts_ebu; by rewrite (bind_ok _ _ _ _ _ Hrun2)|].
  intros v name.
  destruct (attr_allocated _ _ _ _ Hls) as (l0 & -> & _).
  rewrite read_target_via in Hlra.
  destruct (read_targets w (VRef l0)) as [n|] eqn:Hn; [|done]. simpl in Hlra.
  destruct (attr_allocated _ _ _ _ Hlra) as (ln & -> & _).
  destruct v as [| | | | | |l']; try reflexivity.
  destruct (decide (name = "loudness_statistics")) as [->|Hn1].
  { destruct (decide (l' = l0)) as [->|Hl]; [by rewrite Hls'', Hls'|].
    apply Hg2. congruence. }
  destruct (decide (name = "loudness_range_target")) as [->|Hn2]; [|by apply Hg1].
  destruct (decide (l' = ln)) as [->|Hl].
  - rewrite (Hobj2 (VRef ln)), (Hobj (VRef ln)); [done|done|].
    by rewrite (read_targets_frame w w').
  - apply Hg3. rewrite (read_targets_frame w w') by done. rewrite Hn. congruence.
Qed.

(** X16. The range kept from one stream reaches the other streams of
    the file. When the input's range is kept, planning one stream
    overwrites the range target of the targets object, and the first
    pass of any stream with the same targets that is measured afterwards
    carries that measured range as its [lra], not the range the caller
    had set. *)
Theorem kept_range_reaches_other_streams (w : world) (self other : pyval)
    (report : gmap string pyval)
    (loudness_range_target keep dynamic input_lra offset : pyval) :
  ebu_plannable w self report loudness_range_target keep dynamic input_lra ->
  truthy keep = true ->
  read_targets w other = read_targets w self ->
  read_target w self "offset" = Some offset ->
  exists plan opts w',
    second_pass_plan_ebu self w = (Ok plan, w')
    /\ read_target w other "loudness_range_target" = Some loudness_range_target
    /\ read_target w' other "loudness_range_target" = Some input_lra
    /\ first_pass_opts other w' = (Ok opts, w')
    /\ opt_value opts "lra" = Some input_lra.
Proof.
  intros Hplan Hkeep Hsame Hoffset. pose proof Hplan as Hplan0.
  destruct Hplan0 as (_ & Hkeys & Hilra & Hlra & _).
  assert (Hlt : py_lt (effective_range keep loudness_range_target input_lra) input_lra
                = Ok false).
  { unfold effective_range. rewrite Hkeep.
    destruct (Hkeys "input_lra") as (f & v & Hv & Hf); [by_compute|].
    apply (py_lt_irrefl _ f). congruence. }
  destruct (ebu_plan_full _ _ _ _ _ _ _ _ Hplan Hlt)
    as (ls & tl & tp & dm & foff & fi & flra & ftp & fth & w' & Hls & Htl & Htp & Hdm & _
        & _ & _ & _ & _ & Hrun & _ & Hf1 & _ & _ & Hobj & _).
  unfold effective_range in Hobj. rewrite Hkeep in Hobj.
  assert (Hother : forall name, read_target w other name = read_target w self name).
  { intros name. by rewrite !read_target_via, Hsame. }
  assert (Hother' : forall name v, name <> "loudness_statistics" ->
                                   name <> "loudness_range_target" ->
                                   read_target w self name = Some v ->
                                   read_target w' other name = Some v).
  { intros name v Hn1 Hn2 Hv. by rewrite (read_target_frame w w'), Hother. }
  assert (Hlra' : read_target w' other "loudness_range_target" = Some input_lra).
  { rewrite read_target_via, (read_targets_frame w w'), Hsame by done.
    rewrite read_target_via in Hlra.
    destruct (read_targets w self) as [n|] eqn:Hn; [|done]. simpl. by apply Hobj. }
  eexists _, _, w'. split; [exact Hrun|]. split; [by rewrite Hother|].
  split; [exact Hlra'|]. split.
  - apply (first_pass_opts_run other tl input_lra tp offset dm); [|done| | |];
      by apply Hother'.
  - reflexivity.
Qed.

Lemma stored_num f : exists n, stored f = VNum n.
Proof. destruct f as [s|[]| |s m e]; by eexists. Qed.

(** After [parse_loudnorm_stats] the [ebu] statistic is a dictionary
    that holds a number under each of the nine fields. *)
Lemma parsed_report_stored self output_lines w w' :
  parse_loudnorm_stats self output_lines w = (Ok tt, w') ->
  exists ls report,
    attr w' self "loudness_statistics" = Some (VDict ls)
    /\ ls !! "ebu" = Some (VDict report)
    /\ (forall key, key ∈ ebu_keys -> exists f, report !! key = Some (stored f)).
Proof.
  unfold parse_loudnorm_stats. unfold bind at 1.
  destruct (_parse_loudnorm_output output_lines w) as [[ebu|e] w1] eqn:Hparse; [|done].
  rewrite parse_loudnorm_output_run in Hparse.
  destruct (loudnorm_json output_lines) as [text|]; [|done].
  unfold decode_loudnorm_stats in Hparse.
  destruct (json_loads text) as [stats|e]; [|done].
  unfold bind, logger, ret, raise in Hparse.
  destruct (validate_keys ebu_keys stats) as [validated|e] eqn:Hval; [|done].
  injection Hparse as <- <-.
  assert (Hdict : exists m, stats = VDict m).
  { unfold ebu_keys in Hval. simpl in Hval. unfold obind in Hval.
    destruct (validate_key stats "input_i") eqn:Hk; [|done].
    apply validate_key_Ok in Hk as (m & _ & -> & _). by exists m. }
  destruct Hdict as [m ->].
  apply validate_keys_Ok in Hval as (report & -> & Hin & _).
  unfold set_statistic. unfold bind at 1. rewrite getattr_run.
  destruct (attr _ self "loudness_statistics") as [ls|] eqn:Hls; [|done].
  unfold bind at 1, lift at 1.
  destruct ls as [| | | | |ls|]; try done. simpl py_setitem. cbn iota.
  destruct (attr_allocated _ _ _ _ Hls) as (l & -> & Hl).
  rewrite (setattr_run _ _ _ _ Hl). intros [= <-].
  exists (<["ebu" := VDict report]> ls), report. split; [|split].
  - by apply attr_wset_same.
  - by rewrite lookup_insert_eq.
  - exact Hin.
Qed.

(** X17. A stream that [parse_loudnorm_stats] has measured is accepted by
    the planner: with targets that can be read and a range target that
    is a number, [get_second_pass_opts_ebu] returns a filter string; the
    "First pass not run" error is for unmeasured streams only. *)
Theorem measured_stream_is_planned (self : pyval) (output_lines : list string)
    (w0 w : world) (range : num) (keep dynamic : pyval) :
  parse_loudnorm_stats self output_lines w0 = (Ok tt, w) ->
  read_target w self "loudness_range_target" = Some (VNum range) ->
  read_target w self "keep_loudness_range_target" = Some keep ->
  read_target w self "dynamic" = Some dynamic ->
  is_Some (read_target w self "target_level") ->
  is_Some (read_target w self "true_peak") ->
  is_Some (read_target w self "dual_mono") ->
  (exists n, attr w self "ffmpeg_normalize" = Some n /\ is_Some (attr w n "sample_rate")) ->
  exists opts w',
    get_second_pass_opts_ebu self w = (Ok ("loudnorm=" +:+ dict_to_filter_opts opts), w').
Proof.
  intros Hparse Hlra Hkeep Hdyn Htl Htp Hdm Hsr.
  destruct (parsed_report_stored _ _ _ _ Hparse) as (ls & report & Hls & Hebu & Hstored).
  destruct (Hstored "input_lra") as [f Hf]; [by_compute|].
  destruct (stored_num f) as [n Hn].
  assert (Hplan : ebu_plannable w self report (VNum range) keep dynamic (stored f)).
  { split; [by exists ls|]. split; [|by repeat split].
    intros key Hkey. destruct (Hstored key) as [g Hg].
    - unfold planner_keys in Hkey. unfold ebu_keys.
      repeat (apply elem_of_cons in Hkey as [->|Hkey]; [by_compute|]).
      by apply elem_of_nil in Hkey.
    - by apply (stored_parses _ _ g). }
  assert (Hlt : exists less,
             py_lt (effective_range keep (VNum range) (stored f)) (stored f) = Ok less).
  { rewrite Hn. unfold effective_range. destruct (truthy keep); by eexists. }
  destruct Hlt as [less Hlt].
  destruct (ebu_plan_run _ _ _ _ _ _ _ _ Hplan Hlt) as (opts & w' & _ & Hget & _).
  by exists opts, w'.
Qed.

(** X18. In dynamic mode, whether the caller asked for it or the planner
    fell back to it, a stream whose [self.ffmpeg_normalize] has no sample
    rate set is warned that the filter will resample to 192 kHz. *)
Theorem dynamic_mode_warns_about_sample_rate (w : world) (self : pyval)
    (report : gmap string pyval)
    (loudness_range_target keep dynamic input_lra n sample_rate : pyval) (less : bool) :
  ebu_plannable w self report loudness_range_target keep dynamic input_lra ->
  py_lt (effective_range keep loudness_range_target input_lra) input_lra = Ok less ->
  attr w self "ffmpeg_normalize" = Some n ->
  attr w n "sample_rate" = Some sample_rate ->
  truthy sample_rate = false ->
  less = true \/ truthy dynamic = true ->
  exists will_use_dynamic_mode opts w',
    second_pass_plan_ebu self w = (Ok (will_use_dynamic_mode, opts), w')
    /\ truthy will_use_dynamic_mode = true
    /\ (WARNING, sample_rate_msg) ∈ log w'.
Proof.
  intros Hplan Hlt Hn Hrate Hfalsy Hmode.
  destruct (ebu_plan_full _ _ _ _ _ _ _ _ Hplan Hlt)
    as (ls & tl & tp & dm & foff & fi & flra & ftp & fth & w' & _ & _ & _ & _ & _ & _
        & _ & _ & _ & Hrun & _ & _ & _ & _ & _ & _ & _ & _ & Hwarn).
  assert (Hwill : truthy (if less && negb (truthy dynamic) then VBool true else dynamic)
                  = true).
  { destruct (truthy dynamic) eqn:Hd.
    - by rewrite andb_false_r.
    - destruct Hmode as [->|Hd']; [reflexivity|congruence]. }
  eexists _, _, w'. split; [exact Hrun|]. split; [exact Hwill|].
  by apply (Hwarn n sample_rate).
Qed.

End PlannerResults.

Lemma loud_world_plannable :
  ebu_plannable (H := sample_runtime) loud_world sample_self loud_report
    (VFloat (float_of_int 7)) (VBool false) (VBool false) (VFloat (float_of_int 5)).
Proof. plannable. Qed.

Lemma two_stream_world_plannable :
  ebu_plannable (H := sample_runtime) two_stream_world sample_self (sample_ebu_report 9)
    (VFloat (float_of_int 7)) (VBool true) (VBool false) (VFloat (float_of_int 9)).
Proof. plannable. Qed.

(** An input measured at 3 LUFS is capped. *)
Lemma positive_input_is_capped_witness :
  exists will_use_dynamic_mode opts w',
    second_pass_plan_ebu (H := sample_runtime) sample_self loud_world
    = (Ok (will_use_dynamic_mode, opts), w')
    /\ read_ebu_item w' sample_self "input_i" = Some (VInt 0)
    /\ (WARNING, cap_msg (H := sample_runtime) (VFloat (float_of_int 3))) ∈ log w'
    /\ opt_value opts "measured_i" = Some (VFloat (S754_zero false)).
Proof.
  destruct (positive_input_is_capped (H := sample_runtime) loud_world sample_self loud_report
              (VFloat (float_of_int 7)) (VBool false) (VBool false) (VFloat (float_of_int 5))
              (VFloat (float_of_int 3)) false (float_of_int 3) loud_world_plannable)
    as (will & opts & w' & Hrun & Hcap & _);
    [vm_compute; reflexivity|vm_compute; reflexivity|vm_compute; reflexivity|].
  destruct (Hcap ltac:(vm_compute; reflexivity)) as (Hitem & Hlog & Hopt).
  exists will, opts, w'. split; [exact Hrun|]. split; [exact Hitem|].
  split; [exact Hlog|exact Hopt].
Defined.

(** The offset of the example lies in its range. *)
Lemma measured_options_are_clamped_witness :
  exists will_use_dynamic_mode opts w' r,
    second_pass_plan_ebu (H := sample_runtime) sample_self (ebu_world 7 12 false false)
    = (Ok (will_use_dynamic_mode, opts), w')
    /\ opt_value opts "offset" = Some (VNum r)
    /\ num_le (NInt (-99)) r = true /\ num_le r (NInt 99) = true.
Proof.
  destruct (measured_options_are_clamped (H := sample_runtime) (ebu_world 7 12 false false)
              sample_self (sample_ebu_report 12) (VFloat (float_of_int 7)) (VBool false)
              (VBool false) (VFloat (float_of_int 12)) true fallback_world_plannable)
    as (will & opts & w' & Hrun & Hall); [vm_compute; reflexivity|].
  destruct (Hall "offset" "target_offset" (-99) 99) as (v & f & r & Hv & Hf & Hopt & _ & Hin & _);
    [by_compute|].
  assert (Hw : read_ebu_item
                 (snd (second_pass_plan_ebu (H := sample_runtime) sample_self
                         (ebu_world 7 12 false false)))
                 sample_self "target_offset" = Some (VFloat (float_of_int 0)))
    by (vm_compute; reflexivity).
  rewrite Hrun in Hw. cbn [snd] in Hw.
  assert (Hfin : f <> S754_nan).
  { rewrite Hw in Hv. injection Hv as <-. vm_compute in Hf. injection Hf as <-. discriminate. }
  destruct (Hin Hfin) as [Hlo Hhi].
  exists will, opts, w', r. split; [exact Hrun|]. split; [exact Hopt|].
  split; [exact Hlo|exact Hhi].
Defined.

(** The options of the example, where [dual_mono] is not set. *)
Lemma ebu_options_in_order_witness :
  exists will_use_dynamic_mode opts w',
    second_pass_plan_ebu (H := sample_runtime) sample_self (ebu_world 7 12 false false)
    = (Ok (will_use_dynamic_mode, opts), w')
    /\ map fst opts
       = ["i"; "lra"; "tp"; "offset"; "measured_i"; "measured_lra"; "measured_tp";
          "measured_thresh"; "linear"; "print_format"]
    /\ opt_value opts "i" = Some (VFloat (float_of_int (-23)))
    /\ opt_value opts "dual_mono" = None.
Proof.
  destruct (ebu_options_in_order (H := sample_runtime) (ebu_world 7 12 false false)
              sample_self (sample_ebu_report 12) (VFloat (float_of_int 7)) (VBool false)
              (VBool false) (VFloat (float_of_int 12)) true fallback_world_plannable)
    as (tl & tp & dm & will & opts & w' & Htl & _ & Hdm & Hrun & Hkeys & Hi & _ & _ & Hdual);
    [vm_compute; reflexivity|].
  assert (Htl0 : read_target (ebu_world 7 12 false false) sample_self "target_level"
                 = Some (VFloat (float_of_int (-23)))) by (vm_compute; reflexivity).
  assert (Hdm0 : read_target (ebu_world 7 12 false false) sample_self "dual_mono"
                 = Some (VBool false)) by (vm_compute; reflexivity).
  rewrite Htl0 in Htl. injection Htl as <-. rewrite Hdm0 in Hdm. injection Hdm as <-.
  exists will, opts, w'. split; [exact Hrun|]. split; [exact Hkeys|].
  split; [exact Hi|exact Hdual].
Defined.

(** The loud stream, planned twice. *)
Lemma planning_again_changes_nothing_witness :
  exists plan w' w'',
    second_pass_plan_ebu (H := sample_runtime) sample_self loud_world = (Ok plan, w')
    /\ second_pass_plan_ebu (H := sample_runtime) sample_self w' = (Ok plan, w'')
    /\ forall v name, attr w'' v name = attr w' v name.
Proof.
  destruct (planning_again_changes_nothing (H := sample_runtime) loud_world sample_self
              loud_report (VFloat (float_of_int 7)) (VBool false) (VBool false)
              (VFloat (float_of_int 5)) false loud_world_plannable)
    as (plan & w' & w'' & Hrun & Hrun2 & _ & _ & Hsame); [vm_compute; reflexivity|].
  exists plan, w', w''. split; [exact Hrun|]. split; [exact Hrun2|exact Hsame].
Defined.

(** The caller asked for a range of 7; after the first stream, whose
    range is 9, has been planned, the second stream is measured with
    [lra=9]. *)
Lemma kept_range_reaches_other_streams_witness :
  exists plan opts w',
    second_pass_plan_ebu (H := sample_runtime) sample_self two_stream_world = (Ok plan, w')
    /\ read_target two_stream_world (VRef 4%positive) "loudness_range_target"
       = Some (VFloat (float_of_int 7))
    /\ first_pass_opts (VRef 4%positive) w' = (Ok opts, w')
    /\ opt_value opts "lra" = Some (VFloat (float_of_int 9)).
Proof.
  destruct (kept_range_reaches_other_streams (H := sample_runtime) two_stream_world sample_self
              (VRef 4%positive) (sample_ebu_report 9) (VFloat (float_of_int 7)) (VBool true)
              (VBool false) (VFloat (float_of_int 9)) (VFloat (float_of_int 0))
              two_stream_world_plannable)
    as (plan & opts & w' & Hrun & Hbefore & _ & Hopts & Hlra);
    [reflexivity|vm_compute; reflexivity|vm_compute; reflexivity|].
  exists plan, opts, w'. split; [exact Hrun|]. split; [exact Hbefore|].
  split; [exact Hopts|exact Hlra].
Defined.

(** The stream of the sample world, measured from the report of a silent
    input and then planned. *)
Lemma measured_stream_is_planned_witness :
  let w := snd (parse_loudnorm_stats (H := sample_runtime) sample_self (sample_lines "report")
                  (sample_stream_world "ebu")) in
  exists opts w',
    get_second_pass_opts_ebu (H := sample_runtime) sample_self w
    = (Ok ("loudnorm=" +:+ sample_dict_to_filter_opts opts), w').
Proof.
  intros w.
  apply (measured_stream_is_planned (H := sample_runtime) sample_self (sample_lines "report")
           (sample_stream_world "ebu") w (NFloat (float_of_int 7)) (VBool false) (VBool false)).
  - vm_compute; reflexivity.
  - vm_compute; reflexivity.
  - vm_compute; reflexivity.
  - vm_compute; reflexivity.
  - eexists; vm_compute; reflexivity.
  - eexists; vm_compute; reflexivity.
  - eexists; vm_compute; reflexivity.
  - eexists. split; [vm_compute; reflexivity|]. eexists; vm_compute; reflexivity.
Defined.

(** The fallback of the example: no sample rate is set. *)
Lemma dynamic_mode_warns_about_sample_rate_witness :
  exists will_use_dynamic_mode opts w',
    second_pass_plan_ebu (H := sample_runtime) sample_self (ebu_world 7 12 false false)
    = (Ok (will_use_dynamic_mode, opts), w')
    /\ (WARNING, sample_rate_msg) ∈ log w'.
Proof.
  destruct (dynamic_mode_warns_about_sample_rate (H := sample_runtime)
              (ebu_world 7 12 false false) sample_self (sample_ebu_report 12)
              (VFloat (float_of_int 7)) (VBool false) (VBool false)
              (VFloat (float_of_int 12)) (VRef 1%positive) VNone true
              fallback_world_plannable)
    as (will & opts & w' & Hrun & _ & Hwarn);
    [vm_compute; reflexivity|vm_compute; reflexivity|vm_compute; reflexivity|reflexivity
    |by left|].
  exists will, opts, w'. split; [exact Hrun|exact Hwarn].
Defined.

(** ** More about the clamp *)

Section ClampProperties.
Context `{Runtime}.

(** X19. Clamping is idempotent: the result of [_constrain] on a number
    is changed no more by a second clamp into the same range, which logs
    nothing, under whatever name. *)
Theorem constrain_is_idempotent (number min_range max_range : num) (name name' : option string)
    (w : world) :
  num_le min_range max_range = true ->
  is_nan number = false ->
  exists result w',
    _constrain number min_range max_range name w = (Ok result, w')
    /\ _constrain result min_range max_range name' w' = (Ok result, w').
Proof.
  intros Hr Hn. pose proof (num_le_not_gt _ _ Hr) as Hgt.
  destruct (clamp_bounds number min_range max_range Hr Hn) as [Hlo Hhi]. simpl in Hlo, Hhi.
  eexists _, _. split; [apply (constrain_run _ _ _ _ _ Hgt)|].
  rewrite (constrain_run _ _ _ _ _ Hgt). simpl.
  rewrite (clamp_in_range _ _ _ Hlo Hhi).
  destruct (num_le_not_nan _ _ Hhi) as [Hn' _]. by rewrite (num_ne_refl _ Hn').
Qed.

(** X20. NaN is not clamped: whatever the range, [_constrain] returns a
    NaN as it is, since no comparison with it holds, and logs it as a
    change when a name is given, since NaN differs from itself. A
    measurement that is NaN therefore reaches the filter options. *)
Theorem nan_is_not_clamped (min_range max_range : num) (name : option string) (w : world) :
  num_le min_range max_range = true ->
  _constrain (NFloat S754_nan) min_range max_range name w
  = (Ok (NFloat S754_nan),
     match name with
     | Some n =>
         add_log WARNING
           (constrain_msg n min_range max_range (NFloat S754_nan) (NFloat S754_nan)) w
     | None => w
     end).
Proof.
  intros Hr. rewrite (constrain_run _ _ _ _ _ (num_le_not_gt _ _ Hr)). simpl.
  assert (Hc : py_max (py_min (NFloat S754_nan) max_range) min_range = NFloat S754_nan).
  { unfold py_min, py_max, num_lt, num_gt.
    rewrite (num_compare_nan_r max_range (NFloat S754_nan)) by done.
    by rewrite (num_compare_nan_r min_range (NFloat S754_nan)). }
  rewrite Hc. reflexivity.
Qed.

End ClampProperties.

(** [150] clamped into [[-99, 99]] is [99], and [99] stays. *)
Lemma constrain_is_idempotent_witness :
  exists w',
    _constrain (H := sample_runtime) (NFloat (float_of_int 150)) (NInt (-99)) (NInt 99)
      (Some "target_offset") empty_world = (Ok (NInt 99), w')
    /\ _constrain (H := sample_runtime) (NInt 99) (NInt (-99)) (NInt 99)
         (Some "target_offset") w' = (Ok (NInt 99), w').
Proof.
  destruct (constrain_is_idempotent (H := sample_runtime) (NFloat (float_of_int 150))
              (NInt (-99)) (NInt 99) (Some "target_offset") (Some "target_offset") empty_world)
    as (result & w' & Hrun & Hagain); [reflexivity|reflexivity|].
  assert (Hres : fst (_constrain (H := sample_runtime) (NFloat (float_of_int 150))
                        (NInt (-99)) (NInt 99) (Some "target_offset") empty_world)
                 = Ok (NInt 99)) by reflexivity.
  rewrite Hrun in Hres. injection Hres as ->.
  exists w'. split; [exact Hrun|exact Hagain].
Defined.

Lemma nan_is_not_clamped_witness :
  fst (_constrain (H := sample_runtime) (NFloat S754_nan) (NInt (-99)) (NInt 0)
         (Some "input_i") empty_world)
  = Ok (NFloat S754_nan).
Proof.
  by rewrite (nan_is_not_clamped (H := sample_runtime) (NInt (-99)) (NInt 0) (Some "input_i")
                empty_world eq_refl).
Defined.

(** ** Methods that change nothing *)

Section ReadingMethods.
Context `{Runtime} `{OsRuntime}.

(** X21. The peak/RMS planner changes no object: unlike the EBU planner,
    which writes to the stream and to the targets, on every input and
    whether it returns or raises [get_second_pass_opts_peakrms] leaves
    the heap as it was and only adds to the log. *)
Theorem peakrms_planner_changes_nothing (self : pyval) (w : world) :
  heap (snd (get_second_pass_opts_peakrms self w)) = heap w
  /\ log_extends w (snd (get_second_pass_opts_peakrms self w)).
Proof.
  assert (Hr : reads_only (get_second_pass_opts_peakrms self)).
  { unfold get_second_pass_opts_peakrms, peakrms_adjustment. read_only. }
  apply Hr.
Qed.

(** X22. Reporting changes nothing: [get_stats], [get_pcm_codec],
    [_get_filter_str_with_pre_filter], both [__repr__] methods and the
    setting up of the two first-pass commands leave every object as it
    was on every input, whether they return or raise, and only add to the
    log. *)
Theorem reporting_changes_nothing (self current_filter : pyval) :
  reads_only (get_stats self)
  /\ reads_only (get_pcm_codec self)
  /\ reads_only (_get_filter_str_with_pre_filter self current_filter)
  /\ reads_only (MediaStream_repr self)
  /\ reads_only (AudioStream_repr self)
  /\ reads_only (parse_astats_cmd self)
  /\ reads_only (parse_loudnorm_stats_cmd self).
Proof.
  split; [unfold get_stats; read_only|]. split; [unfold get_pcm_codec; read_only|].
  split; [unfold _get_filter_str_with_pre_filter; read_only|].
  split; [unfold MediaStream_repr; read_only; apply reads_only_py_basename|].
  split; [unfold AudioStream_repr; read_only; apply reads_only_py_basename|]. split.
  - unfold parse_astats_cmd. read_only.
  - unfold parse_loudnorm_stats_cmd, first_pass_opts. read_only.
Qed.

End ReadingMethods.

(** A stream of 24 bits is written as [pcm_s24le]. *)
Lemma pcm_codec_of_bit_depth_witness :
  let w := snd (AudioStream (VRef 2%positive) (VRef 1%positive) (VInt 0) VNone (VInt 24) VNone
                  report_world) in
  get_pcm_codec (H := sample_runtime) (VRef 3%positive) w = (Ok "pcm_s24le", w).
Proof.
  intros w.
  destruct (pcm_codec_of_bit_depth (H := sample_runtime) (VRef 3%positive) (VInt 24) w)
    as (_ & Hint & _); [vm_compute; reflexivity|].
  rewrite (Hint 24 eq_refl). reflexivity.
Defined.

(** The filter string of the stream of the examples, whose targets have
    a high-pass pre-filter. *)
Lemma filter_str_with_pre_filter_witness :
  let w := snd (AudioStream (VRef 2%positive) (VRef 1%positive) (VInt 0) VNone VNone VNone
                  report_world) in
  _get_filter_str_with_pre_filter (H := sample_runtime) (VRef 3%positive) (VStr "anull") w
  = (Ok "[0:0]highpass=f=100,anull", w).
Proof.
  intros w.
  destruct (filter_str_with_pre_filter (H := sample_runtime) (VRef 3%positive) (VInt 0)
              (VStr "highpass=f=100") "anull" w) as (_ & Hpre & _);
    [vm_compute; reflexivity|vm_compute; reflexivity|].
  rewrite (Hpre "highpass=f=100" eq_refl); [reflexivity|discriminate].
Defined.

(** A stream whose EBU report has been measured keeps it through the
    peak/RMS measurement. *)
Lemma measurements_are_separate_witness :
  let w := snd (parse_astats (H := sample_runtime) sample_self
                  ("RMS level dB: -23.0" +:+ nl +:+ "Peak level dB: -1.2")
                  (ebu_world 7 9 false false)) in
  exists stats,
    attr w sample_self "loudness_statistics" = Some (VDict stats)
    /\ stats !! "ebu" = Some (VDict (sample_ebu_report 9)).
Proof.
  intros w.
  destruct (measurements_are_separate (H := sample_runtime) sample_self
              ("RMS level dB: -23.0" +:+ nl +:+ "Peak level dB: -1.2") [])
    as (_ & _ & Hkeep & _).
  destruct (Hkeep (ebu_world 7 9 false false)
              (<["ebu" := VDict (sample_ebu_report 9)]>
                 (<["mean" := VNone]> (<["max" := VNone]> ∅))))
    as (stats & Hstats & Hkeys); [vm_compute; reflexivity|].
  exists stats. split; [exact Hstats|]. rewrite Hkeys; [reflexivity|].
  by_compute.
Defined.

(** ** Text beyond ASCII *)

(** Every ASCII digit is of the class [\d], and so is the digit three of
    the Arabic script; a Latin letter and the superscript two, which is a
    digit but no decimal digit, are not. *)
Lemma decimal_digits :
  forallb is_digit [48; 49; 50; 51; 52; 53; 54; 55; 56; 57; 1635]%N = true
  /\ existsb is_digit [47; 58; 97; 178]%N = false.
Proof. split; vm_compute; reflexivity. Qed.

(** A digit of two bytes is read as one character. *)
Lemma arabic_three_is_a_digit : utf8_head arabic_three = Some (1635%N, 2%nat).
Proof. vm_compute; reflexivity. Qed.

(** The value of the regular expression may be made of digits that are not
    ASCII: the match is the whole digit, what follows it is left out. *)
Lemma findall_reads_unicode_digits :
  re_findall_level "RMS level dB: " ("RMS level dB: " +:+ arabic_three +:+ " dB")
  = [arabic_three].
Proof. vm_compute; reflexivity. Qed.

(** [parse_astats] stores [3.0] for such a value, as Python does. *)
Lemma astats_unicode_digit :
  exists w',
    parse_astats (H := sample_runtime) sample_self
      ("RMS level dB: " +:+ arabic_three +:+ nl +:+ "Peak level dB: -1.2")
      (sample_stream_world "rms")
    = (Ok tt, w')
    /\ read_statistic w' sample_self "mean" = Some (VFloat (float_of_int 3)).
Proof. eexists. split; vm_compute; reflexivity. Qed.

(** Without the RMS label the error of the absent label comes first: a
    Peak value that [float] would reject is not looked at. *)
Lemma absent_rms_label_comes_first :
  fst (parse_astats (H := sample_runtime) sample_self "Peak level dB: -."
         (sample_stream_world "rms"))
  = Raise (FFmpegNormalizeError "Could not get mean volume for in.wav").
Proof. vm_compute; reflexivity. Qed.

(** [strip] removes the white space of Unicode: here a no-break space,
    U+00A0, in front, and an ideographic space, U+3000, behind. *)
Lemma strip_unicode_space :
  strip (String "194" (String "160" "{") +:+ String "227" (String "128" (String "128" " ")))
  = "{".
Proof. vm_compute; reflexivity. Qed.

(** The second byte of a character is no white space of its own: the byte
    133 ends the encoding of U+0145 here and stays. *)
Lemma strip_keeps_continuation_bytes :
  strip (String "197" (String "133" "")) = String "197" (String "133" "").
Proof. vm_compute; reflexivity. Qed.

Section PathObjects.
Context `{Runtime} `{OsRuntime}.

(** An input file that is an object, a [bytes] or an [os.PathLike], prints
    with the base name the platform gives for it. *)
Lemma repr_of_path_object (self : pyval) (w : world) (l : loc) (base : string)
    (stream_id : pyval) :
  (attr w self "media_file" ≫= fun mf => attr w mf "input_file") = Some (VRef l) ->
  object_basename (heap w) l = Ok base ->
  attr w self "stream_id" = Some stream_id ->
  AudioStream_repr self w
  = (Ok ("<" +:+ base +:+ ", audio stream " +:+ py_str stream_id +:+ ">"), w).
Proof.
  intros Hfile Hbase Hid. unfold AudioStream_repr.
  rewrite (bind_ok _ _ _ _ _ (input_file_ok _ _ _ Hfile)).
  rewrite (bind_ok _ _ _ base w) by (unfold py_basename; by rewrite Hbase).
  by rewrite (bind_ok _ _ _ _ _ (getattr_ok _ _ _ _ Hid)).
Qed.

End PathObjects.
